(** * agent_demo.py: tool channel, completion client and conversation loop

    A shallow embedding of [src/python/agent_demo.py], and the properties of
    its tool channel ([ToolServerClient]), its completion client
    ([OpenAICompatibleProvider], with the retry loop and the decoder of event
    streams) and its conversation loop ([run_agent]).

    Conventions of the embedding.
    - Values decoded from JSON are terms of [json].  Numbers are integers: the
      wire formats read by this program (RPC envelopes, chat completions,
      token counters, slot indexes) carry no fractional numbers.
    - Byte strings and text are [string]; [bytes.strip] removes the six ASCII
      white-space bytes.
    - A computation returns a [result]: [Ok v], [Raise e] for a Python
      exception, or [Unmodelled] where the program's behaviour would depend
      on Python's handling of a value whose type the wire format excludes
      (a slot index that is not an integer, for instance), or on a limit of
      the interpreter or the platform (a delay longer than [time.sleep]
      takes, a run of digits longer than [int] converts).  Handlers catch
      [Raise] only; [Unmodelled] always propagates.
    - The interpreter and library facilities the program calls but does not
      define ([json.loads], [str] of a list or dict, the text of built-in
      exceptions) are the fields of the class [runtime].
    - The child process, the HTTP server and the random generator are
      oracles indexed by the number of reads, attempts and draws made so
      far ([env]); the mutable state of a run is the record [world].
      Writing a request to the child's stdin is taken to succeed, and an
      attempt has one of three outcomes: a response, an [HTTPError] or a
      [URLError] (time-outs included).
    - Of what the program prints, the answer on stdout and the lines on
      stderr that tell the outcomes apart are kept ([output]); the dumps of
      the history for debugging and the cost figure, a floating-point
      number, are left out. *)

From Stdlib Require Import ZArith List String Ascii Bool Lia QArith Qround.
From Stdlib Require Import DecimalString DecimalZ DecimalPos Sorting.Sorted Sorting.Permutation.
Import ListNotations.
Local Open Scope Z_scope.
Local Open Scope string_scope.

(** ** JSON values and the Python operations used on them *)

Unset Elimination Schemes.
Inductive json : Type :=
| JNull
| JBool (b : bool)
| JNum (n : Z)
| JStr (s : string)
| JArr (l : list json)
| JObj (kvs : list (string * json)).
Set Elimination Schemes.

Inductive exn : Type :=
| RuntimeError (arg : json)
| AttributeError
| TypeError
| KeyError
| IndexError
| ValueError
| HTTPError (code : Z) (retry_after : option string) (body : string)
| URLError.

Inductive result (A : Type) : Type :=
| Ok (a : A)
| Raise (e : exn)
| Unmodelled.
Arguments Ok {A} a.
Arguments Raise {A} e.
Arguments Unmodelled {A}.

Definition rbind {A B} (r : result A) (k : A -> result B) : result B :=
  match r with
  | Ok a => k a
  | Raise e => Raise e
  | Unmodelled => Unmodelled
  end.

Declare Scope res_scope.
Delimit Scope res_scope with res.
Notation "'let*' x := c 'in' k" := (rbind c (fun x => k))
  (at level 10, x pattern, c at level 100, k at level 200) : res_scope.

Class runtime : Type := {
  json_loads : string -> option json;
  repr_compound : json -> string;
  exn_text : exn -> string
}.

Fixpoint dict_get (kvs : list (string * json)) (k : string) : option json :=
  match kvs with
  | [] => None
  | (k', v) :: rest => if String.eqb k' k then Some v else dict_get rest k
  end.

(** [bool(v)] *)
Definition truthy (v : json) : bool :=
  match v with
  | JNull => false
  | JBool b => b
  | JNum n => negb (n =? 0)%Z
  | JStr s => negb (String.eqb s "")
  | JArr l => match l with [] => false | _ => true end
  | JObj kvs => match kvs with [] => false | _ => true end
  end.

(** [a or b] *)
Definition py_or (a b : json) : json := if truthy a then a else b.

(** [v.get(k, d)]: only a dict has the method. *)
Definition py_get_default (v : json) (k : string) (d : json) : result json :=
  match v with
  | JObj kvs => Ok (match dict_get kvs k with Some x => x | None => d end)
  | _ => Raise AttributeError
  end.

(** [v.get(k)] *)
Definition py_get (v : json) (k : string) : result json := py_get_default v k JNull.

(** [k in d] for a dict [d] *)
Definition py_in (k : string) (kvs : list (string * json)) : bool :=
  match dict_get kvs k with Some _ => true | None => false end.

(** [v[k]] for a string key [k] *)
Definition py_item (v : json) (k : string) : result json :=
  match v with
  | JObj kvs => match dict_get kvs k with Some x => Ok x | None => Raise KeyError end
  | _ => Raise TypeError
  end.

(** [v[0]]; a dict decoded from JSON has string keys only. *)
Definition py_item0 (v : json) : result json :=
  match v with
  | JArr (x :: _) => Ok x
  | JArr [] => Raise IndexError
  | JStr (String c _) => Ok (JStr (String c ""))
  | JStr "" => Raise IndexError
  | JObj _ => Raise KeyError
  | _ => Raise TypeError
  end.

(** [str(n)] for an int *)
Definition str_int (n : Z) : string := NilZero.string_of_int (Z.to_int n).

(** [str(v)], as an f-string renders a value decoded from JSON *)
Definition py_str `{runtime} (v : json) : string :=
  match v with
  | JNull => "None"
  | JBool true => "True"
  | JBool false => "False"
  | JNum n => str_int n
  | JStr s => s
  | _ => repr_compound v
  end.

(** [str(e)] *)
Definition str_exn `{runtime} (e : exn) : string :=
  match e with
  | RuntimeError a => py_str a
  | _ => exn_text e
  end.

(** [v == s] for a str [s] *)
Definition eq_str (v : json) (s : string) : bool :=
  match v with
  | JStr t => String.eqb t s
  | _ => false
  end.

(** ** Byte strings *)

Definition is_space (c : ascii) : bool :=
  let n := nat_of_ascii c in
  (Nat.eqb n 32 || (Nat.leb 9 n && Nat.leb n 13))%bool.

Fixpoint lstrip (s : string) : string :=
  match s with
  | String c r => if is_space c then lstrip r else s
  | EmptyString => EmptyString
  end.

Fixpoint rstrip (s : string) : string :=
  match s with
  | String c r =>
      match rstrip r with
      | EmptyString => if is_space c then EmptyString else String c EmptyString
      | r' => String c r'
      end
  | EmptyString => EmptyString
  end.

Definition strip (s : string) : string := rstrip (lstrip s).

Fixpoint drop (n : nat) (s : string) : string :=
  match n, s with
  | S m, String _ r => drop m r
  | _, _ => s
  end.

(** ** Token usage *)

Record TokenUsage : Type := mkTokenUsage {
  input_tokens : Z;
  output_tokens : Z;
  total_tokens : Z
}.

Definition zero_usage : TokenUsage := mkTokenUsage 0 0 0.

Module Usage.
(** [TokenUsage.add]: the receiver after [self.add(other)] *)
Definition add (self other : TokenUsage) : TokenUsage :=
  mkTokenUsage (input_tokens self + input_tokens other)
               (output_tokens self + output_tokens other)
               (total_tokens self + total_tokens other).
End Usage.

(** ** The world of a run *)

(** What one attempt to reach the server ends in: a response with its body
    (as lines), an [HTTPError] with status, Retry-After header and body, or
    a [URLError]. *)
Inductive attempt : Type :=
| HttpOk (body : list string)
| HttpFail (code : Z) (retry_after : option string) (body : string)
| ConnFail.

(** The surroundings of a run: the server's answer to the [k]-th attempt,
    the [k]-th draw of [random.uniform(0.0, 0.2)], and the [k]-th line read
    from the child's stdout (the empty string at end of file). *)
Record env : Type := mkEnv {
  server : nat -> attempt;
  rand : nat -> Q;
  proc_stdout : nat -> string
}.

Inductive output : Type :=
| Stdout (v : json)
| StderrUsage (u : TokenUsage)
| StderrMaxSteps
| StderrLLMFailed (e : exn).

(** The state a run changes: the client's [_next_id], the lines read from
    and the requests written to the child, the attempts made, the draws
    taken, the sleeps (in ms), the payload of every attempt, and what was
    printed. *)
Record world : Type := mkWorld {
  next_id : Z;
  proc_reads : nat;
  proc_stdin : list json;
  http_attempts : nat;
  rand_draws : nat;
  sleeps : list Z;
  llm_inputs : list json;
  outputs : list output
}.

Definition init_world : world := mkWorld 1 0 [] 0 0 [] [] [].

Definition M (A : Type) : Type := world -> result A * world.

Definition ret {A} (a : A) : M A := fun w => (Ok a, w).
Definition bind {A B} (c : M A) (k : A -> M B) : M B :=
  fun w => match c w with
           | (Ok a, w') => k a w'
           | (Raise e, w') => (Raise e, w')
           | (Unmodelled, w') => (Unmodelled, w')
           end.
Definition lift {A} (r : result A) : M A := fun w => (r, w).
Definition raise {A} (e : exn) : M A := lift (Raise e).
Definition try_except {A} (c : M A) (h : exn -> M A) : M A :=
  fun w => match c w with
           | (Raise e, w') => h e w'
           | other => other
           end.

Declare Scope io_scope.
Delimit Scope io_scope with io.
Notation "x <- c ;; k" := (bind c (fun x => k))
  (at level 100, c at next level, right associativity) : io_scope.
Notation "c ;;; k" := (bind c (fun _ => k))
  (at level 100, right associativity) : io_scope.

(** ** ToolServerClient *)

Module ToolServerClient.
Section Client.
Context `{runtime} (E : env).

Definition fresh_id : M string :=
  fun w => (Ok (str_int (next_id w)),
            mkWorld (next_id w + 1) (proc_reads w) (proc_stdin w) (http_attempts w)
                    (rand_draws w) (sleeps w) (llm_inputs w) (outputs w)).

Definition write_stdin (payload : json) : M unit :=
  fun w => (Ok tt,
            mkWorld (next_id w) (proc_reads w) (proc_stdin w ++ [payload]) (http_attempts w)
                    (rand_draws w) (sleeps w) (llm_inputs w) (outputs w)).

Definition readline : M string :=
  fun w => (Ok (proc_stdout E (proc_reads w)),
            mkWorld (next_id w) (S (proc_reads w)) (proc_stdin w) (http_attempts w)
                    (rand_draws w) (sleeps w) (llm_inputs w) (outputs w)).

(** The checks on the reply line. *)
Definition check_reply (req_id line : string) : result json :=
  (if String.eqb line "" then Raise (RuntimeError (JStr "toolserver exited"))
   else
     match json_loads line with
     | None => Raise ValueError
     | Some resp =>
         let* rid := py_get resp "id" in
         if negb (eq_str rid req_id) then
           Raise (RuntimeError (JStr ("mismatched response id: expected " ++ req_id
                                       ++ ", got " ++ py_str rid)))
         else
           let* err := py_get resp "error" in
           if truthy err then
             let* e := py_item resp "error" in
             let* m := py_item e "message" in
             Raise (RuntimeError m)
           else py_get resp "result"
     end)%res.

Definition request (method : string) (params : json) : M json :=
  (req_id <- fresh_id ;;
   write_stdin (JObj [("id", JStr req_id); ("method", JStr method);
                      ("params", py_or params (JObj []))]) ;;;
   line <- readline ;;
   lift (check_reply req_id line))%io.

Definition list_tools : M json := request "list_tools" JNull.

Definition call_tool (name input_obj : json) : M json :=
  request "call_tool" (JObj [("name", name); ("input", input_obj)]).

End Client.
End ToolServerClient.

(** ** Provider responses and events *)

Record ToolCall : Type := mkToolCall {
  tc_id : json;
  tc_name : json;
  tc_arguments : json
}.

Record ProviderResponse : Type := mkProviderResponse {
  message : json;
  tool_calls : list ToolCall;
  raw : json;
  usage : TokenUsage
}.

Inductive ProviderEvent : Type :=
| content_delta (content : string)
| tool_use_start (tool_call : ToolCall)
| tool_use_delta (tool_call : ToolCall)
| tool_use_stop (tool_call : ToolCall)
| complete (response : ProviderResponse).

(** The items of [for x in v: x.get(...) ...]: a list gives its elements;
    the elements of a non-empty dict or str are strs, on which [.get]
    fails at once; a number or boolean is not iterable. *)
Definition iter_for_get (v : json) : result (list json) :=
  match v with
  | JArr l => Ok l
  | JObj [] => Ok []
  | JStr "" => Ok []
  | JObj _ => Raise AttributeError
  | JStr _ => Raise AttributeError
  | _ => Raise TypeError
  end.

(** [int(v or 0)]; [int] of a str depends on Python's integer syntax. *)
Definition int_or_0 (v : json) : result Z :=
  match py_or v (JNum 0) with
  | JNum n => Ok n
  | JBool b => Ok (if b then 1 else 0)
  | JStr _ => Unmodelled
  | _ => Raise TypeError
  end.

(** [a + b] where [a] is a str *)
Definition py_add (a b : json) : result json :=
  match a, b with
  | JStr x, JStr y => Ok (JStr (x ++ y))
  | JStr _, _ => Raise TypeError
  | _, _ => Unmodelled
  end.

Fixpoint for_each {A S} (body : S -> A -> result S) (s : S) (l : list A) : result S :=
  match l with
  | [] => Ok s
  | x :: rest => rbind (body s x) (fun s' => for_each body s' rest)
  end.

Definition usage_of_dict (u : json) : result TokenUsage :=
  (let* p := py_get u "prompt_tokens" in
   let* i := int_or_0 p in
   let* c := py_get u "completion_tokens" in
   let* o := int_or_0 c in
   let* t := py_get u "total_tokens" in
   let* n := int_or_0 t in
   Ok (mkTokenUsage i o n))%res.

Definition extract_token_usage (result_ : json) : result TokenUsage :=
  let usage_ := match result_ with
                | JObj kvs => match dict_get kvs "usage" with Some u => u | None => JNull end
                | _ => JNull
                end in
  match usage_ with
  | JObj _ => usage_of_dict usage_
  | _ => Ok zero_usage
  end.

(** ** Slots of the streaming decoder: [tool_calls_by_index] *)

Fixpoint slot_get (slots : list (Z * ToolCall)) (idx : Z) : option ToolCall :=
  match slots with
  | [] => None
  | (i, tc) :: rest => if (i =? idx)%Z then Some tc else slot_get rest idx
  end.

(** [d[idx] = tc]: an existing key keeps its place. *)
Fixpoint slot_set (slots : list (Z * ToolCall)) (idx : Z) (tc : ToolCall) : list (Z * ToolCall) :=
  match slots with
  | [] => [(idx, tc)]
  | (i, old) :: rest =>
      if (i =? idx)%Z then (i, tc) :: rest else (i, old) :: slot_set rest idx tc
  end.

Fixpoint insert_sorted (kv : Z * ToolCall) (l : list (Z * ToolCall)) : list (Z * ToolCall) :=
  match l with
  | [] => [kv]
  | kv' :: rest =>
      if (fst kv <=? fst kv')%Z then kv :: l else kv' :: insert_sorted kv rest
  end.

(** The slots in the order of [sorted(tool_calls_by_index.keys())]. *)
Definition sorted_slots (slots : list (Z * ToolCall)) : list (Z * ToolCall) :=
  fold_right insert_sorted [] slots.

Record decoder : Type := mkDecoder {
  d_events : list ProviderEvent;
  d_content : string;
  d_finish_reason : json;
  d_usage : TokenUsage;
  d_slots : list (Z * ToolCall)
}.

Definition init_decoder : decoder :=
  mkDecoder [] "" (JStr "") zero_usage [].

Definition empty_call : ToolCall := mkToolCall (JStr "") (JStr "") (JStr "").

Definition emit (ev : ProviderEvent) (d : decoder) : decoder :=
  mkDecoder (d_events d ++ [ev]) (d_content d) (d_finish_reason d) (d_usage d) (d_slots d).

Definition with_id (tc : ToolCall) (v : json) : ToolCall :=
  mkToolCall v (tc_name tc) (tc_arguments tc).
Definition with_name (tc : ToolCall) (v : json) : ToolCall :=
  mkToolCall (tc_id tc) v (tc_arguments tc).
Definition with_arguments (tc : ToolCall) (v : json) : ToolCall :=
  mkToolCall (tc_id tc) (tc_name tc) v.

(** One element of [delta["tool_calls"]] (source lines 384-396).  The pair
    threaded through is the slot's dict [current] and the decoder. *)
Definition fragment_id (tc : json) (cd : ToolCall * decoder) : result (ToolCall * decoder) :=
  let (current, d) := cd in
  (let* tid := py_get tc "id" in
   if (truthy tid && negb (truthy (tc_id current)))%bool then
     let current := with_id current tid in
     Ok (current, emit (tool_use_start current) d)
   else Ok (current, d))%res.

Definition fragment_name (func : json) (cd : ToolCall * decoder) : result (ToolCall * decoder) :=
  let (current, d) := cd in
  (let* fname := py_get func "name" in
   if truthy fname then
     match fname with
     | JStr n =>
         if negb (eq_str (tc_name current) n) then
           let current := with_name current fname in
           Ok (current, emit (tool_use_start current) d)
         else Ok (current, d)
     | _ => Unmodelled
     end
   else Ok (current, d))%res.

Definition fragment_arguments (func : json) (cd : ToolCall * decoder) : result (ToolCall * decoder) :=
  let (current, d) := cd in
  match func with
  | JObj kvs =>
      (let* fargs := py_get func "arguments" in
       if (py_in "arguments" kvs && truthy fargs)%bool then
         let* a := py_add (tc_arguments current) fargs in
         let current := with_arguments current a in
         Ok (current, emit (tool_use_delta current) d)
       else Ok (current, d))%res
  | _ => Raise AttributeError
  end.

Definition fragment (d : decoder) (tc : json) : result decoder :=
  (let* i := py_get_default tc "index" (JNum 0) in
   match i with
   | JNum idx =>
       let current := match slot_get (d_slots d) idx with
                      | Some c => c
                      | None => empty_call
                      end in
       let* cd1 := fragment_id tc (current, d) in
       let* f := py_get tc "function" in
       let func := py_or f (JObj []) in
       let* cd2 := fragment_name func cd1 in
       let* cd3 := fragment_arguments func cd2 in
       let (current, d3) := cd3 in
       Ok (mkDecoder (d_events d3) (d_content d3) (d_finish_reason d3) (d_usage d3)
                     (slot_set (d_slots d3) idx current))
   | _ => Unmodelled
   end)%res.

Definition choice_content (delta : json) (d : decoder) : result decoder :=
  (let* delta_content := py_get delta "content" in
   if truthy delta_content then
     match delta_content with
     | JStr s =>
         let d := emit (content_delta s) d in
         Ok (mkDecoder (d_events d) (d_content d ++ s) (d_finish_reason d) (d_usage d)
                       (d_slots d))
     | _ => Raise TypeError
     end
   else Ok d)%res.

Definition choice_tool_calls (delta : json) (d : decoder) : result decoder :=
  match delta with
  | JObj kvs =>
      if py_in "tool_calls" kvs then
        (let* tcs := py_get delta "tool_calls" in
         let* items := iter_for_get (py_or tcs (JArr [])) in
         for_each fragment d items)%res
      else Ok d
  | _ => Raise AttributeError
  end.

Definition choice_step (d : decoder) (choice : json) : result decoder :=
  (let* dl := py_get choice "delta" in
   let delta := py_or dl (JObj []) in
   let* d1 := choice_content delta d in
   let* d2 := choice_tool_calls delta d1 in
   let* fr := py_get choice "finish_reason" in
   Ok (if truthy fr then
         mkDecoder (d_events d2) (d_content d2) (py_or fr (d_finish_reason d2)) (d_usage d2)
                   (d_slots d2)
       else d2))%res.

Definition chunk_usage_step (chunk_usage : json) (d : decoder) : result decoder :=
  match chunk_usage with
  | JObj _ =>
      (let* u := usage_of_dict chunk_usage in
       Ok (mkDecoder (d_events d) (d_content d) (d_finish_reason d) (Usage.add (d_usage d) u)
                     (d_slots d)))%res
  | _ => Ok d
  end.

Definition chunk_step (d : decoder) (chunk : json) : result decoder :=
  (let* chunk_usage := py_get chunk "usage" in
   let* d1 := chunk_usage_step chunk_usage d in
   let* ch := py_get chunk "choices" in
   let* items := iter_for_get (py_or ch (JArr [])) in
   for_each choice_step d1 items)%res.

(** What the head of the [while True] loop does with one line read. *)
Inductive line_action : Type :=
| Stop
| Skip
| Chunk (chunk : json).

Definition read_line `{runtime} (line : string) : line_action :=
  if String.eqb line "" then Stop
  else
    let line := strip line in
    if String.eqb line "" then Skip
    else if negb (String.prefix "data:" line) then Skip
    else
      let data := strip (drop 5 line) in
      if String.eqb data "[DONE]" then Stop
      else match json_loads data with
           | Some chunk => Chunk chunk
           | None => Skip
           end.

(** The loop over [resp.readline()]; the end of [resp] is end of input. *)
Fixpoint read_lines `{runtime} (d : decoder) (resp : list string) : result decoder :=
  match resp with
  | [] => Ok d
  | line :: rest =>
      match read_line line with
      | Stop => Ok d
      | Skip => read_lines d rest
      | Chunk chunk => rbind (chunk_step d chunk) (fun d' => read_lines d' rest)
      end
  end.

Definition finalize_call (kv : Z * ToolCall) : ToolCall :=
  let (idx, tc) := kv in
  if negb (truthy (tc_id tc)) then with_id tc (JStr ("call_" ++ str_int idx)) else tc.

Definition finalized_calls (d : decoder) : list ToolCall :=
  map finalize_call (sorted_slots (d_slots d)).

Definition stream_response (d : decoder) : ProviderResponse :=
  mkProviderResponse (JObj [("content", JStr (d_content d))])
                     (finalized_calls d)
                     (JObj [("finish_reason", d_finish_reason d)])
                     (d_usage d).

Definition finalize (d : decoder) : list ProviderEvent :=
  d_events d ++ map tool_use_stop (finalized_calls d) ++ [complete (stream_response d)].

(** ** OpenAICompatibleProvider *)

Record Provider : Type := mkProvider {
  api_key : string;
  base_url : string;
  model : string;
  extra_headers : list (string * string)
}.

Definition is_digit (c : ascii) : bool :=
  let n := nat_of_ascii c in (Nat.leb 48 n && Nat.leb n 57)%bool.

Fixpoint all_digits (s : string) : bool :=
  match s with
  | EmptyString => true
  | String c r => (is_digit c && all_digits r)%bool
  end.

Fixpoint has_non_ascii (s : string) : bool :=
  match s with
  | EmptyString => false
  | String c r => (Nat.leb 128 (nat_of_ascii c) || has_non_ascii r)%bool
  end.

(** [int(s)] for a str of ASCII digits *)
Fixpoint int_of_digits (acc : Z) (s : string) : Z :=
  match s with
  | EmptyString => acc
  | String c r => int_of_digits (10 * acc + Z.of_nat (nat_of_ascii c - 48)) r
  end.

(** [int(x)] for a real [x]: truncation towards zero *)
Definition Qtrunc (x : Q) : Z :=
  if Qle_bool 0 x then Qfloor x else Qceiling x.

Definition backoff_of (attempts : Z) : Z := 2000 * 2 ^ (attempts - 1).

(** The longest delay, in ms, that [time.sleep] is taken to accept: 9e9
    seconds, below the 2^63 nanoseconds it can represent. *)
Definition sleep_limit_ms : Z := 9000000000000.

(** The longest run of digits that [int] is taken to convert: Python's
    limit on the digits of an integer string is 4300 by default and can be
    set as low as 640; what [int] does beyond depends on the interpreter. *)
Definition int_digits_limit : nat := 640.

Definition retryable_status (code : Z) : bool := ((code =? 429)%Z || (code =? 500)%Z)%bool.

Module OpenAICompatibleProvider.
Section Provider.
Context `{runtime} (E : env).

Definition _build_payload (self : Provider) (messages tools : list json) : list (string * json) :=
  [("model", JStr (model self)); ("messages", JArr messages); ("tools", JArr tools);
   ("tool_choice", JStr "auto")].

Definition _build_stream_payload (self : Provider) (messages tools : list json)
  : list (string * json) :=
  _build_payload self messages tools
    ++ [("stream", JBool true); ("stream_options", JObj [("include_usage", JBool true)])].

(** [urllib.request.urlopen(req, timeout=60)]: the payload is recorded and
    the server's answer to this attempt is returned or raised. *)
Definition urlopen (payload : list (string * json)) : M (list string) :=
  fun w =>
    let w' := mkWorld (next_id w) (proc_reads w) (proc_stdin w) (S (http_attempts w))
                      (rand_draws w) (sleeps w) (llm_inputs w ++ [JObj payload]) (outputs w) in
    match server E (http_attempts w) with
    | HttpOk body => (Ok body, w')
    | HttpFail code retry_after body => (Raise (HTTPError code retry_after body), w')
    | ConnFail => (Raise URLError, w')
    end.

(** [int(backoff * random.uniform(0.0, 0.2))], computed on exact reals.
    What [random.uniform(0.0, 0.2)] returns lies between its bounds; a run
    whose oracle draws anything else is outside the model. *)
Definition jitter_of (backoff : Z) : M Z :=
  fun w =>
    let u := rand E (rand_draws w) in
    if (Qle_bool 0 u && Qle_bool u (1 # 5))%bool then
      (Ok (Qtrunc (inject_Z backoff * u)),
       mkWorld (next_id w) (proc_reads w) (proc_stdin w) (http_attempts w)
               (S (rand_draws w)) (sleeps w) (llm_inputs w) (outputs w))
    else (Unmodelled, w).

(** [time.sleep(sleep_ms / 1000.0)].  [time.sleep] raises [ValueError] for
    a negative delay, and takes delays up to about 9.2e9 seconds; what it
    raises for a longer one depends on the interpreter and the platform, and
    no sleep is made. *)
Definition sleep_ms (ms : Z) : M unit :=
  fun w =>
    if (ms <? 0)%Z then (Raise ValueError, w)
    else if (ms <? sleep_limit_ms)%Z then
      (Ok tt,
       mkWorld (next_id w) (proc_reads w) (proc_stdin w) (http_attempts w)
               (rand_draws w) (sleeps w ++ [ms]) (llm_inputs w) (outputs w))
    else (Unmodelled, w).

Definition backoff_sleep (attempts : Z) : M unit :=
  (let backoff := backoff_of attempts in
   jitter <- jitter_of backoff ;;
   sleep_ms (backoff + jitter))%io.

(** The [except urllib.error.HTTPError] clause before it falls back into the loop. *)
Definition on_http_error (attempts : Z) (e : exn) (code : Z) (retry_after : option string)
  : M unit :=
  if negb (retryable_status code) then raise e
  else if (attempts >=? 8)%Z then raise e
  else
    match retry_after with
    | Some ra =>
        if String.eqb ra "" then backoff_sleep attempts
        else if has_non_ascii ra then lift Unmodelled
        else if all_digits ra then
          if (int_digits_limit <? String.length ra)%nat then lift Unmodelled
          else sleep_ms (int_of_digits 0 ra * 1000)
        else backoff_sleep attempts
    | None => backoff_sleep attempts
    end.

(** The [except urllib.error.URLError] clause. *)
Definition on_url_error (attempts : Z) (e : exn) : M unit :=
  if (attempts >=? 8)%Z then raise e else backoff_sleep attempts.

(** The [while True] retry loop shared, line for line, by
    [_request_with_retries] and [stream]; [on_ok] is what the [with] block
    does with the response.  The loop leaves by [return] or [raise] at the
    eighth attempt at the latest, so eight units of [fuel] are never used up
    (lemma [retry_loop_fuel]). *)
Fixpoint retry_loop {A} (payload : list (string * json)) (on_ok : list string -> result A)
    (fuel : nat) (attempts : Z) : M A :=
  match fuel with
  | O => lift Unmodelled
  | S fuel' =>
      let attempts := attempts + 1 in
      fun w =>
        match bind (urlopen payload) (fun body => lift (on_ok body)) w with
        | (Raise (HTTPError code retry_after body as e), w') =>
            bind (on_http_error attempts e code retry_after)
                 (fun _ => retry_loop payload on_ok fuel' attempts) w'
        | (Raise (URLError as e), w') =>
            bind (on_url_error attempts e)
                 (fun _ => retry_loop payload on_ok fuel' attempts) w'
        | other => other
        end
  end.

Definition read_json (body : list string) : result json :=
  match json_loads (String.concat "" body) with
  | Some v => Ok v
  | None => Raise ValueError
  end.

Definition _request_with_retries (payload : list (string * json)) : M json :=
  retry_loop payload read_json 8 0.

Definition _request (self : Provider) (payload : list (string * json)) : M json :=
  _request_with_retries payload.

Definition parse_call (acc : list ToolCall) (call : json) : result (list ToolCall) :=
  (let* f := py_get call "function" in
   let function := py_or f (JObj []) in
   let* i := py_get_default call "id" (JStr "") in
   let* n := py_get_default function "name" (JStr "") in
   let* a := py_get_default function "arguments" (JStr "{}") in
   Ok (acc ++ [mkToolCall i n a])%list)%res.

Definition _parse_tool_calls (assistant_msg : json) : result (list ToolCall) :=
  (let* rc := py_get assistant_msg "tool_calls" in
   let* raw_calls := iter_for_get (py_or rc (JArr [])) in
   for_each parse_call [] raw_calls)%res.

Definition parse_result (result_ : json) : result ProviderResponse :=
  (let* choices := py_item result_ "choices" in
   let* choice := py_item0 choices in
   let* assistant_msg := py_item choice "message" in
   let* calls := _parse_tool_calls assistant_msg in
   let* usage_ := extract_token_usage result_ in
   Ok (mkProviderResponse assistant_msg calls result_ usage_))%res.

Definition request (self : Provider) (messages tools : list json) : M ProviderResponse :=
  (let payload := _build_payload self messages tools in
   result_ <- _request self payload ;;
   lift (parse_result result_))%io.

Definition _parse_stream (resp : list string) : result (list ProviderEvent) :=
  rbind (read_lines init_decoder resp) (fun d => Ok (finalize d)).

Definition stream (self : Provider) (messages tools : list json) : M (list ProviderEvent) :=
  let payload := _build_stream_payload self messages tools in
  retry_loop payload _parse_stream 8 0.

End Provider.
End OpenAICompatibleProvider.

(** ** Free functions of the module *)

Definition tool_entry (tool : json) : result json :=
  (let* n := py_get_default tool "name" (JStr "") in
   let* d := py_get_default tool "description" (JStr "") in
   let* p := py_get_default tool "parameters" (JObj []) in
   let* r := py_get_default tool "required" (JArr []) in
   Ok (JObj [("type", JStr "function");
             ("function",
              JObj [("name", n); ("description", d);
                    ("parameters",
                     JObj [("type", JStr "object");
                           ("properties", py_or p (JObj []));
                           ("required", py_or r (JArr []))])])]))%res.

Definition build_tool_schema (tools : json) : result (list json) :=
  (let* items := iter_for_get tools in
   for_each (fun schema tool => rbind (tool_entry tool) (fun e => Ok (schema ++ [e])%list))
            [] items)%res.

Definition normalize_arguments `{runtime} (arguments : json) : json :=
  match arguments with
  | JObj _ => arguments
  | JStr s =>
      match json_loads s with
      | Some (JObj kvs) => JObj kvs
      | _ => JObj []
      end
  | _ => JObj []
  end.

Definition call_record (call : ToolCall) : json :=
  JObj [("id", tc_id call); ("type", JStr "function");
        ("function", JObj [("name", tc_name call); ("arguments", tc_arguments call)])].

Definition build_assistant_message (assistant_msg : json) (calls : list ToolCall) : result json :=
  (let* content := py_get assistant_msg "content" in
   let record := [("role", JStr "assistant")] in
   let record := match content with
                 | JNull => record
                 | _ => (record ++ [("content", content)])%list
                 end in
   let record := match calls with
                 | [] => record
                 | _ => (record ++ [("tool_calls", JArr (map call_record calls))])%list
                 end in
   Ok (JObj record))%res.

(** [tool_calls_by_id] of [response_from_events]; the keys met in this
    program are strs. *)
Fixpoint by_id_get (m : list (string * ToolCall)) (k : string) : option ToolCall :=
  match m with
  | [] => None
  | (k', tc) :: rest => if String.eqb k' k then Some tc else by_id_get rest k
  end.

Fixpoint by_id_set (m : list (string * ToolCall)) (k : string) (tc : ToolCall)
  : list (string * ToolCall) :=
  match m with
  | [] => [(k, tc)]
  | (k', old) :: rest =>
      if String.eqb k' k then (k', tc) :: rest else (k', old) :: by_id_set rest k tc
  end.

Record folded : Type := mkFolded {
  f_response : option ProviderResponse;
  f_content : string;
  f_by_id : list (string * ToolCall);
  f_usage : TokenUsage
}.

Definition fold_tool_call (st : folded) (tc : ToolCall) : result folded :=
  if negb (truthy (tc_id tc)) then Ok st
  else
    match tc_id tc with
    | JStr k =>
        let current := match by_id_get (f_by_id st) k with
                       | Some c => c
                       | None => mkToolCall (tc_id tc) (JStr "") (JStr "")
                       end in
        let current := if truthy (tc_name tc) then with_name current (tc_name tc)
                       else current in
        let current := if truthy (tc_arguments tc)
                       then with_arguments current (tc_arguments tc) else current in
        Ok (mkFolded (f_response st) (f_content st) (by_id_set (f_by_id st) k current)
                     (f_usage st))
    | _ => Unmodelled
    end.

Definition fold_event (st : folded) (event : ProviderEvent) : result folded :=
  match event with
  | content_delta c =>
      Ok (mkFolded (f_response st) (f_content st ++ c) (f_by_id st) (f_usage st))
  | tool_use_start tc | tool_use_delta tc | tool_use_stop tc => fold_tool_call st tc
  | complete r => Ok (mkFolded (Some r) (f_content st) (f_by_id st) (usage r))
  end.

Definition response_from_events (events : list ProviderEvent) : result ProviderResponse :=
  rbind (for_each fold_event (mkFolded None "" [] zero_usage) events)
        (fun st =>
           match f_response st with
           | Some r => Ok r
           | None => Ok (mkProviderResponse (JObj [("content", JStr (f_content st))])
                                            (map snd (f_by_id st)) (JObj []) (f_usage st))
           end).

(** ** Model catalogue and provider construction *)

Record Model : Type := mkModel {
  model_id : string;
  provider : string;
  api_model : string;
  cost_per_1m_in : Q;
  cost_per_1m_out : Q;
  context_window : Z;
  can_reason : bool;
  supports_attachments : bool
}.

Definition SUPPORTED_MODELS : list Model :=
  [ mkModel "openai.gpt-4o-mini" "openai" "gpt-4o-mini" (15 # 100) (60 # 100) 128000 false true;
    mkModel "openai.gpt-4o" "openai" "gpt-4o" (250 # 100) (10 # 1) 128000 true true;
    mkModel "groq.llama-3.3-70b" "groq" "llama-3.3-70b-versatile" (59 # 100) (79 # 100)
            128000 false false;
    mkModel "openrouter.deepseek-r1" "openrouter" "deepseek/deepseek-r1" 0 0 128000 true false;
    mkModel "deepseek.deepseek-chat" "deepseek" "deepseek-chat" 0 0 128000 false false;
    mkModel "xai.grok-2" "xai" "grok-2" 0 0 128000 true true;
    mkModel "local.model" "local" "local" 0 0 4096 false false ].

Definition environ_get (environ : list (string * string)) (k d : string) : string :=
  match find (fun kv => String.eqb (fst kv) k) environ with
  | Some kv => snd kv
  | None => d
  end.

Definition PROVIDER_DEFAULTS (environ : list (string * string))
  : list (string * (string * list (string * string))) :=
  [ ("openai", ("https://api.openai.com/v1", []));
    ("openrouter", ("https://openrouter.ai/api/v1",
                    [("HTTP-Referer", "opencode.ai"); ("X-Title", "OpenCode")]));
    ("groq", ("https://api.groq.com/openai/v1", []));
    ("deepseek", ("https://api.deepseek.com/v1", []));
    ("xai", ("https://api.x.ai/v1", []));
    ("local", (environ_get environ "LOCAL_ENDPOINT" "", [])) ].

(** [str.strip] and [str.lower] on ASCII text; on other text they follow
    Unicode tables. *)
Definition is_space_str (c : ascii) : bool :=
  let n := nat_of_ascii c in
  (is_space c || (Nat.leb 28 n && Nat.leb n 31))%bool.

Fixpoint lstrip_str (s : string) : string :=
  match s with
  | String c r => if is_space_str c then lstrip_str r else s
  | EmptyString => EmptyString
  end.

Fixpoint rstrip_str (s : string) : string :=
  match s with
  | String c r =>
      match rstrip_str r with
      | EmptyString => if is_space_str c then EmptyString else String c EmptyString
      | r' => String c r'
      end
  | EmptyString => EmptyString
  end.

Definition str_strip (s : string) : result string :=
  if has_non_ascii s then Unmodelled else Ok (rstrip_str (lstrip_str s)).

Definition lower_ascii (c : ascii) : ascii :=
  let n := nat_of_ascii c in
  if (Nat.leb 65 n && Nat.leb n 90)%bool then ascii_of_nat (n + 32) else c.

Fixpoint lower (s : string) : string :=
  match s with
  | String c r => String (lower_ascii c) (lower r)
  | EmptyString => EmptyString
  end.

(** [s.rstrip("/")] *)
Fixpoint rstrip_slash (s : string) : string :=
  match s with
  | String c r =>
      match rstrip_slash r with
      | EmptyString => if Ascii.eqb c "/" then EmptyString else String c EmptyString
      | r' => String c r'
      end
  | EmptyString => EmptyString
  end.

Definition resolve_model (model_id_ fallback_model provider_name : string) : Model :=
  match (if String.eqb model_id_ "" then None
         else find (fun m => String.eqb (model_id m) model_id_) SUPPORTED_MODELS) with
  | Some m => m
  | None =>
      let api_model_ := if String.eqb fallback_model "" then "gpt-4o-mini" else fallback_model in
      let provider_ := if String.eqb provider_name "" then "openai" else provider_name in
      mkModel api_model_ provider_ api_model_ 0 0 128000 false true
  end.

Definition build_provider (environ : list (string * string))
    (provider_name api_key_ base_url_ model_ : string) : result Provider :=
  (let* stripped := str_strip provider_name in
   let provider_ := lower stripped in
   match find (fun kv => String.eqb (fst kv) provider_) (PROVIDER_DEFAULTS environ) with
   | None => Raise ValueError
   | Some (_, (default_url, headers)) =>
       let base_url_ := if String.eqb base_url_ "" then default_url else base_url_ in
       Ok (mkProvider api_key_ (rstrip_slash base_url_) model_ headers)
   end)%res.

(** ** Request headers

    The [headers] dict of [_request] and [stream] (source lines 240-244 and
    308-312); [dict.update] replaces the value of a key that is present and
    adds the other keys at the end. *)

Fixpoint header_set (headers : list (string * string)) (k v : string)
  : list (string * string) :=
  match headers with
  | [] => [(k, v)]
  | (k', old) :: rest =>
      if String.eqb k' k then (k', v) :: rest else (k', old) :: header_set rest k v
  end.

Definition request_headers (self : Provider) : list (string * string) :=
  fold_left (fun headers kv => header_set headers (fst kv) (snd kv)) (extra_headers self)
            [("Content-Type", "application/json"); ("Authorization", "Bearer " ++ api_key self)].

(** ** load_env_file

    The process environment is an association list.  [file] is what
    [f.readlines()] gives, or [None] when the path does not exist or the
    file cannot be opened or decoded.  Assigning to [os.environ] raises
    [ValueError] for a name or value with a null character. *)

(** [raw.split("=", 1)], or [None] when [raw] has no [=] *)
Fixpoint split_eq (raw : string) : option (string * string) :=
  match raw with
  | EmptyString => None
  | String c r =>
      if Ascii.eqb c "=" then Some (EmptyString, r)
      else option_map (fun kv => (String c (fst kv), snd kv)) (split_eq r)
  end.

(** [s[-1]] *)
Fixpoint last_char (s : string) : option ascii :=
  match s with
  | EmptyString => None
  | String c EmptyString => Some c
  | String _ r => last_char r
  end.

(** [s[:-1]] *)
Fixpoint drop_last (s : string) : string :=
  match s with
  | EmptyString => EmptyString
  | String c EmptyString => EmptyString
  | String c r => String c (drop_last r)
  end.

Definition is_quote (c : ascii) : bool :=
  (Nat.eqb (nat_of_ascii c) 39 || Nat.eqb (nat_of_ascii c) 34)%bool.

(** The value without the quotes around it (source lines 33-34). *)
Definition unquote (value : string) : string :=
  match value with
  | String c (String _ _ as r) =>
      match last_char value with
      | Some l => if (Ascii.eqb c l && is_quote c)%bool then drop_last r else value
      | None => value
      end
  | _ => value
  end.

Fixpoint has_nul (s : string) : bool :=
  match s with
  | EmptyString => false
  | String c r => (Nat.eqb (nat_of_ascii c) 0 || has_nul r)%bool
  end.

(** [key in os.environ] *)
Definition environ_has (environ : list (string * string)) (key : string) : bool :=
  existsb (fun kv => String.eqb (fst kv) key) environ.

(** One pass of [for line in lines] (source lines 21-35). *)
Definition load_env_line (environ : list (string * string)) (line : string)
  : result (list (string * string)) :=
  (let* raw := str_strip line in
   if (String.eqb raw "" || String.prefix "#" raw)%bool then Ok environ
   else
     let* raw := (if String.prefix "export " raw then str_strip (drop 7 raw) else Ok raw) in
     match split_eq raw with
     | None => Ok environ
     | Some (key, value) =>
         let* key := str_strip key in
         let* value := str_strip value in
         if (String.eqb key "" || environ_has environ key)%bool then Ok environ
         else
           let value := unquote value in
           if (has_nul key || has_nul value)%bool then Raise ValueError
           else Ok (environ ++ [(key, value)])%list
     end)%res.

Definition load_env_file (file : option (list string)) (environ : list (string * string))
  : result (list (string * string)) :=
  match file with
  | None => Ok environ
  | Some lines => for_each load_env_line environ lines
  end.

(** ** run_agent *)

(** The three ways [run_agent] returns: [return 0] on a turn without tool
    calls, [return 1] after the [for] loop, [return 1] in an [except]
    clause of the provider call. *)
Inductive exit : Type :=
| Success
| BudgetExceeded
| Aborted.

Definition exit_code (x : exit) : Z :=
  match x with
  | Success => 0
  | BudgetExceeded => 1
  | Aborted => 1
  end.

Record run : Type := mkRun {
  run_exit : exit;
  run_messages : list json;
  run_usage : TokenUsage
}.

Fixpoint join_names (names : list json) : result string :=
  match names with
  | [] => Ok ""
  | [JStr n] => Ok n
  | JStr n :: rest => rbind (join_names rest) (fun r => Ok (n ++ "，" ++ r))
  | _ :: _ => Raise TypeError
  end.

Definition tool_names_of (tools : json) : result (list json) :=
  (let* items := iter_for_get tools in
   for_each (fun acc tool =>
               rbind (py_get tool "name")
                     (fun c => if truthy c
                               then rbind (py_get_default tool "name" (JStr ""))
                                          (fun n => Ok (acc ++ [n])%list)
                               else Ok acc))
            [] items)%res.

Definition system_prompt_of (tool_list_text : string) : string :=
  "你是一个会使用工具的助手。需要时调用工具。完成后直接给出答案。回复内容尽量使用中文。"
  ++ "可用工具：" ++ tool_list_text ++ "。如果任务需要写文件且存在 write 工具，必须使用 write。".

Section Agent.
Context `{runtime} (E : env).

Definition print (o : output) : M unit :=
  fun w => (Ok tt,
            mkWorld (next_id w) (proc_reads w) (proc_stdin w) (http_attempts w)
                    (rand_draws w) (sleeps w) (llm_inputs w) (outputs w ++ [o])).

(** The [if total_usage.total_tokens > 0] report; the cost printed with it
    is a floating-point figure and is left out. *)
Definition report_usage (total_usage : TokenUsage) : M unit :=
  if (total_tokens total_usage >? 0)%Z then print (StderrUsage total_usage) else ret tt.

(** The body of the [try] of a tool dispatch (source lines 627-628). *)
Definition tool_attempt (name args_obj : json) : M json :=
  (result_ <- ToolServerClient.call_tool E name args_obj ;;
   lift (py_get_default result_ "content" (JStr "")))%io.

(** One pass of [for call in response.tool_calls] (source lines 620-639). *)
Definition dispatch (messages : list json) (call : ToolCall) : M (list json) :=
  (let call_id := tc_id call in
   let name := tc_name call in
   let arguments := tc_arguments call in
   let args_obj := normalize_arguments arguments in
   tool_content <-
     try_except (tool_attempt name args_obj)
                (fun e => ret (JStr ("tool call failed: " ++ str_exn e))) ;;
   ret (messages ++ [JObj [("role", JStr "tool"); ("tool_call_id", call_id);
                           ("name", name); ("content", tool_content)]])%list)%io.

Fixpoint dispatch_all (messages : list json) (calls : list ToolCall) : M (list json) :=
  match calls with
  | [] => ret messages
  | call :: rest => bind (dispatch messages call) (fun messages' => dispatch_all messages' rest)
  end.

(** The body of the [try] (source lines 576-580). *)
Definition provider_call (p : Provider) (stream_enabled : bool)
    (messages tool_schema : list json) : M ProviderResponse :=
  if stream_enabled then
    (events <- OpenAICompatibleProvider.stream E p messages tool_schema ;;
     lift (response_from_events events))%io
  else OpenAICompatibleProvider.request E p messages tool_schema.

(** The branch [if not response.tool_calls] (source lines 602-618). *)
Definition finish (response : ProviderResponse) (messages : list json)
    (total_usage : TokenUsage) : M run :=
  (c <- lift (py_get (message response) "content") ;;
   let content := py_or c (JStr "") in
   (if truthy content then print (Stdout content) else ret tt) ;;;
   report_usage total_usage ;;;
   ret (mkRun Success messages total_usage))%io.

(** The [for step_index in range(1, max_steps + 1)] loop and what follows
    it; [steps] is the number of passes left. *)
Fixpoint agent_loop (p : Provider) (stream_enabled : bool) (tool_schema : list json)
    (steps : nat) (messages : list json) (total_usage : TokenUsage) : M run :=
  match steps with
  | O =>
      (print StderrMaxSteps ;;;
       report_usage total_usage ;;;
       ret (mkRun BudgetExceeded messages total_usage))%io
  | S steps' =>
      fun w =>
        match provider_call p stream_enabled messages tool_schema w with
        | (Raise e, w') =>
            bind (print (StderrLLMFailed e))
                 (fun _ => ret (mkRun Aborted messages total_usage)) w'
        | (Unmodelled, w') => (Unmodelled, w')
        | (Ok response, w') =>
            (am <- lift (build_assistant_message (message response) (tool_calls response)) ;;
             let messages := (messages ++ [am])%list in
             let total_usage := Usage.add total_usage (usage response) in
             match tool_calls response with
             | [] => finish response messages total_usage
             | _ =>
                 messages' <- dispatch_all messages (tool_calls response) ;;
                 agent_loop p stream_enabled tool_schema steps' messages' total_usage
             end)%io w'
        end
  end.

Definition run_agent (environ : list (string * string))
    (prompt api_key_ base_url_ model_ provider_name : string)
    (stream_enabled : bool) (max_steps : Z) : M run :=
  (tools <- ToolServerClient.list_tools E ;;
   tool_schema <- lift (build_tool_schema tools) ;;
   llm_model_id <- lift (str_strip (environ_get environ "LLM_MODEL_ID" "")) ;;
   let model_info := resolve_model llm_model_id model_ provider_name in
   p <- lift (build_provider environ (provider model_info) api_key_ base_url_
                             (api_model model_info)) ;;
   tool_names <- lift (tool_names_of tools) ;;
   tool_list_text <- lift (join_names tool_names) ;;
   let system_prompt := system_prompt_of tool_list_text in
   let messages := [JObj [("role", JStr "system"); ("content", JStr system_prompt)];
                    JObj [("role", JStr "user"); ("content", JStr prompt)]] in
   agent_loop p stream_enabled tool_schema (Z.to_nat max_steps) messages zero_usage)%io.

End Agent.

(** ** A reference runtime

    [json_decode] reads ASCII JSON text with integer numbers and the
    one-letter escapes, as [json.loads] does, and gives [None] on anything
    else.  It instantiates [runtime] for the concrete runs below; the general
    theorems hold for every runtime. *)

Definition is_json_space (c : ascii) : bool :=
  let n := nat_of_ascii c in
  (Nat.eqb n 32 || Nat.eqb n 9 || Nat.eqb n 10 || Nat.eqb n 13)%bool.

Fixpoint skip_ws (s : string) : string :=
  match s with
  | String c r => if is_json_space c then skip_ws r else s
  | EmptyString => EmptyString
  end.

Definition literal (lit : string) (v : json) (s : string) : option (json * string) :=
  if String.prefix lit s then Some (v, drop (String.length lit) s) else None.

Fixpoint digits (acc : Z) (s : string) : Z * string :=
  match s with
  | String c r =>
      if is_digit c then digits (10 * acc + Z.of_nat (nat_of_ascii c - 48)) r else (acc, s)
  | EmptyString => (acc, s)
  end.

Definition starts_fraction (s : string) : bool :=
  match s with
  | String c _ => (Ascii.eqb c "." || Ascii.eqb c "e" || Ascii.eqb c "E")%bool
  | EmptyString => false
  end.

Definition natural (s : string) : option (Z * string) :=
  match s with
  | String c r =>
      if Ascii.eqb c "0" then (if starts_fraction r then None else Some (0, r))
      else if is_digit c then
        let (n, rest) := digits 0 s in
        if starts_fraction rest then None else Some (n, rest)
      else None
  | EmptyString => None
  end.

Definition number (s : string) : option (json * string) :=
  match s with
  | String c r =>
      if Ascii.eqb c "-" then option_map (fun nr => (JNum (- fst nr), snd nr)) (natural r)
      else option_map (fun nr => (JNum (fst nr), snd nr)) (natural s)
  | EmptyString => None
  end.

Definition unescape (c : ascii) : option ascii :=
  let n := nat_of_ascii c in
  if (Nat.eqb n 34 || Nat.eqb n 92 || Nat.eqb n 47)%bool then Some c
  else if Nat.eqb n 98 then Some (ascii_of_nat 8)
  else if Nat.eqb n 102 then Some (ascii_of_nat 12)
  else if Nat.eqb n 110 then Some (ascii_of_nat 10)
  else if Nat.eqb n 114 then Some (ascii_of_nat 13)
  else if Nat.eqb n 116 then Some (ascii_of_nat 9)
  else None.

(** The characters of a string literal after its opening quote. *)
Fixpoint string_body (s : string) : option (string * string) :=
  match s with
  | EmptyString => None
  | String c r =>
      let n := nat_of_ascii c in
      if Nat.eqb n 34 then Some (EmptyString, r)
      else if Nat.eqb n 92 then
        match r with
        | String e r' =>
            match unescape e, string_body r' with
            | Some c', Some (body, rest) => Some (String c' body, rest)
            | _, _ => None
            end
        | EmptyString => None
        end
      else if (Nat.ltb n 32 || Nat.leb 128 n)%bool then None
      else option_map (fun br => (String c (fst br), snd br)) (string_body r)
  end.

Fixpoint obj_set (kvs : list (string * json)) (k : string) (v : json) : list (string * json) :=
  match kvs with
  | [] => [(k, v)]
  | (k', old) :: rest =>
      if String.eqb k' k then (k', v) :: rest else (k', old) :: obj_set rest k v
  end.

Definition next_is (c : ascii) (s : string) : option string :=
  match s with
  | String c' r => if Ascii.eqb c c' then Some r else None
  | EmptyString => None
  end.

(** Elements after the first of an array, up to the closing bracket. *)
Fixpoint elements (value : string -> option (json * string)) (fuel : nat) (acc : list json)
    (s : string) : option (json * string) :=
  match fuel with
  | O => None
  | S fuel' =>
      match skip_ws s with
      | String c r =>
          if Ascii.eqb c "]" then Some (JArr acc, r)
          else if Ascii.eqb c "," then
            match value (skip_ws r) with
            | Some (v, rest) => elements value fuel' (acc ++ [v]) rest
            | None => None
            end
          else None
      | EmptyString => None
      end
  end.

Definition member (value : string -> option (json * string)) (s : string)
  : option (string * json * string) :=
  match next_is (ascii_of_nat 34) (skip_ws s) with
  | Some r =>
      match string_body r with
      | Some (k, rest) =>
          match next_is ":" (skip_ws rest) with
          | Some rest' =>
              match value (skip_ws rest') with
              | Some (v, rest'') => Some (k, v, rest'')
              | None => None
              end
          | None => None
          end
      | None => None
      end
  | None => None
  end.

(** Members after the first of an object, up to the closing brace. *)
Fixpoint members (value : string -> option (json * string)) (fuel : nat)
    (acc : list (string * json)) (s : string) : option (json * string) :=
  match fuel with
  | O => None
  | S fuel' =>
      match skip_ws s with
      | String c r =>
          if Ascii.eqb c "}" then Some (JObj acc, r)
          else if Ascii.eqb c "," then
            match member value r with
            | Some (k, v, rest) => members value fuel' (obj_set acc k v) rest
            | None => None
            end
          else None
      | EmptyString => None
      end
  end.

Fixpoint value (fuel : nat) (s : string) : option (json * string) :=
  match fuel with
  | O => None
  | S fuel' =>
      match s with
      | EmptyString => None
      | String c r =>
          let n := nat_of_ascii c in
          if Nat.eqb n 34 then
            option_map (fun br => (JStr (fst br), snd br)) (string_body r)
          else if Nat.eqb n 91 then
            match skip_ws r with
            | String c' r' =>
                if Ascii.eqb c' "]" then Some (JArr [], r')
                else match value fuel' (skip_ws r) with
                     | Some (v, rest) => elements (value fuel') (String.length rest) [v] rest
                     | None => None
                     end
            | EmptyString => None
            end
          else if Nat.eqb n 123 then
            match skip_ws r with
            | String c' r' =>
                if Ascii.eqb c' "}" then Some (JObj [], r')
                else match member (value fuel') r with
                     | Some (k, v, rest) =>
                         members (value fuel') (String.length rest) [(k, v)] rest
                     | None => None
                     end
            | EmptyString => None
            end
          else if Nat.eqb n 116 then literal "true" (JBool true) s
          else if Nat.eqb n 102 then literal "false" (JBool false) s
          else if Nat.eqb n 110 then literal "null" JNull s
          else number s
      end
  end.

Definition json_decode (s : string) : option json :=
  match value (S (String.length s)) (skip_ws s) with
  | Some (v, rest) => if String.eqb (skip_ws rest) "" then Some v else None
  | None => None
  end.

#[local] Instance reference_runtime : runtime := {|
  json_loads := json_decode;
  repr_compound := fun _ => "<compound>";
  exn_text := fun e =>
    match e with
    | AttributeError => "AttributeError"
    | TypeError => "TypeError"
    | KeyError => "KeyError"
    | IndexError => "IndexError"
    | ValueError => "ValueError"
    | HTTPError _ _ _ => "HTTPError"
    | URLError => "URLError"
    | RuntimeError _ => "RuntimeError"
    end
|}.

(** ** JSON text for the concrete runs

    [json_text] writes a value the way the peers of this program send it
    (compact, with the quote and the backslash escaped). *)

Definition dq : string := String (ascii_of_nat 34) EmptyString.

Fixpoint escape (s : string) : string :=
  match s with
  | EmptyString => EmptyString
  | String c r =>
      let n := nat_of_ascii c in
      if (Nat.eqb n 34 || Nat.eqb n 92)%bool
      then String (ascii_of_nat 92) (String c (escape r))
      else String c (escape r)
  end.

Definition quoted (s : string) : string := dq ++ escape s ++ dq.

Fixpoint json_text (v : json) : string :=
  match v with
  | JNull => "null"
  | JBool true => "true"
  | JBool false => "false"
  | JNum n => str_int n
  | JStr s => quoted s
  | JArr l => "[" ++ String.concat "," (map json_text l) ++ "]"
  | JObj kvs =>
      "{" ++ String.concat "," (map (fun kv => quoted (fst kv) ++ ":" ++ json_text (snd kv)) kvs)
          ++ "}"
  end.

(** One line of an event stream and one reply line of the tool server. *)
Definition newline : string := String (ascii_of_nat 10) EmptyString.

Definition data_line (chunk : json) : string := "data: " ++ json_text chunk ++ newline.

Definition done_line : string := "data: [DONE]" ++ newline.

Definition reply_line (resp : json) : string := json_text resp ++ newline.

(** ** Vocabulary of the statements *)

(** The two ways [run_agent] obtains a response from the bytes the server
    returned: the unary path and the streaming path of [provider_call]. *)
Definition unary_path `{runtime} (body : list string) : result ProviderResponse :=
  rbind (OpenAICompatibleProvider.read_json body) OpenAICompatibleProvider.parse_result.

Definition stream_path `{runtime} (resp : list string) : result ProviderResponse :=
  rbind (OpenAICompatibleProvider._parse_stream resp) response_from_events.


(** A completion as a provider means it, and its two encodings on the wire:
    a text, which is [None] when the provider sends [null] for it, as it
    does on a turn that only calls tools; tool calls with an id, a name and
    arguments, each of which is [None] when the provider leaves the key out;
    and a usage report. *)
Definition wire_call : Type := option string * option string * option string.

Definition call_id (c : wire_call) : option string := fst (fst c).


Definition usage_json (u : TokenUsage) : json :=
  JObj [("prompt_tokens", JNum (input_tokens u));
        ("completion_tokens", JNum (output_tokens u));
        ("total_tokens", JNum (total_tokens u))].

(** One fragment of [delta.tool_calls] with the fields a provider may send. *)
Definition field (k : string) (o : option string) : list (string * json) :=
  match o with
  | Some s => [(k, JStr s)]
  | None => []
  end.

Definition opt_json (o : option string) : json :=
  match o with
  | Some s => JStr s
  | None => JNull
  end.

Definition given (o : option string) : bool :=
  match o with
  | Some s => negb (String.eqb s "")
  | None => false
  end.

Definition text_of (o : option string) : string :=
  match o with
  | Some s => s
  | None => ""
  end.



Definition mk_fragment (idx : Z) (oid oname oargs : option string) : json :=
  JObj ([("index", JNum idx)] ++ field "id" oid
        ++ [("function", JObj (field "name" oname ++ field "arguments" oargs))]).

Definition delta_chunk (delta : json) : json :=
  JObj [("choices", JArr [JObj [("index", JNum 0); ("delta", delta)]])].

Definition text_chunk (piece : string) : json :=
  delta_chunk (JObj [("content", JStr piece)]).



Definition finish_chunk : json :=
  JObj [("choices", JArr [JObj [("index", JNum 0); ("delta", JObj []);
                                ("finish_reason", JStr "stop")]])].

Definition usage_chunk (u : TokenUsage) : json :=
  JObj [("choices", JArr []); ("usage", usage_json u)].








Definition decodes_to `{runtime} (line : string) (chunk : json) : Prop :=
  read_line line = Chunk chunk.

(** What may follow the chunks: the end of input, or a line that ends
    decoding. *)
Definition ends_stream `{runtime} (tail : list string) : Prop :=
  match tail with
  | [] => True
  | line :: _ => read_line line = Stop
  end.



(** Events whose tool call, if they carry one, has a str for id, and that
    are no complete event. *)
Definition str_id_event (ev : ProviderEvent) : Prop :=
  match ev with
  | content_delta _ => True
  | tool_use_start tc | tool_use_delta tc | tool_use_stop tc => exists s, tc_id tc = JStr s
  | complete _ => False
  end.

Definition slot_of (d : decoder) (idx : Z) : ToolCall :=
  match slot_get (d_slots d) idx with
  | Some c => c
  | None => empty_call
  end.

Definition str_of (v : json) : string :=
  match v with
  | JStr s => s
  | _ => ""
  end.

Definition is_final_event (ev : ProviderEvent) : bool :=
  match ev with
  | complete _ => true
  | tool_use_stop _ => true
  | _ => false
  end.

(** The text of the content-delta events of a sequence, joined in order. *)
Fixpoint text_of_events (evs : list ProviderEvent) : string :=
  match evs with
  | [] => ""
  | content_delta c :: rest => c ++ text_of_events rest
  | _ :: rest => text_of_events rest
  end.

(** What holds of every decoder state the loop over the lines reaches: no
    index keys two slots, no event emitted so far is a stop or a complete
    event, and the text buffer is the text of the content-delta events
    emitted so far. *)
Definition decoder_ok (d : decoder) : Prop :=
  NoDup (map fst (d_slots d))
  /\ Forall (fun ev => is_final_event ev = false) (d_events d)
  /\ d_content d = text_of_events (d_events d).

(** The chunks the loop over the lines decodes: the payloads of the data
    lines that come before the end of the input. *)
Fixpoint chunks_of `{runtime} (resp : list string) : list json :=
  match resp with
  | [] => []
  | line :: rest =>
      match read_line line with
      | Stop => []
      | Skip => chunks_of rest
      | Chunk chunk => chunk :: chunks_of rest
      end
  end.

(** [f] on every element, in order. *)
Fixpoint traverse {A B} (f : A -> result B) (l : list A) : result (list B) :=
  match l with
  | [] => Ok []
  | x :: rest => rbind (f x) (fun y => rbind (traverse f rest) (fun ys => Ok (y :: ys)))
  end.

(** What the loop reads in a chunk: the usage it reports, which is zero
    where [usage] is no dict (source lines 367-375), and its choices (line
    376); and in a choice the finish reason (line 397) and the text of the
    delta, which is empty where [content] is falsy (lines 377-381). *)
Definition reported_usage (chunk : json) : result TokenUsage :=
  (let* chunk_usage := py_get chunk "usage" in
   match chunk_usage with
   | JObj _ => usage_of_dict chunk_usage
   | _ => Ok zero_usage
   end)%res.

Definition choices_of (chunk : json) : result (list json) :=
  (let* ch := py_get chunk "choices" in
   iter_for_get (py_or ch (JArr [])))%res.

Definition finish_reason_of (choice : json) : result json :=
  py_get choice "finish_reason".

Definition delta_text (choice : json) : result string :=
  (let* dl := py_get choice "delta" in
   let* delta_content := py_get (py_or dl (JObj [])) "content" in
   if truthy delta_content then
     match delta_content with
     | JStr s => Ok s
     | _ => Raise TypeError
     end
   else Ok "")%res.

(** Two decoder states with the same text, finish reason and usage. *)
Definition same_totals (d d' : decoder) : Prop :=
  d_content d' = d_content d
  /\ d_finish_reason d' = d_finish_reason d
  /\ d_usage d' = d_usage d.

(** The id a slot's call ends with. *)
Definition final_id (kv : Z * ToolCall) : json :=
  if truthy (tc_id (snd kv)) then tc_id (snd kv) else JStr ("call_" ++ str_int (fst kv)).

(** The tool-role message appended for [call] (source lines 632-639). *)
Definition tool_message (call : ToolCall) (tool_content : json) : json :=
  JObj [("role", JStr "tool"); ("tool_call_id", tc_id call); ("name", tc_name call);
        ("content", tool_content)].

(** The reply to the next request of the tool channel is a failure of the
    channel with text [msg]: the stream has ended, or the reply carries an id
    other than the request's. *)
Definition channel_failure `{runtime} (E : env) (w : world) (msg : string) : Prop :=
  let line := proc_stdout E (proc_reads w) in
  let req_id := str_int (next_id w) in
  (line = "" /\ msg = "toolserver exited")
  \/ (exists resp rid,
        line <> "" /\ json_loads line = Some resp /\ py_get resp "id" = Ok rid
        /\ rid <> JStr req_id
        /\ msg = "mismatched response id: expected " ++ req_id ++ ", got " ++ py_str rid).

(** The usage line of the report on stderr, if one is printed. *)
Definition usage_report (total_usage : TokenUsage) : list output :=
  if (total_tokens total_usage >? 0)%Z then [StderrUsage total_usage] else [].

(** The answer printed on stdout, if one is printed. *)
Definition answer_output (content : json) : list output :=
  if truthy (py_or content (JStr "")) then [Stdout (py_or content (JStr ""))] else [].




Definition plain_delay (E : env) (attempts : Z) (draw : nat) : Z :=
  backoff_of attempts + Qtrunc (inject_Z (backoff_of attempts) * rand E draw).

Fixpoint plain_delays (E : env) (a : Z) (draw : nat) (n : nat) : list Z :=
  match n with
  | O => []
  | S n' => plain_delay E (a + 1) draw :: plain_delays E (a + 1) (S draw) n'
  end.

(** The world after [n] such failures in a row, each followed by its sleep. *)
Definition after_failures (E : env) (payload : list (string * json)) (a : Z) (n : nat)
    (w : world) : world :=
  mkWorld (next_id w) (proc_reads w) (proc_stdin w) (http_attempts w + n) (rand_draws w + n)
          (sleeps w ++ plain_delays E a (rand_draws w) n)
          (llm_inputs w ++ repeat (JObj payload) n) (outputs w).

(** The world after one attempt that ends the loop. *)
Definition after_attempt (payload : list (string * json)) (w : world) : world :=
  mkWorld (next_id w) (proc_reads w) (proc_stdin w) (S (http_attempts w)) (rand_draws w)
          (sleeps w) (llm_inputs w ++ [JObj payload]) (outputs w).

(** Errors that are not the two classes the retry loop catches. *)
Definition local_error (e : exn) : Prop :=
  match e with
  | HTTPError _ _ _ => False
  | URLError => False
  | _ => True
  end.

Definition local_result {A} (r : result A) : Prop :=
  forall e, r = Raise e -> local_error e.

(** What the retry loop may change in the world within [fuel] passes: at
    most [fuel] attempts more, further sleeps, and the tool channel and the
    output untouched. *)
Definition retry_frame (fuel : nat) (w w' : world) : Prop :=
  (http_attempts w' <= http_attempts w + fuel)%nat
  /\ next_id w' = next_id w
  /\ proc_reads w' = proc_reads w
  /\ proc_stdin w' = proc_stdin w
  /\ outputs w' = outputs w
  /\ exists tail, sleeps w' = (sleeps w ++ tail)%list.

(** ** Data of the concrete runs *)

(** A unary completion that asks for one call of [ls]; it reports prompt
    and completion tokens and no total. *)
Definition ls_turn : string :=
  json_text
    (JObj [("choices",
            JArr [JObj [("message",
                         JObj [("role", JStr "assistant"); ("content", JNull);
                               ("tool_calls",
                                JArr [JObj [("id", JStr "c1"); ("type", JStr "function");
                                            ("function",
                                             JObj [("name", JStr "ls");
                                                   ("arguments", JStr "{}")])]])])]]);
           ("usage", JObj [("prompt_tokens", JNum 5); ("completion_tokens", JNum 3)])]).

(** A unary completion that answers [done]. *)
Definition final_turn : string :=
  json_text
    (JObj [("choices",
            JArr [JObj [("message",
                         JObj [("role", JStr "assistant"); ("content", JStr "done")])]])]).

Definition tools_reply : string := reply_line (JObj [("id", JStr "1"); ("result", JArr [])]).

(** The tool server answers [list_tools] and exits. *)
Definition closing_env : env :=
  mkEnv (fun k => match k with O => HttpOk [ls_turn] | _ => HttpOk [final_turn] end)
        (fun _ => 0%Q)
        (fun k => match k with O => tools_reply | _ => "" end).

(** The tool server answers [list_tools] and then repeats the id of that
    first request in every reply. *)
Definition stale_env : env :=
  mkEnv (fun k => match k with O => HttpOk [ls_turn] | _ => HttpOk [final_turn] end)
        (fun _ => 0%Q)
        (fun k => match k with
                  | O => tools_reply
                  | _ => reply_line (JObj [("id", JStr "1");
                                            ("result", JObj [("content", JStr "a.go")])])
                  end).

(** The tool server sends the replies to the first two requests in the
    wrong order. *)
Definition swapped_env : env :=
  mkEnv (fun _ => ConnFail)
        (fun _ => 0%Q)
        (fun k => match k with
                  | O => reply_line (JObj [("id", JStr "2"); ("result", JArr [])])
                  | S O => reply_line (JObj [("id", JStr "1"); ("result", JArr [])])
                  | _ => ""
                  end).

(** The model asks for [ls] on every turn and the tool server answers. *)
Definition looping_env : env :=
  mkEnv (fun _ => HttpOk [ls_turn])
        (fun _ => 0%Q)
        (fun k => match k with
                  | O => tools_reply
                  | _ => reply_line (JObj [("id", JStr (str_int (Z.of_nat k + 1)));
                                            ("result", JObj [("content", JStr "a.go")])])
                  end).


(** One 429 that carries [Retry-After: 3], then an empty object. *)
Definition retry_after_env : env :=
  mkEnv (fun k => match k with O => HttpFail 429 (Some "3") "" | _ => HttpOk ["{}"] end)
        (fun _ => (1 # 5)%Q)
        (fun _ => "").

Definition demo_provider : Provider := mkProvider "key" "https://api.openai.com/v1" "gpt-4o-mini" [].














(** Slot keying: the name, then the id, then two argument fragments. *)
Definition fragment_line (f : json) : string :=
  data_line (delta_chunk (JObj [("tool_calls", JArr [f])])).

Definition keyed_stream : list string :=
  [ fragment_line (mk_fragment 0 None (Some "ls") None);
    fragment_line (mk_fragment 0 (Some "call_abc") None None);
    fragment_line (mk_fragment 0 None None (Some ("{" ++ dq ++ "path" ++ dq)));
    fragment_line (mk_fragment 0 None None (Some (":" ++ dq ++ "." ++ dq ++ "}")));
    done_line ].

(** A text, then two slots sent in descending order, the first of them
    without an id; the finish reason [length] with a first usage report
    between them, and the finish reason [stop] and a second usage report at
    the end. *)
Definition reported_stream : list string :=
  [ data_line (text_chunk "Hi");
    fragment_line (mk_fragment 1 None (Some "cat") (Some "{}"));
    data_line (JObj [("choices", JArr [JObj [("index", JNum 0); ("delta", JObj []);
                                             ("finish_reason", JStr "length")]]);
                     ("usage", usage_json (mkTokenUsage 5 0 5))]);
    fragment_line (mk_fragment 0 (Some "call_a") (Some "ls") (Some "{}"));
    data_line finish_chunk;
    data_line (usage_chunk (mkTokenUsage 0 3 3)) ].

(** A stream with a line that is no JSON between two text chunks. *)
Definition broken_line : string := "data: {oops" ++ newline.

(** ** Vocabulary of the further statements *)

(** [d.get(k, default)] on the pairs of a dict. *)
Definition get_or (kvs : list (string * json)) (k : string) (default : json) : json :=
  match dict_get kvs k with
  | Some v => v
  | None => default
  end.

(** The tool call an event carries. *)
Definition event_call (ev : ProviderEvent) : option ToolCall :=
  match ev with
  | tool_use_start tc | tool_use_delta tc | tool_use_stop tc => Some tc
  | _ => None
  end.

(** Events whose tool call, if it has an id that counts as given, has a
    str for id. *)
Definition foldable (ev : ProviderEvent) : Prop :=
  match event_call ev with
  | Some tc => truthy (tc_id tc) = true -> exists s, tc_id tc = JStr s
  | None => True
  end.

Definition is_complete (ev : ProviderEvent) : bool :=
  match ev with
  | complete _ => true
  | _ => false
  end.

(** What a sequence of events says of the call with id [k]: the name and
    the arguments of the last events with that id that carry one. *)
Definition merge_event (k : string) (cur : option ToolCall) (ev : ProviderEvent)
  : option ToolCall :=
  match event_call ev with
  | Some tc =>
      if eq_str (tc_id tc) k then
        let c := match cur with
                 | Some c => c
                 | None => mkToolCall (JStr k) (JStr "") (JStr "")
                 end in
        let c := if truthy (tc_name tc) then with_name c (tc_name tc) else c in
        Some (if truthy (tc_arguments tc) then with_arguments c (tc_arguments tc) else c)
      else cur
  | None => cur
  end.

Definition merged (k : string) (evs : list ProviderEvent) : option ToolCall :=
  fold_left (merge_event k) evs None.

(** The states of the fold of [response_from_events] on such events: no key of [tool_calls_by_id] is
    empty or met twice, and the call kept under a key has that key for id. *)
Definition folded_ok (st : folded) : Prop :=
  NoDup (map fst (f_by_id st))
  /\ by_id_get (f_by_id st) "" = None
  /\ forall k c, by_id_get (f_by_id st) k = Some c -> tc_id c = JStr k.

(** A token counter that is absent, null or an integer, and its count. *)
Definition countable (ukvs : list (string * json)) (k : string) : Prop :=
  match dict_get ukvs k with
  | None | Some JNull | Some (JNum _) => True
  | _ => False
  end.

Definition count_of (ukvs : list (string * json)) (k : string) : Z :=
  match dict_get ukvs k with
  | Some (JNum n) => n
  | _ => 0
  end.

(** The name and the parameters of an entry of the tool schema. *)
Definition schema_name (entry : json) : json :=
  match rbind (py_item entry "function") (fun f => py_item f "name") with
  | Ok v => v
  | _ => JNull
  end.

Definition schema_parameters (entry : json) : json :=
  match rbind (py_item entry "function") (fun f => py_item f "parameters") with
  | Ok v => v
  | _ => JNull
  end.

Fixpoint slashes (n : nat) : string :=
  match n with
  | O => EmptyString
  | S n' => String "/" (slashes n')
  end.

(** The tool channel is in step: as many reply lines have been read as
    requests written, the next id is their number plus one, and the
    [k]-th request written (from 0) carries the id [k + 1]. *)
Definition channel_in_step (w : world) : Prop :=
  proc_reads w = List.length (proc_stdin w)
  /\ next_id w = Z.of_nat (List.length (proc_stdin w)) + 1
  /\ forall k, (k < List.length (proc_stdin w))%nat ->
               exists method params,
                 nth k (proc_stdin w) JNull
                 = JObj [("id", JStr (str_int (Z.of_nat k + 1))); ("method", JStr method);
                         ("params", params)].

(** A computation that keeps the channel in step, whatever it returns. *)
Definition keeps_in_step {A} (c : M A) : Prop :=
  forall w, channel_in_step w -> channel_in_step (snd (c w)).

(** The request that [call_tool] writes for a call. *)
Definition call_request (req_id : string) (call : ToolCall) (input_obj : json) : json :=
  JObj [("id", JStr req_id); ("method", JStr "call_tool");
        ("params", JObj [("name", tc_name call); ("input", input_obj)])].

(** [msg["role"] == role] for a message of the history. *)
Definition has_role (role : string) (msg : json) : bool :=
  match msg with
  | JObj kvs => match dict_get kvs "role" with
                | Some (JStr r) => String.eqb r role
                | _ => false
                end
  | _ => false
  end.


(** ** Data of further concrete runs *)

(** The tool server answers every request with an error. *)
Definition refusing_env : env :=
  mkEnv (fun _ => HttpOk [final_turn])
        (fun _ => 0%Q)
        (fun k => reply_line (JObj [("id", JStr (str_int (Z.of_nat k + 1)));
                                    ("error", JObj [("message", JStr "no such tool")])])).

(** The tool server answers [list_tools] without a result. *)
Definition silent_env : env :=
  mkEnv (fun _ => HttpOk [final_turn])
        (fun _ => 0%Q)
        (fun k => reply_line (JObj [("id", JStr (str_int (Z.of_nat k + 1)))])).

(** The server refuses the key: every attempt is answered 401. *)
Definition unauthorized_env : env :=
  mkEnv (fun _ => HttpFail 401 None "bad key")
        (fun _ => 0%Q)
        (fun k => match k with O => tools_reply | _ => "" end).

(** * Properties *)

(** ** The reference decoder and the byte-string helpers on examples *)

Example decode_object :
  json_decode ("{" ++ dq ++ "a" ++ dq ++ ": [1, -2, true, null], " ++ dq ++ "b" ++ dq ++ ": {}}")
  = Some (JObj [("a", JArr [JNum 1; JNum (-2); JBool true; JNull]); ("b", JObj [])]).
Proof. vm_compute. reflexivity. Qed.

Example decode_rejects : json_decode ls_turn <> None /\ json_decode "[1,]" = None.
Proof. vm_compute. split; [ discriminate | reflexivity ]. Qed.

Example strip_data_line :
  strip (drop 5 (strip done_line)) = "[DONE]"
  /\ read_line (H := reference_runtime) done_line = Stop
  /\ read_line (H := reference_runtime) ": keep-alive" = Skip.
Proof. vm_compute. repeat split. Qed.

(** ** Argument decoding *)

Lemma normalize_arguments_is_object `{runtime} (arguments : json) :
  exists kvs, normalize_arguments arguments = JObj kvs.
Proof.
  destruct arguments as [ | b | n | s | l | kvs ]; simpl; eauto.
  destruct (json_loads s) as [ [ | b | n | t | l | kvs ] | ]; eauto.
Qed.

(** C7: decoding a tool-call argument string never raises and always gives
    an object; a string that [json.loads] rejects, or decodes to something
    that is no object, gives the empty object, and an object is returned as
    decoded.  With the reference decoder, the empty string, [not json] and
    [[]] give the empty object and [{"a":1}] gives the object binding [a]
    to 1. *)
Theorem C7_normalize_arguments :
  (forall (R : runtime) (arguments : json), exists kvs, normalize_arguments arguments = JObj kvs)
  /\ (forall (R : runtime) (s : string),
         json_loads s = None -> normalize_arguments (JStr s) = JObj [])
  /\ (forall (R : runtime) (s : string) (v : json),
         json_loads s = Some v -> (forall kvs, v <> JObj kvs) ->
         normalize_arguments (JStr s) = JObj [])
  /\ (forall (R : runtime) (s : string) (kvs : list (string * json)),
         json_loads s = Some (JObj kvs) -> normalize_arguments (JStr s) = JObj kvs)
  /\ (json_decode "" = None
      /\ normalize_arguments (H := reference_runtime) (JStr "") = JObj [])
  /\ (json_decode "not json" = None
      /\ normalize_arguments (H := reference_runtime) (JStr "not json") = JObj [])
  /\ (json_decode "[]" = Some (JArr [])
      /\ normalize_arguments (H := reference_runtime) (JStr "[]") = JObj [])
  /\ normalize_arguments (H := reference_runtime) (JStr ("{" ++ dq ++ "a" ++ dq ++ ":1}"))
     = JObj [("a", JNum 1)].
Proof.
  split; [ intros R a; apply normalize_arguments_is_object | ].
  split; [ intros R s Hs; simpl; now rewrite Hs | ].
  split.
  { intros R s v Hs Hv; simpl; rewrite Hs.
    destruct v; try reflexivity. now elim (Hv kvs). }
  split; [ intros R s kvs Hs; simpl; now rewrite Hs | ].
  repeat split; vm_compute; reflexivity.
Qed.

Lemma C7_witness :
  normalize_arguments (H := reference_runtime) (JStr "[]") = JObj []
  /\ normalize_arguments (H := reference_runtime) (JStr "not json") = JObj [].
Proof.
  destruct C7_normalize_arguments as (_ & Hnone & Hother & _).
  split.
  - apply (Hother reference_runtime "[]" (JArr [])).
    + vm_compute. reflexivity.
    + intros kvs. discriminate.
  - apply (Hnone reference_runtime). vm_compute. reflexivity.
Defined.

(** ** Lines of an event stream *)

Lemma prefix_nonempty (p s : string) :
  p <> "" -> String.prefix p s = true -> s <> "".
Proof.
  intros Hp Hs ->. destruct p; [ now elim Hp | discriminate ].
Qed.

Lemma read_line_skip `{runtime} (line : string) :
  String.prefix "data:" (strip line) = true ->
  strip (drop 5 (strip line)) <> "[DONE]" ->
  json_loads (strip (drop 5 (strip line))) = None ->
  read_line line = Skip.
Proof.
  intros Hp Hd Hj. unfold read_line.
  assert (Hs : strip line <> "") by (eapply prefix_nonempty; [ | exact Hp ]; discriminate).
  assert (Hl : line <> "") by (intros ->; now apply Hs).
  apply String.eqb_neq in Hs, Hl, Hd.
  now rewrite Hl, Hs, Hp, Hd, Hj.
Qed.

Lemma read_lines_skip `{runtime} (line : string) (pre post : list string) :
  read_line line = Skip ->
  forall d, read_lines d (pre ++ line :: post) = read_lines d (pre ++ post).
Proof.
  intros Hskip. induction pre as [ | l pre IH ]; intros d; simpl.
  - now rewrite Hskip.
  - destruct (read_line l); auto.
    destruct (chunk_step d chunk); simpl; auto.
Qed.

(** C10: a data line whose payload is neither [[DONE]] nor valid JSON is
    skipped: the decoder state is what it was, and the whole result of
    decoding (the events and the aggregated response, or the error raised
    by another line) is that of the input without the line. *)
Theorem C10_malformed_data_line_skipped `{runtime} (pre post : list string) (line : string) :
  String.prefix "data:" (strip line) = true ->
  strip (drop 5 (strip line)) <> "[DONE]" ->
  json_loads (strip (drop 5 (strip line))) = None ->
  (forall d, read_lines d (line :: post) = read_lines d post)
  /\ OpenAICompatibleProvider._parse_stream (pre ++ line :: post)
     = OpenAICompatibleProvider._parse_stream (pre ++ post)
  /\ stream_path (pre ++ line :: post) = stream_path (pre ++ post).
Proof.
  intros Hp Hd Hj.
  pose proof (read_line_skip line Hp Hd Hj) as Hskip.
  assert (Heq : OpenAICompatibleProvider._parse_stream (pre ++ line :: post)
                = OpenAICompatibleProvider._parse_stream (pre ++ post)).
  { unfold OpenAICompatibleProvider._parse_stream. now rewrite (read_lines_skip line pre post Hskip). }
  split; [ intros d; apply (read_lines_skip line [] post Hskip) | ].
  split; [ exact Heq | unfold stream_path; now rewrite Heq ].
Qed.

Lemma C10_witness :
  OpenAICompatibleProvider._parse_stream (H := reference_runtime)
    ([data_line (text_chunk "Hello")] ++ broken_line :: [data_line (text_chunk " world"); done_line])
  = OpenAICompatibleProvider._parse_stream (H := reference_runtime)
    ([data_line (text_chunk "Hello")] ++ [data_line (text_chunk " world"); done_line]).
Proof.
  apply (C10_malformed_data_line_skipped (H := reference_runtime)
           [data_line (text_chunk "Hello")] [data_line (text_chunk " world"); done_line]
           broken_line).
  - vm_compute; reflexivity.
  - vm_compute; discriminate.
  - vm_compute; reflexivity.
Defined.

(** ** The tool channel *)

Lemma to_int_not_nil (n : Z) :
  Z.to_int n <> Decimal.Pos Decimal.Nil /\ Z.to_int n <> Decimal.Neg Decimal.Nil.
Proof.
  destruct n as [ | p | p ]; simpl; split; try discriminate;
    intros Hp; injection Hp as Hp; now apply (DecimalPos.Unsigned.to_uint_nonnil p).
Qed.

Lemma str_int_inj (m n : Z) : str_int m = str_int n -> m = n.
Proof.
  unfold str_int. intros Heq.
  destruct (to_int_not_nil m) as [Hm1 Hm2], (to_int_not_nil n) as [Hn1 Hn2].
  pose proof (NilZero.isi (Z.to_int m) Hm1 Hm2) as Im.
  pose proof (NilZero.isi (Z.to_int n) Hn1 Hn2) as In.
  rewrite Heq in Im. rewrite Im in In. injection In as In.
  now apply DecimalZ.to_int_inj.
Qed.

Lemma eq_str_true (v : json) (s : string) : eq_str v s = true <-> v = JStr s.
Proof.
  destruct v; simpl; split; try discriminate.
  - intros Hs. apply String.eqb_eq in Hs. now subst.
  - intros Hs. injection Hs as ->. apply String.eqb_refl.
Qed.

Lemma check_reply_ok `{runtime} (req_id line : string) (v : json) :
  ToolServerClient.check_reply req_id line = Ok v ->
  exists resp, json_loads line = Some resp /\ py_get resp "id" = Ok (JStr req_id).
Proof.
  unfold ToolServerClient.check_reply.
  destruct (String.eqb line ""); [ discriminate | ].
  destruct (json_loads line) as [ resp | ]; [ | discriminate ].
  destruct (py_get resp "id") as [ rid | e | ] eqn:Hid; simpl; try discriminate.
  destruct (eq_str rid req_id) eqn:Heq; simpl; [ | discriminate ].
  apply eq_str_true in Heq. subst rid. intros _. now exists resp.
Qed.

Lemma check_reply_mismatch `{runtime} (req_id line : string) (resp rid : json) :
  line <> "" -> json_loads line = Some resp -> py_get resp "id" = Ok rid ->
  rid <> JStr req_id ->
  ToolServerClient.check_reply req_id line
  = Raise (RuntimeError (JStr ("mismatched response id: expected " ++ req_id
                               ++ ", got " ++ py_str rid))).
Proof.
  intros Hl Hj Hid Hne. unfold ToolServerClient.check_reply.
  apply String.eqb_neq in Hl. rewrite Hl, Hj, Hid. simpl.
  destruct (eq_str rid req_id) eqn:Heq; [ | reflexivity ].
  apply eq_str_true in Heq. contradiction.
Qed.

Lemma check_reply_closed `{runtime} (req_id : string) :
  ToolServerClient.check_reply req_id "" = Raise (RuntimeError (JStr "toolserver exited")).
Proof. reflexivity. Qed.

(** What [request] does to the world, whatever the reply. *)
Lemma request_world `{runtime} (E : env) (method : string) (params : json) (w : world) :
  ToolServerClient.request E method params w
  = (ToolServerClient.check_reply (str_int (next_id w)) (proc_stdout E (proc_reads w)),
     mkWorld (next_id w + 1) (S (proc_reads w))
             (proc_stdin w ++ [JObj [("id", JStr (str_int (next_id w))); ("method", JStr method);
                                     ("params", py_or params (JObj []))]])
             (http_attempts w) (rand_draws w) (sleeps w) (llm_inputs w) (outputs w)).
Proof. reflexivity. Qed.

(** C9: every request takes the next integer as its id (written in
    decimal), so ids are positive, strictly increasing and never reused; it
    writes one request and reads one reply line before it returns; a result
    is returned only if the reply carries the id of the request, and a reply
    with any other id raises the mismatch error.  The reply to an earlier
    request is never kept: when the first two replies come in the wrong order
    both requests fail. *)
Theorem C9_request_ids `{runtime} (E : env) (method : string) (params : json) (w : world) :
  let req_id := str_int (next_id w) in
  let line := proc_stdout E (proc_reads w) in
  let r := fst (ToolServerClient.request E method params w) in
  let w' := snd (ToolServerClient.request E method params w) in
  (next_id w' = next_id w + 1
   /\ (0 < next_id w -> 0 < next_id w')
   /\ (forall m, m <> next_id w -> str_int m <> req_id))
  /\ proc_stdin w' = (proc_stdin w ++ [JObj [("id", JStr req_id); ("method", JStr method);
                                             ("params", py_or params (JObj []))]])%list
  /\ proc_reads w' = S (proc_reads w)
  /\ (forall v, r = Ok v ->
        exists resp, json_loads line = Some resp /\ py_get resp "id" = Ok (JStr req_id))
  /\ (forall resp rid,
        line <> "" -> json_loads line = Some resp -> py_get resp "id" = Ok rid ->
        rid <> JStr req_id ->
        r = Raise (RuntimeError (JStr ("mismatched response id: expected " ++ req_id
                                       ++ ", got " ++ py_str rid))))
  /\ (next_id init_world = 1
      /\ let w1 := snd (ToolServerClient.list_tools (H := reference_runtime) swapped_env init_world) in
         fst (ToolServerClient.list_tools (H := reference_runtime) swapped_env init_world)
         = Raise (RuntimeError (JStr "mismatched response id: expected 1, got 2"))
         /\ fst (ToolServerClient.list_tools (H := reference_runtime) swapped_env w1)
            = Raise (RuntimeError (JStr "mismatched response id: expected 2, got 1"))).
Proof.
  intros req_id line r w'. subst r w'. rewrite request_world. simpl.
  repeat split.
  - lia.
  - intros m Hm Heq. apply Hm. now apply str_int_inj.
  - intros v Hv. eapply check_reply_ok. exact Hv.
  - intros resp rid Hl Hj Hid Hne. now apply check_reply_mismatch with (resp := resp).
Qed.

Lemma C9_witness :
  exists resp,
    json_loads (runtime := reference_runtime) (proc_stdout looping_env 0) = Some resp
    /\ py_get resp "id" = Ok (JStr "1").
Proof.
  destruct (C9_request_ids (H := reference_runtime) looping_env "list_tools" JNull init_world)
    as (_ & _ & _ & Hok & _).
  apply (Hok (JArr [])). vm_compute. reflexivity.
Defined.

(** ** Tool dispatch *)

Lemma py_get_default_modelled (v : json) (k : string) (d : json) :
  py_get_default v k d <> Unmodelled.
Proof. destruct v; discriminate. Qed.

Lemma py_item_modelled (v : json) (k : string) : py_item v k <> Unmodelled.
Proof. destruct v; try discriminate. simpl. destruct (dict_get kvs k); discriminate. Qed.

Lemma check_reply_modelled `{runtime} (req_id line : string) :
  ToolServerClient.check_reply req_id line <> Unmodelled.
Proof.
  unfold ToolServerClient.check_reply.
  destruct (String.eqb line ""); [ discriminate | ].
  destruct (json_loads line) as [ resp | ]; [ | discriminate ].
  destruct (py_get resp "id") as [ rid | e | ] eqn:Hid; simpl; try discriminate.
  - destruct (negb (eq_str rid req_id)); [ discriminate | ].
    destruct (py_get resp "error") as [ err | e | ] eqn:Herr; simpl; try discriminate.
    + destruct (truthy err).
      * destruct (py_item resp "error") as [ x | e | ] eqn:Hx; simpl; try discriminate.
        -- destruct (py_item x "message") as [ m | e | ] eqn:Hm; simpl; try discriminate.
           now apply py_item_modelled in Hm.
        -- now apply py_item_modelled in Hx.
      * apply py_get_default_modelled.
    + now apply py_get_default_modelled in Herr.
  - now apply py_get_default_modelled in Hid.
Qed.

Lemma tool_attempt_world `{runtime} (E : env) (name args_obj : json) (w : world) :
  snd (tool_attempt E name args_obj w)
  = snd (ToolServerClient.call_tool E name args_obj w)
  /\ fst (tool_attempt E name args_obj w) <> Unmodelled.
Proof.
  unfold tool_attempt, ToolServerClient.call_tool, bind. rewrite request_world.
  pose proof (check_reply_modelled (str_int (next_id w)) (proc_stdout E (proc_reads w))) as Hm.
  destruct (ToolServerClient.check_reply _ _) as [ v | e | ]; simpl.
  - split; [ reflexivity | apply py_get_default_modelled ].
  - split; [ reflexivity | discriminate ].
  - now elim Hm.
Qed.

(** [dispatch] always returns, with one more message. *)
Lemma dispatch_appends `{runtime} (E : env) (messages : list json) (call : ToolCall) (w : world) :
  exists tool_content,
    dispatch E messages call w
    = (Ok (messages ++ [tool_message call tool_content])%list,
       snd (ToolServerClient.call_tool E (tc_name call) (normalize_arguments (tc_arguments call)) w))
    /\ (forall c, fst (tool_attempt E (tc_name call) (normalize_arguments (tc_arguments call)) w) = Ok c ->
                  tool_content = c)
    /\ (forall e, fst (tool_attempt E (tc_name call) (normalize_arguments (tc_arguments call)) w) = Raise e ->
                  tool_content = JStr ("tool call failed: " ++ str_exn e)).
Proof.
  unfold dispatch, bind, try_except, ret.
  destruct (tool_attempt_world E (tc_name call) (normalize_arguments (tc_arguments call)) w)
    as [Hw Hm].
  destruct (tool_attempt E (tc_name call) (normalize_arguments (tc_arguments call)) w)
    as [ [ c | e | ] w1 ]; simpl in *; subst w1.
  - exists c. split; [ reflexivity | ]. split; intros x Hx; congruence.
  - exists (JStr ("tool call failed: " ++ str_exn e)).
    split; [ reflexivity | ]. split; intros x Hx; [ discriminate | ].
    injection Hx as ->. reflexivity.
  - now elim Hm.
Qed.

Lemma call_tool_reads `{runtime} (E : env) (name args_obj : json) (w : world) :
  proc_reads (snd (ToolServerClient.call_tool E name args_obj w)) = S (proc_reads w)
  /\ http_attempts (snd (ToolServerClient.call_tool E name args_obj w)) = http_attempts w
  /\ outputs (snd (ToolServerClient.call_tool E name args_obj w)) = outputs w.
Proof. unfold ToolServerClient.call_tool. rewrite request_world. now simpl. Qed.

Lemma dispatch_all_appends `{runtime} (E : env) (calls : list ToolCall) :
  forall (messages : list json) (w : world),
  exists contents w',
    dispatch_all E messages calls w
    = (Ok (messages ++ map (fun cc => tool_message (fst cc) (snd cc)) (combine calls contents))%list, w')
    /\ List.length contents = List.length calls
    /\ proc_reads w' = (proc_reads w + List.length calls)%nat
    /\ http_attempts w' = http_attempts w
    /\ outputs w' = outputs w.
Proof.
  induction calls as [ | call rest IH ]; intros messages w; simpl.
  - exists [], w. unfold ret. rewrite app_nil_r. repeat split; lia.
  - destruct (dispatch_appends E messages call w) as (c & Hd & _).
    unfold bind. rewrite Hd.
    destruct (call_tool_reads E (tc_name call) (normalize_arguments (tc_arguments call)) w)
      as (Hr & Ha & Ho).
    destruct (IH (messages ++ [tool_message call c])%list
                 (snd (ToolServerClient.call_tool E (tc_name call)
                         (normalize_arguments (tc_arguments call)) w)))
      as (cs & w' & Hall & Hlen & Hr' & Ha' & Ho').
    exists (c :: cs), w'. rewrite Hall. simpl. rewrite <- app_assoc. simpl.
    repeat split; try congruence; lia.
Qed.



(** ** The retry loop *)

Lemma div_fifth (b p d : Z) :
  0 <= b -> 0 <= p -> 0 < d -> p * 5 <= d -> 0 <= b * p / d /\ 5 * (b * p / d) <= b.
Proof.
  intros Hb Hp Hd H5.
  assert (Hbp : 0 <= b * p) by (apply Z.mul_nonneg_nonneg; lia).
  pose proof (Z.div_pos (b * p) d Hbp Hd) as Hd0.
  pose proof (Z.mul_div_le (b * p) d Hd) as Hd1.
  assert (Hub : b * (p * 5) <= b * d) by (apply Z.mul_le_mono_nonneg_l; lia).
  split; [ exact Hd0 | ].
  set (t := b * p / d) in *.
  apply Z.mul_le_mono_pos_l with (p := d); [ exact Hd | ].
  replace (d * (5 * t)) with (5 * (d * t)) by ring.
  replace (d * b) with (b * d) by ring.
  replace (b * (p * 5)) with (5 * (b * p)) in Hub by ring.
  lia.
Qed.

Lemma jitter_bounds (b : Z) (u : Q) :
  0 <= b -> (0 <= u)%Q -> (u <= 1 # 5)%Q ->
  0 <= Qtrunc (inject_Z b * u) /\ 5 * Qtrunc (inject_Z b * u) <= b.
Proof.
  intros Hb H0 H1. destruct u as [p q].
  unfold Qle in H0, H1. simpl in H0, H1.
  assert (Hp : 0 <= p) by lia.
  assert (Hx : (0 <= inject_Z b * (p # q))%Q).
  { unfold Qle. simpl. assert (0 <= b * p) by (apply Z.mul_nonneg_nonneg; lia). lia. }
  unfold Qtrunc. apply Qle_bool_iff in Hx. rewrite Hx.
  unfold Qfloor. simpl.
  apply div_fifth; lia.
Qed.

Lemma backoff_of_range (a : Z) : a < 8 -> 0 <= backoff_of a <= 128000.
Proof.
  intros Ha. unfold backoff_of. destruct (Z_lt_le_dec (a - 1) 0) as [ Hneg | Hpos ].
  - rewrite Z.pow_neg_r by lia. lia.
  - assert (Hle : 2 ^ (a - 1) <= 2 ^ 6) by (apply Z.pow_le_mono_r; lia).
    pose proof (Z.pow_nonneg 2 (a - 1) ltac:(lia)) as Hnn.
    change (2 ^ 6) with 64 in Hle. lia.
Qed.

(** A sleep within the limits is made and recorded; any other is not made. *)
Lemma sleep_ms_ok (ms : Z) (w : world) :
  0 <= ms < sleep_limit_ms ->
  OpenAICompatibleProvider.sleep_ms ms w
  = (Ok tt,
     mkWorld (next_id w) (proc_reads w) (proc_stdin w) (http_attempts w) (rand_draws w)
             (sleeps w ++ [ms]) (llm_inputs w) (outputs w)).
Proof.
  intros [H0 H1]. unfold OpenAICompatibleProvider.sleep_ms.
  apply Z.ltb_ge in H0. apply Z.ltb_lt in H1. now rewrite H0, H1.
Qed.

Lemma sleep_ms_cases (ms : Z) (w : world) :
  OpenAICompatibleProvider.sleep_ms ms w
  = (Ok tt,
     mkWorld (next_id w) (proc_reads w) (proc_stdin w) (http_attempts w) (rand_draws w)
             (sleeps w ++ [ms]) (llm_inputs w) (outputs w))
  \/ OpenAICompatibleProvider.sleep_ms ms w = (Raise ValueError, w)
  \/ OpenAICompatibleProvider.sleep_ms ms w = (Unmodelled, w).
Proof.
  unfold OpenAICompatibleProvider.sleep_ms.
  destruct (ms <? 0)%Z; [ now right; left | ].
  destruct (ms <? sleep_limit_ms)%Z; [ now left | now right; right ].
Qed.

(** The sleep of the backoff before the eighth attempt is always made when
    the draw lies between its bounds. *)
Lemma backoff_sleep_ok (E : env) (a : Z) (w : world) :
  a < 8 ->
  (0 <= rand E (rand_draws w))%Q -> (rand E (rand_draws w) <= 1 # 5)%Q ->
  OpenAICompatibleProvider.backoff_sleep E a w
  = (Ok tt,
     mkWorld (next_id w) (proc_reads w) (proc_stdin w) (http_attempts w) (S (rand_draws w))
             (sleeps w ++ [plain_delay E a (rand_draws w)]) (llm_inputs w) (outputs w)).
Proof.
  intros Ha H0 H1.
  unfold OpenAICompatibleProvider.backoff_sleep, bind, OpenAICompatibleProvider.jitter_of.
  cbn zeta. rewrite (proj2 (Qle_bool_iff _ _) H0), (proj2 (Qle_bool_iff _ _) H1). cbn [andb].
  destruct (backoff_of_range a Ha) as [Hb0 Hb1].
  destruct (jitter_bounds (backoff_of a) (rand E (rand_draws w)) Hb0 H0 H1) as [J0 J1].
  rewrite sleep_ms_ok; [ reflexivity | ].
  cbn [rand_draws]. unfold sleep_limit_ms. lia.
Qed.

Lemma backoff_sleep_cases (E : env) (a : Z) (w : world) :
  a < 8 ->
  OpenAICompatibleProvider.backoff_sleep E a w
  = (Ok tt,
     mkWorld (next_id w) (proc_reads w) (proc_stdin w) (http_attempts w) (S (rand_draws w))
             (sleeps w ++ [plain_delay E a (rand_draws w)]) (llm_inputs w) (outputs w))
  \/ OpenAICompatibleProvider.backoff_sleep E a w = (Unmodelled, w).
Proof.
  intros Ha.
  destruct (Qle_bool 0 (rand E (rand_draws w)) && Qle_bool (rand E (rand_draws w)) (1 # 5))%bool
    eqn:Hr.
  - apply andb_true_iff in Hr. destruct Hr as [H0 H1].
    apply Qle_bool_iff in H0, H1. left. now apply backoff_sleep_ok.
  - right.
    unfold OpenAICompatibleProvider.backoff_sleep, bind, OpenAICompatibleProvider.jitter_of.
    cbn zeta. now rewrite Hr.
Qed.

Section Retry.
Context `{runtime} (E : env) {A : Type} (payload : list (string * json))
        (on_ok : list string -> result A).
Hypothesis on_ok_local : forall body e, on_ok body = Raise e -> local_error e.

Import OpenAICompatibleProvider.




(** An attempt that succeeds ends the loop with what the [with] block gives. *)
Lemma retry_step_ok (fuel : nat) (a : Z) (w : world) (body : list string) :
  server E (http_attempts w) = HttpOk body ->
  retry_loop E payload on_ok (S fuel) a w = (on_ok body, after_attempt payload w).
Proof.
  intros Hs. simpl. unfold bind, urlopen, lift. rewrite Hs.
  destruct (on_ok body) as [ v | e | ] eqn:Hok; try reflexivity.
  pose proof (on_ok_local body e Hok) as Hl.
  destruct e; simpl in Hl; try reflexivity; contradiction.
Qed.

(** A status other than 429 and 500 is raised at once. *)
Lemma retry_step_fatal (fuel : nat) (a : Z) (w : world) (code : Z) (ra : option string)
    (body : string) :
  server E (http_attempts w) = HttpFail code ra body ->
  retryable_status code = false ->
  retry_loop E payload on_ok (S fuel) a w = (Raise (HTTPError code ra body), after_attempt payload w).
Proof.
  intros Hs Hc. simpl. unfold bind, urlopen, lift. rewrite Hs.
  unfold on_http_error. rewrite Hc. reflexivity.
Qed.





(** Every pass makes one attempt, and the loop touches nothing but the
    attempt counter, the generator, the sleeps and the log of payloads. *)
Lemma retry_frame_stop (fuel : nat) (w : world) :
  retry_frame (S fuel) w (after_attempt payload w).
Proof.
  unfold retry_frame. simpl. repeat split; try lia. exists []. now rewrite app_nil_r.
Qed.

Lemma retry_frame_next (fuel : nat) (w w2 w' : world) (slept : list Z) :
  http_attempts w2 = S (http_attempts w) -> next_id w2 = next_id w ->
  proc_reads w2 = proc_reads w -> proc_stdin w2 = proc_stdin w ->
  outputs w2 = outputs w -> sleeps w2 = (sleeps w ++ slept)%list ->
  retry_frame fuel w2 w' -> retry_frame (S fuel) w w'.
Proof.
  intros H1 H2 H3 H4 H5 H6 (I1 & I2 & I3 & I4 & I5 & tail & I6).
  unfold retry_frame. repeat split; try congruence; try lia.
  exists (slept ++ tail)%list. rewrite I6, H6. now rewrite app_assoc.
Qed.

Lemma retry_loop_frame (fuel : nat) :
  forall (a : Z) (w : world),
    retry_frame fuel w (snd (retry_loop E payload on_ok fuel a w)).
Proof.
  induction fuel as [ | fuel IH ]; intros a w; simpl.
  - unfold retry_frame. simpl. repeat split; try lia. exists []. now rewrite app_nil_r.
  - unfold bind at 1, urlopen, lift.
    pose proof (retry_frame_stop fuel w) as Hstop. unfold after_attempt in Hstop.
    assert (Hback : a + 1 < 8 ->
                    retry_frame (S fuel) w
                      (snd (bind (backoff_sleep E (a + 1))
                                 (fun _ => retry_loop E payload on_ok fuel (a + 1))
                                 (after_attempt payload w)))).
    { intros Hlt. unfold bind.
      destruct (backoff_sleep_cases E (a + 1) (after_attempt payload w) Hlt) as [ -> | -> ];
        [ | exact Hstop ].
      eapply retry_frame_next; [ .. | apply IH ]; simpl; reflexivity. }
    assert (Hsleep : forall ms,
               retry_frame (S fuel) w
                 (snd (bind (sleep_ms ms)
                            (fun _ => retry_loop E payload on_ok fuel (a + 1))
                            (after_attempt payload w)))).
    { intros ms. unfold bind.
      destruct (sleep_ms_cases ms (after_attempt payload w)) as [ -> | [ -> | -> ]];
        [ | exact Hstop | exact Hstop ].
      eapply retry_frame_next; [ .. | apply IH ]; simpl; reflexivity. }
    unfold after_attempt in Hback, Hsleep.
    destruct (server E (http_attempts w)) as [ body | code ra body | ].
    + destruct (on_ok body) as [ v | e | ] eqn:Hok; try exact Hstop.
      pose proof (on_ok_local body e Hok) as Hl.
      destruct e; simpl in Hl; try exact Hstop; contradiction.
    + unfold on_http_error.
      destruct (retryable_status code); simpl; [ | exact Hstop ].
      destruct (a + 1 >=? 8) eqn:Hge; [ exact Hstop | ].
      rewrite Z.geb_leb in Hge. apply Z.leb_gt in Hge.
      destruct ra as [ ra | ]; [ | now apply Hback ].
      destruct (String.eqb ra ""); [ now apply Hback | ].
      destruct (has_non_ascii ra); [ exact Hstop | ].
      destruct (all_digits ra); [ | now apply Hback ].
      destruct (int_digits_limit <? String.length ra)%nat; [ exact Hstop | apply Hsleep ].
    + unfold on_url_error.
      destruct (a + 1 >=? 8) eqn:Hge; [ exact Hstop | ].
      rewrite Z.geb_leb in Hge. apply Z.leb_gt in Hge. now apply Hback.
Qed.

(** Eight units of fuel are enough: a pass is followed by another only
    before the eighth attempt. *)
Lemma retry_loop_ext (f1 f2 : nat) (a : Z) (w : world) :
  (a + 1 < 8 ->
   forall w', retry_loop E payload on_ok f1 (a + 1) w' = retry_loop E payload on_ok f2 (a + 1) w') ->
  retry_loop E payload on_ok (S f1) a w = retry_loop E payload on_ok (S f2) a w.
Proof.
  intros Hext. cbn [retry_loop]. unfold bind, urlopen, lift.
  assert (Hnext : forall (c : M unit) (w1 : world),
             a + 1 < 8 ->
             (let (r, w2) := c w1 in
              match r with
              | Ok _ => retry_loop E payload on_ok f1 (a + 1) w2
              | Raise e => (Raise e, w2)
              | Unmodelled => (Unmodelled, w2)
              end)
             = (let (r, w2) := c w1 in
                match r with
                | Ok _ => retry_loop E payload on_ok f2 (a + 1) w2
                | Raise e => (Raise e, w2)
                | Unmodelled => (Unmodelled, w2)
                end)).
  { intros c w1 Hlt. destruct (c w1) as [ [ u | e | ] w2 ]; auto. }
  destruct (server E (http_attempts w)) as [ body | code ra body | ].
  - destruct (on_ok body) as [ v | e | ] eqn:Hok; try reflexivity.
    pose proof (on_ok_local body e Hok) as Hl.
    destruct e; simpl in Hl; try reflexivity; contradiction.
  - unfold on_http_error.
    destruct (retryable_status code); simpl; [ | reflexivity ].
    destruct (a + 1 >=? 8) eqn:Hge; [ reflexivity | ].
    rewrite Z.geb_leb in Hge. apply Z.leb_gt in Hge. now apply Hnext.
  - unfold on_url_error.
    destruct (a + 1 >=? 8) eqn:Hge; [ reflexivity | ].
    rewrite Z.geb_leb in Hge. apply Z.leb_gt in Hge. now apply Hnext.
Qed.

Lemma retry_loop_fuel (fuel : nat) :
  forall (a : Z) (w : world),
    0 <= a -> 7 - a <= Z.of_nat fuel ->
    retry_loop E payload on_ok (S (S fuel)) a w = retry_loop E payload on_ok (S fuel) a w.
Proof.
  induction fuel as [ | fuel IH ]; intros a w Ha Hf; apply retry_loop_ext; intros Hlt w'.
  - lia.
  - apply IH; lia.
Qed.

Lemma retry_loop_enough (extra : nat) (w : world) :
  retry_loop E payload on_ok (8 + extra) 0 w = retry_loop E payload on_ok 8 0 w.
Proof.
  induction extra as [ | extra IH ].
  - now rewrite Nat.add_0_r.
  - rewrite <- IH. replace (8 + S extra)%nat with (S (S (7 + extra))) by lia.
    replace (8 + extra)%nat with (S (7 + extra)) by lia.
    apply retry_loop_fuel; lia.
Qed.

End Retry.

(** ** Errors of the decoders are not transport errors *)

Lemma local_ok {A} (a : A) : local_result (Ok a).
Proof. intros e He. discriminate. Qed.

Lemma local_unmodelled {A} : local_result (@Unmodelled A).
Proof. intros e He. discriminate. Qed.

Lemma local_raise {A} (e : exn) : local_error e -> local_result (@Raise A e).
Proof. intros Hl e' He. now injection He as <-. Qed.

Lemma local_rbind {A B} (r : result A) (k : A -> result B) :
  local_result r -> (forall a, local_result (k a)) -> local_result (rbind r k).
Proof.
  intros Hr Hk e. destruct r as [ a | e' | ]; simpl.
  - apply Hk.
  - intros He. apply Hr. congruence.
  - discriminate.
Qed.

Lemma local_for_each {A S} (body : S -> A -> result S) (l : list A) :
  (forall s x, local_result (body s x)) -> forall s, local_result (for_each body s l).
Proof.
  intros Hb. induction l as [ | x l IH ]; intros s; simpl.
  - apply local_ok.
  - apply local_rbind; auto.
Qed.

Create HintDb local discriminated.
#[local] Hint Resolve local_ok local_unmodelled local_rbind local_for_each : local.
#[local] Hint Extern 1 (local_result (Raise _)) => apply local_raise; exact I : local.

Ltac local_cases :=
  repeat match goal with
         | |- local_result (rbind _ _) => apply local_rbind; [ | intros ? ]
         | |- local_result (if ?b then _ else _) => destruct b
         | |- local_result (let (_, _) := ?p in _) => destruct p
         | |- local_result (match ?x with _ => _ end) => destruct x
         | |- local_result _ => solve [ auto with local ]
         end.

Lemma local_py_get_default (v : json) (k : string) (d : json) :
  local_result (py_get_default v k d).
Proof. unfold py_get_default. local_cases. Qed.

Lemma local_py_get (v : json) (k : string) : local_result (py_get v k).
Proof. apply local_py_get_default. Qed.

Lemma local_iter_for_get (v : json) : local_result (iter_for_get v).
Proof. unfold iter_for_get. local_cases. Qed.

Lemma local_int_or_0 (v : json) : local_result (int_or_0 v).
Proof. unfold int_or_0. local_cases. Qed.

Lemma local_py_add (a b : json) : local_result (py_add a b).
Proof. unfold py_add. local_cases. Qed.

#[local] Hint Resolve local_py_get_default local_py_get local_iter_for_get local_int_or_0
  local_py_add : local.

Lemma local_usage_of_dict (u : json) : local_result (usage_of_dict u).
Proof. unfold usage_of_dict. local_cases. Qed.
#[local] Hint Resolve local_usage_of_dict : local.

Lemma local_fragment (d : decoder) (tc : json) : local_result (fragment d tc).
Proof.
  unfold fragment, fragment_id, fragment_name, fragment_arguments. local_cases.
Qed.
#[local] Hint Resolve local_fragment : local.

Lemma local_choice_step (d : decoder) (choice : json) : local_result (choice_step d choice).
Proof.
  unfold choice_step, choice_content, choice_tool_calls. local_cases.
Qed.
#[local] Hint Resolve local_choice_step : local.

Lemma local_chunk_step (d : decoder) (chunk : json) : local_result (chunk_step d chunk).
Proof.
  unfold chunk_step, chunk_usage_step. local_cases.
Qed.

Lemma local_read_lines `{runtime} (resp : list string) :
  forall d, local_result (read_lines d resp).
Proof.
  induction resp as [ | line rest IH ]; intros d; simpl.
  - apply local_ok.
  - destruct (read_line line); auto with local.
    apply local_rbind; auto using local_chunk_step.
Qed.

Lemma local_parse_stream `{runtime} (resp : list string) :
  local_result (OpenAICompatibleProvider._parse_stream resp).
Proof.
  unfold OpenAICompatibleProvider._parse_stream.
  apply local_rbind; [ apply local_read_lines | intros d; apply local_ok ].
Qed.

Lemma local_read_json `{runtime} (body : list string) :
  local_result (OpenAICompatibleProvider.read_json body).
Proof.
  unfold OpenAICompatibleProvider.read_json.
  destruct (json_loads _); [ apply local_ok | apply local_raise; exact I ].
Qed.

(** ** Delays of the backoff *)




Section Delays.
Context (E : env).
Hypothesis rand_range : forall k, (0 <= rand E k)%Q /\ (rand E k <= 1 # 5)%Q.






End Delays.

(** ** The retry policy *)



Example retry_after_three :
  OpenAICompatibleProvider._request_with_retries (H := reference_runtime) retry_after_env []
    init_world
  = (Ok (JObj []),
     mkWorld 1 0 [] 2 0 [3000] [JObj []; JObj []] []).
Proof. vm_compute. reflexivity. Qed.


(** ** Failures of the tool channel *)

Lemma channel_failure_reply `{runtime} (E : env) (w : world) (msg : string) :
  channel_failure E w msg ->
  ToolServerClient.check_reply (str_int (next_id w)) (proc_stdout E (proc_reads w))
  = Raise (RuntimeError (JStr msg)).
Proof.
  intros [ [Hl ->] | (resp & rid & Hl & Hj & Hid & Hne & ->) ].
  - rewrite Hl. apply check_reply_closed.
  - now apply check_reply_mismatch with (resp := resp).
Qed.

(** C1 (amended): when the stream of the tool channel has ended, or the
    reply carries another id than the request, [request] raises a
    [RuntimeError] with the text of the failure.  Raised by the [list_tools]
    request that opens [run_agent], it ends the run; raised while a tool
    call is dispatched from the conversation loop, it is caught, and its text
    becomes the content, after [tool call failed: ], of the tool-role message
    of that call. *)
Theorem C1_channel_failure_handling `{runtime} (E : env) (w : world) (msg : string) :
  channel_failure E w msg ->
  (forall method params,
      fst (ToolServerClient.request E method params w) = Raise (RuntimeError (JStr msg)))
  /\ (forall environ prompt api_key_ base_url_ model_ provider_name stream_enabled max_steps,
        fst (run_agent E environ prompt api_key_ base_url_ model_ provider_name stream_enabled
                       max_steps w)
        = Raise (RuntimeError (JStr msg)))
  /\ (forall messages call,
        fst (dispatch E messages call w)
        = Ok (messages ++ [JObj [("role", JStr "tool"); ("tool_call_id", tc_id call);
                                 ("name", tc_name call);
                                 ("content", JStr ("tool call failed: " ++ msg))]])%list).
Proof.
  intros Hf. pose proof (channel_failure_reply E w msg Hf) as Hr.
  assert (Hreq : forall method params,
             fst (ToolServerClient.request E method params w) = Raise (RuntimeError (JStr msg))).
  { intros method params. rewrite request_world. exact Hr. }
  split; [ exact Hreq | split ].
  - intros. unfold run_agent, bind, ToolServerClient.list_tools.
    specialize (Hreq "list_tools" JNull).
    destruct (ToolServerClient.request E "list_tools" JNull w) as [r w1].
    simpl in Hreq. now subst r.
  - intros messages call.
    destruct (dispatch_appends E messages call w) as (c & Hd & _ & Hfail).
    rewrite Hd. simpl. rewrite (Hfail (RuntimeError (JStr msg))); [ reflexivity | ].
    unfold tool_attempt, bind, ToolServerClient.call_tool.
    specialize (Hreq "call_tool"
                  (JObj [("name", tc_name call);
                         ("input", normalize_arguments (tc_arguments call))])).
    destruct (ToolServerClient.request E "call_tool" _ w) as [r w1].
    simpl in Hreq. now subst r.
Qed.

Lemma C1_witness :
  fst (run_agent (H := reference_runtime) swapped_env [] "hi" "key" "" "gpt-4o-mini" "openai"
                 false 8 init_world)
  = Raise (RuntimeError (JStr "mismatched response id: expected 1, got 2"))
  /\ fst (dispatch (H := reference_runtime) swapped_env []
                   (mkToolCall (JStr "c1") (JStr "ls") (JStr "{}")) init_world)
     = Ok [JObj [("role", JStr "tool"); ("tool_call_id", JStr "c1"); ("name", JStr "ls");
                 ("content",
                  JStr "tool call failed: mismatched response id: expected 1, got 2")]].
Proof.
  assert (Hf : channel_failure (H := reference_runtime) swapped_env init_world
                 "mismatched response id: expected 1, got 2").
  { right. exists (JObj [("id", JStr "2"); ("result", JArr [])]), (JStr "2").
    repeat split; try (vm_compute; reflexivity); vm_compute; discriminate. }
  destruct (C1_channel_failure_handling (H := reference_runtime) swapped_env init_world
              "mismatched response id: expected 1, got 2" Hf) as (_ & Hrun & Hdisp).
  split; [ apply Hrun | apply (Hdisp [] (mkToolCall (JStr "c1") (JStr "ls") (JStr "{}"))) ].
Defined.

(** C1, as stated, fails: the tool server exits (or answers with a stale
    id) while the first tool call is dispatched, and the run goes on to the
    next model turn and ends in Success, the failure being the content of
    the tool-role message. *)
Lemma C1_counterexample :
  match fst (run_agent (H := reference_runtime) closing_env [] "hi" "key" "" "gpt-4o-mini"
                       "openai" false 8 init_world) with
  | Ok r =>
      run_exit r = Success
      /\ nth 3 (run_messages r) JNull
         = JObj [("role", JStr "tool"); ("tool_call_id", JStr "c1"); ("name", JStr "ls");
                 ("content", JStr "tool call failed: toolserver exited")]
  | _ => False
  end
  /\ match fst (run_agent (H := reference_runtime) stale_env [] "hi" "key" "" "gpt-4o-mini"
                          "openai" false 8 init_world) with
     | Ok r =>
         run_exit r = Success
         /\ nth 3 (run_messages r) JNull
            = JObj [("role", JStr "tool"); ("tool_call_id", JStr "c1"); ("name", JStr "ls");
                    ("content",
                     JStr "tool call failed: mismatched response id: expected 2, got 1")]
     | _ => False
     end.
Proof.
  vm_compute. repeat split.
Qed.

(** ** The conversation loop *)

Section Loop.
Context `{runtime} (E : env) (p : Provider) (stream_enabled : bool) (tool_schema : list json).

Lemma provider_call_frame (messages : list json) (w : world) :
  retry_frame 8 w (snd (provider_call E p stream_enabled messages tool_schema w)).
Proof.
  unfold provider_call. destruct stream_enabled.
  - unfold OpenAICompatibleProvider.stream, bind.
    pose proof (retry_loop_frame E
                  (OpenAICompatibleProvider._build_stream_payload p messages tool_schema)
                  OpenAICompatibleProvider._parse_stream
                  (fun body e => local_parse_stream body e) 8 0 w) as Hf.
    destruct (OpenAICompatibleProvider.retry_loop _ _ _ _ _ _) as [ [ v | e | ] w1 ]; exact Hf.
  - unfold OpenAICompatibleProvider.request, OpenAICompatibleProvider._request,
      OpenAICompatibleProvider._request_with_retries, bind.
    pose proof (retry_loop_frame E
                  (OpenAICompatibleProvider._build_payload p messages tool_schema)
                  OpenAICompatibleProvider.read_json
                  (fun body e => local_read_json body e) 8 0 w) as Hf.
    destruct (OpenAICompatibleProvider.retry_loop _ _ _ _ _ _) as [ [ v | e | ] w1 ]; exact Hf.
Qed.

Lemma build_assistant_message_content (m : json) (calls : list ToolCall) (am : json) :
  build_assistant_message m calls = Ok am -> exists c, py_get m "content" = Ok c.
Proof.
  unfold build_assistant_message.
  destruct (py_get m "content") as [ c | e | ]; simpl; try discriminate. eauto.
Qed.

(** The loop with no pass left. *)
Lemma agent_loop_exhausted (messages : list json) (total : TokenUsage) (w : world) :
  exists w',
    agent_loop E p stream_enabled tool_schema 0 messages total w
    = (Ok (mkRun BudgetExceeded messages total), w')
    /\ outputs w' = (outputs w ++ StderrMaxSteps :: usage_report total)%list
    /\ http_attempts w' = http_attempts w /\ proc_reads w' = proc_reads w.
Proof.
  simpl. unfold bind, print, report_usage, usage_report, ret.
  destruct (total_tokens total >? 0); simpl; eexists; repeat split;
    simpl; now rewrite <- ?app_assoc.
Qed.

(** A pass whose turn has no tool call. *)
Lemma agent_loop_success (steps : nat) (messages : list json) (total : TokenUsage)
    (w w1 : world) (response : ProviderResponse) (am : json) :
  provider_call E p stream_enabled messages tool_schema w = (Ok response, w1) ->
  tool_calls response = [] ->
  build_assistant_message (message response) (tool_calls response) = Ok am ->
  exists content w',
    py_get (message response) "content" = Ok content
    /\ agent_loop E p stream_enabled tool_schema (S steps) messages total w
       = (Ok (mkRun Success (messages ++ [am]) (Usage.add total (usage response))), w')
    /\ outputs w' = (outputs w1 ++ answer_output content
                       ++ usage_report (Usage.add total (usage response)))%list
    /\ http_attempts w' = http_attempts w1 /\ proc_reads w' = proc_reads w1.
Proof.
  intros Hcall Hnone Ham.
  destruct (build_assistant_message_content _ _ _ Ham) as (c & Hc).
  exists c. cbn [agent_loop]. rewrite Hcall. unfold bind at 1. unfold lift at 1.
  rewrite Ham. rewrite Hnone.
  unfold finish, bind, lift, print, report_usage, usage_report, answer_output, ret.
  rewrite Hc.
  destruct (truthy (py_or c (JStr ""))), (total_tokens (Usage.add total (usage response)) >? 0);
    simpl; eexists; repeat split; simpl; rewrite ?app_nil_r, <- ?app_assoc; reflexivity.
Qed.

(** A pass whose turn has tool calls goes on with the history extended by
    the assistant message and one tool-role message per call. *)
Lemma agent_loop_tools (steps : nat) (messages : list json) (total : TokenUsage)
    (w w1 : world) (response : ProviderResponse) (am : json) :
  provider_call E p stream_enabled messages tool_schema w = (Ok response, w1) ->
  tool_calls response <> [] ->
  build_assistant_message (message response) (tool_calls response) = Ok am ->
  exists contents w2,
    List.length contents = List.length (tool_calls response)
    /\ agent_loop E p stream_enabled tool_schema (S steps) messages total w
       = agent_loop E p stream_enabled tool_schema steps
           (messages ++ am :: map (fun cc => tool_message (fst cc) (snd cc))
                                  (combine (tool_calls response) contents))
           (Usage.add total (usage response)) w2
    /\ proc_reads w2 = (proc_reads w1 + List.length (tool_calls response))%nat
    /\ http_attempts w2 = http_attempts w1
    /\ outputs w2 = outputs w1.
Proof.
  intros Hcall Hsome Ham.
  destruct (dispatch_all_appends E (tool_calls response) (messages ++ [am]) w1)
    as (contents & w2 & Hd & Hlen & Hr & Ha & Ho).
  exists contents, w2. split; [ exact Hlen | ]. split; [ | now repeat split ].
  cbn [agent_loop]. rewrite Hcall. unfold bind at 1. unfold lift at 1. rewrite Ham.
  destruct (tool_calls response) as [ | c cs ] eqn:Hcalls; [ now elim Hsome | ].
  unfold bind. rewrite Hd. now rewrite <- app_assoc.
Qed.

End Loop.

(** When the server answers the first attempt, [provider_call] is one of
    the two paths applied to the body of the answer. *)
Lemma provider_call_answered `{runtime} (E : env) (p : Provider) (messages tools : list json)
    (w : world) (body : list string) :
  server E (http_attempts w) = HttpOk body ->
  fst (provider_call E p false messages tools w) = unary_path body
  /\ fst (provider_call E p true messages tools w) = stream_path body.
Proof.
  intros Hs. unfold provider_call, unary_path, stream_path. split.
  - unfold OpenAICompatibleProvider.request, OpenAICompatibleProvider._request,
      OpenAICompatibleProvider._request_with_retries, bind.
    rewrite (retry_step_ok E _ OpenAICompatibleProvider.read_json
               (fun b e => local_read_json b e) 7 0 w body Hs).
    now destruct (OpenAICompatibleProvider.read_json body).
  - unfold OpenAICompatibleProvider.stream, bind.
    rewrite (retry_step_ok E _ OpenAICompatibleProvider._parse_stream
               (fun b e => local_parse_stream b e) 7 0 w body Hs).
    now destruct (OpenAICompatibleProvider._parse_stream body).
Qed.





(** ** Slots of the streaming decoder *)

Lemma append_empty (s : string) : s ++ "" = s.
Proof. induction s as [ | c s IH ]; simpl; congruence. Qed.

Lemma append_assoc (a b c : string) : (a ++ b) ++ c = a ++ (b ++ c).
Proof. induction a as [ | x a IH ]; simpl; congruence. Qed.

Lemma slot_get_set_same (slots : list (Z * ToolCall)) (idx : Z) (tc : ToolCall) :
  slot_get (slot_set slots idx tc) idx = Some tc.
Proof.
  induction slots as [ | [i old] rest IH ]; simpl.
  - now rewrite Z.eqb_refl.
  - destruct (i =? idx)%Z eqn:Hi; simpl; now rewrite Hi.
Qed.

Lemma slot_get_set_other (slots : list (Z * ToolCall)) (idx j : Z) (tc : ToolCall) :
  j <> idx -> slot_get (slot_set slots idx tc) j = slot_get slots j.
Proof.
  intros Hj. induction slots as [ | [i old] rest IH ]; simpl.
  - destruct (idx =? j)%Z eqn:Hi; [ apply Z.eqb_eq in Hi; congruence | reflexivity ].
  - destruct (i =? idx)%Z eqn:Hi; simpl.
    + apply Z.eqb_eq in Hi. subst i.
      destruct (idx =? j)%Z eqn:Hij; [ apply Z.eqb_eq in Hij; congruence | reflexivity ].
    + now rewrite IH.
Qed.

Lemma truthy_opt (o : option string) : truthy (opt_json o) = given o.
Proof. now destruct o. Qed.

Lemma mk_fragment_index (idx : Z) (oid oname oargs : option string) :
  py_get_default (mk_fragment idx oid oname oargs) "index" (JNum 0) = Ok (JNum idx).
Proof. reflexivity. Qed.

Lemma mk_fragment_id (idx : Z) (oid oname oargs : option string) :
  py_get (mk_fragment idx oid oname oargs) "id" = Ok (opt_json oid).
Proof. now destruct oid. Qed.

Lemma mk_fragment_function (idx : Z) (oid oname oargs : option string) :
  py_get (mk_fragment idx oid oname oargs) "function"
  = Ok (JObj (field "name" oname ++ field "arguments" oargs)).
Proof. now destruct oid. Qed.

Lemma function_or (oname oargs : option string) :
  py_or (JObj (field "name" oname ++ field "arguments" oargs)) (JObj [])
  = JObj (field "name" oname ++ field "arguments" oargs).
Proof. now destruct oname, oargs. Qed.

Lemma fragment_id_opt (tc : json) (oid : option string) (cur : ToolCall) (d : decoder) :
  py_get tc "id" = Ok (opt_json oid) ->
  let id_new := (given oid && negb (truthy (tc_id cur)))%bool in
  let c1 := if id_new then with_id cur (JStr (text_of oid)) else cur in
  fragment_id tc (cur, d)
  = Ok (c1, mkDecoder (d_events d ++ (if id_new then [tool_use_start c1] else []))
                      (d_content d) (d_finish_reason d) (d_usage d) (d_slots d)).
Proof.
  intros Hid. unfold fragment_id. rewrite Hid. cbn [rbind]. rewrite truthy_opt.
  destruct (given oid && negb (truthy (tc_id cur)))%bool eqn:Hnew; cbn zeta.
  - destruct oid as [ i | ]; [ reflexivity | discriminate ].
  - rewrite app_nil_r. now destruct d.
Qed.

Lemma fragment_name_opt (oname oargs : option string) (c1 : ToolCall) (d : decoder) :
  let func := JObj (field "name" oname ++ field "arguments" oargs) in
  let name_new := (given oname && negb (eq_str (tc_name c1) (text_of oname)))%bool in
  let c2 := if name_new then with_name c1 (JStr (text_of oname)) else c1 in
  fragment_name func (c1, d)
  = Ok (c2, mkDecoder (d_events d ++ (if name_new then [tool_use_start c2] else []))
                      (d_content d) (d_finish_reason d) (d_usage d) (d_slots d)).
Proof.
  assert (Hd : mkDecoder (d_events d ++ []) (d_content d) (d_finish_reason d) (d_usage d)
                         (d_slots d) = d) by (rewrite app_nil_r; now destruct d).
  destruct oname as [ n | ]; cbn zeta; unfold fragment_name.
  - simpl field. simpl py_get. cbn [rbind]. change (truthy (JStr n)) with (negb (String.eqb n "")).
    simpl given. simpl text_of.
    destruct (negb (String.eqb n "")) eqn:Hn; cbn [andb].
    + destruct (negb (eq_str (tc_name c1) n)); [ reflexivity | now rewrite Hd ].
    + now rewrite Hd.
  - assert (Hget : py_get (JObj (field "name" None ++ field "arguments" oargs)) "name" = Ok JNull)
      by now destruct oargs.
    rewrite Hget. cbn [rbind truthy given andb]. now rewrite Hd.
Qed.

Lemma fragment_arguments_opt (oname oargs : option string) (c2 : ToolCall) (d : decoder)
    (a0 : string) :
  tc_arguments c2 = JStr a0 ->
  let func := JObj (field "name" oname ++ field "arguments" oargs) in
  let args_new := given oargs in
  let c3 := if args_new then with_arguments c2 (JStr (a0 ++ text_of oargs)) else c2 in
  fragment_arguments func (c2, d)
  = Ok (c3, mkDecoder (d_events d ++ (if args_new then [tool_use_delta c3] else []))
                      (d_content d) (d_finish_reason d) (d_usage d) (d_slots d)).
Proof.
  intros Ha.
  assert (Hd : mkDecoder (d_events d ++ []) (d_content d) (d_finish_reason d) (d_usage d)
                         (d_slots d) = d) by (rewrite app_nil_r; now destruct d).
  assert (Hget : py_get (JObj (field "name" oname ++ field "arguments" oargs)) "arguments"
                 = Ok (opt_json oargs)) by now destruct oname, oargs.
  assert (Hin : py_in "arguments" (field "name" oname ++ field "arguments" oargs)
                = match oargs with Some _ => true | None => false end)
    by now destruct oname, oargs.
  cbn zeta. unfold fragment_arguments. rewrite Hget, Hin. cbn [rbind].
  rewrite truthy_opt.
  destruct oargs as [ a | ]; simpl given; simpl text_of; cbn [andb].
  - destruct (negb (String.eqb a "")); [ | now rewrite Hd ].
    rewrite Ha. reflexivity.
  - now rewrite Hd.
Qed.

(** One fragment, as an equation. *)
Lemma fragment_mk (d : decoder) (idx : Z) (oid oname oargs : option string) (a0 : string) :
  tc_arguments (slot_of d idx) = JStr a0 ->
  let cur := slot_of d idx in
  let id_new := (given oid && negb (truthy (tc_id cur)))%bool in
  let c1 := if id_new then with_id cur (JStr (text_of oid)) else cur in
  let name_new := (given oname && negb (eq_str (tc_name c1) (text_of oname)))%bool in
  let c2 := if name_new then with_name c1 (JStr (text_of oname)) else c1 in
  let args_new := given oargs in
  let c3 := if args_new then with_arguments c2 (JStr (a0 ++ text_of oargs)) else c2 in
  fragment d (mk_fragment idx oid oname oargs)
  = Ok (mkDecoder (d_events d
                     ++ (if id_new then [tool_use_start c1] else [])
                     ++ (if name_new then [tool_use_start c2] else [])
                     ++ (if args_new then [tool_use_delta c3] else []))
                  (d_content d) (d_finish_reason d) (d_usage d)
                  (slot_set (d_slots d) idx c3)).
Proof.
  intros Ha cur id_new c1 name_new c2 args_new c3.
  assert (Ha1 : tc_arguments c1 = JStr a0).
  { subst c1. destruct id_new; simpl; exact Ha. }
  assert (Ha2 : tc_arguments c2 = JStr a0).
  { subst c2. destruct name_new; simpl; exact Ha1. }
  unfold fragment. rewrite mk_fragment_index. cbn [rbind].
  fold (slot_of d idx). fold cur.
  rewrite (fragment_id_opt _ oid cur d (mk_fragment_id idx oid oname oargs)). cbn [rbind].
  rewrite mk_fragment_function. cbn [rbind]. rewrite function_or.
  fold id_new. fold c1.
  rewrite (fragment_name_opt oname oargs c1). cbn [rbind].
  fold name_new. fold c2.
  rewrite (fragment_arguments_opt oname oargs c2 _ a0 Ha2). cbn [rbind].
  simpl. now rewrite <- !app_assoc.
Qed.

Lemma slot_of_set (d : decoder) (idx : Z) (tc : ToolCall) (evs : list ProviderEvent) :
  slot_of (mkDecoder evs (d_content d) (d_finish_reason d) (d_usage d)
                     (slot_set (d_slots d) idx tc)) idx = tc.
Proof. unfold slot_of. simpl. now rewrite slot_get_set_same. Qed.

(** C4: a fragment is accumulated in the slot of its index.  It emits a
    tool-call-start when it brings a non-empty id to a slot that has none,
    another when it brings a non-empty name different from the slot's, and,
    when it brings non-empty arguments, appends them to the slot's argument
    string and emits a tool-call-delta with the string so far; nothing else
    in the decoder changes.  So a name, then an id, then two argument
    fragments for a fresh slot emit two tool-call-starts and two
    tool-call-deltas, the second carrying both fragments joined; the stream
    [keyed_stream] decodes to exactly these, the stop and the complete
    event. *)
Theorem C4_slot_keying (d : decoder) (idx : Z) (oid oname oargs : option string)
    (a0 : string) :
  tc_arguments (slot_of d idx) = JStr a0 ->
  let cur := slot_of d idx in
  let id_new := (given oid && negb (truthy (tc_id cur)))%bool in
  let c1 := if id_new then with_id cur (JStr (text_of oid)) else cur in
  let name_new := (given oname && negb (eq_str (tc_name c1) (text_of oname)))%bool in
  let c2 := if name_new then with_name c1 (JStr (text_of oname)) else c1 in
  let args_new := given oargs in
  let c3 := if args_new then with_arguments c2 (JStr (a0 ++ text_of oargs)) else c2 in
  (exists d',
      fragment d (mk_fragment idx oid oname oargs) = Ok d'
      /\ d_events d' = (d_events d
                          ++ (if id_new then [tool_use_start c1] else [])
                          ++ (if name_new then [tool_use_start c2] else [])
                          ++ (if args_new then [tool_use_delta c3] else []))%list
      /\ slot_get (d_slots d') idx = Some c3
      /\ (forall j, j <> idx -> slot_get (d_slots d') j = slot_get (d_slots d) j)
      /\ d_content d' = d_content d /\ d_usage d' = d_usage d
      /\ d_finish_reason d' = d_finish_reason d)
  /\ (forall n i a1 a2,
        slot_get (d_slots d) idx = None ->
        n <> "" -> i <> "" -> a1 <> "" -> a2 <> "" ->
        exists d',
          for_each fragment d [mk_fragment idx None (Some n) None;
                               mk_fragment idx (Some i) None None;
                               mk_fragment idx None None (Some a1);
                               mk_fragment idx None None (Some a2)] = Ok d'
          /\ d_events d' = (d_events d
                              ++ [tool_use_start (mkToolCall (JStr "") (JStr n) (JStr ""));
                                  tool_use_start (mkToolCall (JStr i) (JStr n) (JStr ""));
                                  tool_use_delta (mkToolCall (JStr i) (JStr n) (JStr a1));
                                  tool_use_delta (mkToolCall (JStr i) (JStr n)
                                                             (JStr (a1 ++ a2)))])%list
          /\ slot_get (d_slots d') idx = Some (mkToolCall (JStr i) (JStr n) (JStr (a1 ++ a2))))
  /\ OpenAICompatibleProvider._parse_stream (H := reference_runtime) keyed_stream
     = Ok (let path := "{" ++ dq ++ "path" ++ dq in
           let dot := ":" ++ dq ++ "." ++ dq ++ "}" in
           let final := mkToolCall (JStr "call_abc") (JStr "ls") (JStr (path ++ dot)) in
           [tool_use_start (mkToolCall (JStr "") (JStr "ls") (JStr ""));
            tool_use_start (mkToolCall (JStr "call_abc") (JStr "ls") (JStr ""));
            tool_use_delta (mkToolCall (JStr "call_abc") (JStr "ls") (JStr path));
            tool_use_delta final;
            tool_use_stop final;
            complete (mkProviderResponse (JObj [("content", JStr "")]) [final]
                                         (JObj [("finish_reason", JStr "")]) zero_usage)]).
Proof.
  intros Ha cur id_new c1 name_new c2 args_new c3.
  split; [ | split ].
  - eexists. split; [ apply (fragment_mk d idx oid oname oargs a0 Ha) | ].
    simpl. repeat split.
    + apply slot_get_set_same.
    + intros j Hj. now apply slot_get_set_other.
  - intros n i a1 a2 Hfresh Hn Hi H1 H2.
    destruct n as [ | cn rn ]; [ now elim Hn | ].
    destruct i as [ | ci ri ]; [ now elim Hi | ].
    destruct a1 as [ | c1' r1 ]; [ now elim H1 | ].
    destruct a2 as [ | c2' r2 ]; [ now elim H2 | ].
    assert (Hcur : slot_of d idx = empty_call) by (unfold slot_of; now rewrite Hfresh).
    cbn [for_each].
    rewrite (fragment_mk d idx None (Some (String cn rn)) None ""); [ | now rewrite Hcur ].
    rewrite Hcur. simpl.
    match goal with |- context [ fragment ?d1 _ ] => set (d1' := d1) end.
    assert (Hs1 : slot_of d1' idx = mkToolCall (JStr "") (JStr (String cn rn)) (JStr "")).
    { subst d1'. unfold slot_of. simpl. now rewrite slot_get_set_same. }
    rewrite (fragment_mk d1' idx (Some (String ci ri)) None None ""); [ | now rewrite Hs1 ].
    rewrite Hs1. simpl.
    match goal with |- context [ fragment ?d1 _ ] => set (d2' := d1) end.
    assert (Hs2 : slot_of d2' idx
                  = mkToolCall (JStr (String ci ri)) (JStr (String cn rn)) (JStr "")).
    { subst d2'. unfold slot_of. simpl. now rewrite slot_get_set_same. }
    rewrite (fragment_mk d2' idx None None (Some (String c1' r1)) ""); [ | now rewrite Hs2 ].
    rewrite Hs2. simpl.
    match goal with |- context [ fragment ?d1 _ ] => set (d3' := d1) end.
    assert (Hs3 : slot_of d3' idx
                  = mkToolCall (JStr (String ci ri)) (JStr (String cn rn))
                               (JStr (String c1' r1))).
    { subst d3'. unfold slot_of. simpl. now rewrite slot_get_set_same. }
    rewrite (fragment_mk d3' idx None None (Some (String c2' r2)) (String c1' r1));
      [ | now rewrite Hs3 ].
    rewrite Hs3. simpl.
    eexists. split; [ reflexivity | ]. split.
    + simpl. rewrite <- !app_assoc. reflexivity.
    + simpl. apply slot_get_set_same.
  - vm_compute. reflexivity.
Qed.

Lemma C4_witness :
  exists d',
    for_each fragment init_decoder
             [mk_fragment 0 None (Some "ls") None;
              mk_fragment 0 (Some "call_abc") None None;
              mk_fragment 0 None None (Some ("{" ++ dq ++ "path" ++ dq));
              mk_fragment 0 None None (Some (":" ++ dq ++ "." ++ dq ++ "}"))] = Ok d'
    /\ d_events d'
       = ([] ++ [tool_use_start (mkToolCall (JStr "") (JStr "ls") (JStr ""));
                 tool_use_start (mkToolCall (JStr "call_abc") (JStr "ls") (JStr ""));
                 tool_use_delta (mkToolCall (JStr "call_abc") (JStr "ls")
                                            (JStr ("{" ++ dq ++ "path" ++ dq)));
                 tool_use_delta (mkToolCall (JStr "call_abc") (JStr "ls")
                                            (JStr (("{" ++ dq ++ "path" ++ dq)
                                                   ++ (":" ++ dq ++ "." ++ dq ++ "}"))))])%list
    /\ slot_get (d_slots d') 0
       = Some (mkToolCall (JStr "call_abc") (JStr "ls")
                          (JStr (("{" ++ dq ++ "path" ++ dq) ++ (":" ++ dq ++ "." ++ dq ++ "}")))).
Proof.
  apply (proj1 (proj2 (C4_slot_keying init_decoder 0 None None None "" eq_refl))
           "ls" "call_abc" ("{" ++ dq ++ "path" ++ dq) (":" ++ dq ++ "." ++ dq ++ "}")).
  - reflexivity.
  - discriminate.
  - discriminate.
  - vm_compute; discriminate.
  - vm_compute; discriminate.
Defined.

(** ** Finalization of the streaming decoder *)

Lemma insert_sorted_perm (kv : Z * ToolCall) (l : list (Z * ToolCall)) :
  Permutation (insert_sorted kv l) (kv :: l).
Proof.
  induction l as [ | kv' l IH ]; simpl; [ reflexivity | ].
  destruct (fst kv <=? fst kv')%Z; [ reflexivity | ].
  rewrite IH. apply perm_swap.
Qed.

Lemma sorted_slots_perm (slots : list (Z * ToolCall)) :
  Permutation (sorted_slots slots) slots.
Proof.
  induction slots as [ | kv l IH ]; simpl; [ reflexivity | ].
  unfold sorted_slots in *. simpl. rewrite insert_sorted_perm. now constructor.
Qed.

Lemma insert_sorted_sorted (kv : Z * ToolCall) (l : list (Z * ToolCall)) :
  Sorted Z.le (map fst l) -> Sorted Z.le (map fst (insert_sorted kv l)).
Proof.
  induction l as [ | kv' l IH ]; simpl; intros Hs.
  - repeat constructor.
  - destruct (fst kv <=? fst kv')%Z eqn:Hle; simpl.
    + constructor; [ exact Hs | constructor; now apply Z.leb_le ].
    + apply Z.leb_gt in Hle. inversion Hs as [ | x xs Hs' Hhd ]; subst.
      constructor; [ now apply IH | ].
      destruct l as [ | kv'' l' ]; simpl.
      * constructor. lia.
      * destruct (fst kv <=? fst kv'')%Z; simpl; constructor; try lia.
        now inversion Hhd.
Qed.

Lemma sorted_slots_sorted (slots : list (Z * ToolCall)) :
  Sorted Z.le (map fst (sorted_slots slots)).
Proof.
  induction slots as [ | kv l IH ]; simpl; [ constructor | ].
  now apply insert_sorted_sorted.
Qed.

Lemma strictly_sorted (l : list Z) :
  Sorted Z.le l -> NoDup l -> StronglySorted Z.lt l.
Proof.
  intros Hs Hn. apply Sorted_StronglySorted in Hs; [ | intros x y z; apply Z.le_trans ].
  induction Hs as [ | x l Hs IH Hall ]; [ constructor | ].
  inversion Hn as [ | y ys Hnotin Hn' ]; subst.
  constructor; [ now apply IH | ].
  rewrite Forall_forall in *. intros y Hy.
  specialize (Hall y Hy).
  assert (x <> y) by (intros ->; contradiction). lia.
Qed.

Lemma sorted_slots_ascending (slots : list (Z * ToolCall)) :
  NoDup (map fst slots) -> StronglySorted Z.lt (map fst (sorted_slots slots)).
Proof.
  intros Hn. apply strictly_sorted; [ apply sorted_slots_sorted | ].
  eapply Permutation_NoDup; [ | exact Hn ].
  apply Permutation_map. symmetry. apply sorted_slots_perm.
Qed.

Lemma finalize_call_id (kv : Z * ToolCall) :
  finalize_call kv = with_id (snd kv) (final_id kv)
  /\ truthy (tc_id (finalize_call kv)) = true.
Proof.
  destruct kv as [idx tc]. unfold finalize_call, final_id. simpl.
  destruct (truthy (tc_id tc)) eqn:Ht; simpl.
  - split; [ now destruct tc | exact Ht ].
  - split; reflexivity.
Qed.

(** *** The invariant of the decoding loop *)

Lemma slot_set_keys (slots : list (Z * ToolCall)) (idx j : Z) (tc : ToolCall) :
  In j (map fst (slot_set slots idx tc)) -> j = idx \/ In j (map fst slots).
Proof.
  induction slots as [ | [i old] rest IH ]; simpl; intros Hj.
  - destruct Hj as [ <- | [] ]. now left.
  - destruct (i =? idx)%Z; simpl in Hj.
    + now right.
    + destruct Hj as [ <- | Hj ]; [ right; now left | ].
      destruct (IH Hj) as [ -> | Hr ]; [ now left | right; now right ].
Qed.

Lemma NoDup_slot_set (slots : list (Z * ToolCall)) (idx : Z) (tc : ToolCall) :
  NoDup (map fst slots) -> NoDup (map fst (slot_set slots idx tc)).
Proof.
  induction slots as [ | [i old] rest IH ]; simpl; intros Hn.
  - repeat constructor. intros [].
  - inversion Hn as [ | x xs Hnotin Hn' ]; subst.
    destruct (i =? idx)%Z eqn:Hi; simpl.
    + now constructor.
    + constructor; [ | now apply IH ].
      intros Hj. apply Z.eqb_neq in Hi.
      destruct (slot_set_keys rest idx i tc Hj) as [ -> | Hr ]; [ now elim Hi | contradiction ].
Qed.

Lemma text_of_events_app (evs1 evs2 : list ProviderEvent) :
  text_of_events (evs1 ++ evs2) = text_of_events evs1 ++ text_of_events evs2.
Proof.
  induction evs1 as [ | ev evs1 IH ]; simpl; [ reflexivity | ].
  destruct ev; auto. now rewrite IH, append_assoc.
Qed.

(** Emitting a tool-call event. *)
Lemma ok_emit (ev : ProviderEvent) (d : decoder) :
  is_final_event ev = false -> text_of_events [ev] = "" ->
  decoder_ok d -> decoder_ok (emit ev d).
Proof.
  intros Hev Htext (Hn & Hf & Hc). split; [ | split ]; simpl.
  - exact Hn.
  - apply Forall_app. split; [ exact Hf | now constructor ].
  - now rewrite text_of_events_app, Htext, append_empty.
Qed.

(** Emitting a content delta and extending the text buffer by it. *)
Lemma ok_content (s : string) (d : decoder) :
  decoder_ok d ->
  decoder_ok (mkDecoder (d_events d ++ [content_delta s]) (d_content d ++ s)
                        (d_finish_reason d) (d_usage d) (d_slots d)).
Proof.
  intros (Hn & Hf & Hc). split; [ | split ]; simpl.
  - exact Hn.
  - apply Forall_app. split; [ exact Hf | now constructor ].
  - rewrite text_of_events_app, Hc. simpl. now rewrite append_empty.
Qed.

Lemma ok_same (d : decoder) (fr : json) (u : TokenUsage) :
  decoder_ok d -> decoder_ok (mkDecoder (d_events d) (d_content d) fr u (d_slots d)).
Proof. now intros (Hn & Hf & Hc). Qed.

Lemma ok_slot_set (d : decoder) (idx : Z) (tc : ToolCall) :
  decoder_ok d ->
  decoder_ok (mkDecoder (d_events d) (d_content d) (d_finish_reason d) (d_usage d)
                        (slot_set (d_slots d) idx tc)).
Proof.
  intros (Hn & Hf & Hc). split; [ | split ]; simpl;
    [ now apply NoDup_slot_set | exact Hf | exact Hc ].
Qed.

Lemma ok_for_each {A} (body : decoder -> A -> result decoder) (l : list A) :
  (forall d x d', decoder_ok d -> body d x = Ok d' -> decoder_ok d') ->
  forall d d', decoder_ok d -> for_each body d l = Ok d' -> decoder_ok d'.
Proof.
  intros Hb. induction l as [ | x l IH ]; simpl; intros d d' Hd Hr.
  - now injection Hr as <-.
  - destruct (body d x) as [ d1 | e | ] eqn:Hx; simpl in Hr; try discriminate.
    eapply IH; [ | exact Hr ]. eapply Hb; eauto.
Qed.

(** Case analysis on a computation that is known to return. *)
Ltac returns H :=
  repeat match type of H with
         | rbind ?r _ = Ok _ =>
             let x := fresh "x" in
             let Hx := fresh "Hx" in
             destruct r as [ x | | ] eqn:Hx; simpl in H; try discriminate H
         | (if ?b then _ else _) = Ok _ => destruct b eqn:?; try discriminate H
         | (let (_, _) := ?p in _) = Ok _ => destruct p
         | match ?x with _ => _ end = Ok _ => destruct x eqn:?; try discriminate H
         end.

Lemma ok_fragment_id (tc : json) (cur c' : ToolCall) (d d' : decoder) :
  fragment_id tc (cur, d) = Ok (c', d') -> decoder_ok d -> decoder_ok d'.
Proof.
  unfold fragment_id. intros Hr Hd. returns Hr; injection Hr as <- <-; auto using ok_emit.
Qed.

Lemma ok_fragment_name (func : json) (cur c' : ToolCall) (d d' : decoder) :
  fragment_name func (cur, d) = Ok (c', d') -> decoder_ok d -> decoder_ok d'.
Proof.
  unfold fragment_name. intros Hr Hd. returns Hr; injection Hr as <- <-; auto using ok_emit.
Qed.

Lemma ok_fragment_arguments (func : json) (cur c' : ToolCall) (d d' : decoder) :
  fragment_arguments func (cur, d) = Ok (c', d') -> decoder_ok d -> decoder_ok d'.
Proof.
  unfold fragment_arguments. intros Hr Hd.
  returns Hr; injection Hr as <- <-; auto using ok_emit.
Qed.

Lemma ok_fragment (d : decoder) (tc : json) (d' : decoder) :
  decoder_ok d -> fragment d tc = Ok d' -> decoder_ok d'.
Proof.
  unfold fragment. intros Hd Hr.
  destruct (py_get_default tc "index" (JNum 0)) as [ i | | ]; cbn [rbind] in Hr; try discriminate.
  destruct i as [ | | idx | | | ]; try discriminate.
  destruct (fragment_id tc _) as [ [c1 d1] | | ] eqn:H1; cbn [rbind] in Hr; try discriminate.
  destruct (py_get tc "function") as [ f | | ]; cbn [rbind] in Hr; try discriminate.
  destruct (fragment_name _ (c1, d1)) as [ [c2 d2] | | ] eqn:H2; cbn [rbind] in Hr; try discriminate.
  destruct (fragment_arguments _ (c2, d2)) as [ [c3 d3] | | ] eqn:H3; cbn [rbind] in Hr;
    try discriminate.
  injection Hr as <-. apply ok_slot_set.
  eapply ok_fragment_arguments; [ exact H3 | ].
  eapply ok_fragment_name; [ exact H2 | ].
  eapply ok_fragment_id; [ exact H1 | exact Hd ].
Qed.

Lemma ok_choice_step (d : decoder) (choice : json) (d' : decoder) :
  decoder_ok d -> choice_step d choice = Ok d' -> decoder_ok d'.
Proof.
  unfold choice_step. intros Hd Hr.
  destruct (py_get choice "delta") as [ dl | | ]; cbn [rbind] in Hr; try discriminate.
  destruct (choice_content _ d) as [ d1 | | ] eqn:H1; cbn [rbind] in Hr; try discriminate.
  destruct (choice_tool_calls _ d1) as [ d2 | | ] eqn:H2; cbn [rbind] in Hr; try discriminate.
  destruct (py_get choice "finish_reason") as [ fr | | ]; cbn [rbind] in Hr; try discriminate.
  assert (Hd1 : decoder_ok d1).
  { unfold choice_content in H1. returns H1; injection H1 as <-; auto.
    now apply ok_content. }
  assert (Hd2 : decoder_ok d2).
  { unfold choice_tool_calls in H2. returns H2; try (injection H2 as <-; exact Hd1).
    eapply ok_for_each; [ | exact Hd1 | exact H2 ].
    intros; eapply ok_fragment; eauto. }
  injection Hr as <-. destruct (truthy fr); [ now apply ok_same | exact Hd2 ].
Qed.

Lemma ok_chunk_step (d : decoder) (chunk : json) (d' : decoder) :
  decoder_ok d -> chunk_step d chunk = Ok d' -> decoder_ok d'.
Proof.
  unfold chunk_step. intros Hd Hr.
  destruct (py_get chunk "usage") as [ cu | | ]; cbn [rbind] in Hr; try discriminate.
  destruct (chunk_usage_step cu d) as [ d1 | | ] eqn:H1; cbn [rbind] in Hr; try discriminate.
  assert (Hd1 : decoder_ok d1).
  { unfold chunk_usage_step in H1. returns H1; injection H1 as <-; auto. }
  returns Hr.
  eapply ok_for_each; [ | exact Hd1 | exact Hr ].
  intros; eapply ok_choice_step; eauto.
Qed.

Lemma ok_read_lines `{runtime} (resp : list string) :
  forall d d', decoder_ok d -> read_lines d resp = Ok d' -> decoder_ok d'.
Proof.
  induction resp as [ | line rest IH ]; simpl; intros d d' Hd Hr.
  - now injection Hr as <-.
  - destruct (read_line line) as [ | | chunk ].
    + now injection Hr as <-.
    + eauto.
    + destruct (chunk_step d chunk) as [ d1 | | ] eqn:H1; simpl in Hr; try discriminate.
      eapply IH; [ | exact Hr ]. eapply ok_chunk_step; eauto.
Qed.

Lemma ok_init : decoder_ok init_decoder.
Proof. repeat split; constructor. Qed.

(** *** What the decoding loop accumulates *)

Lemma same_totals_refl (d : decoder) : same_totals d d.
Proof. now repeat split. Qed.

Lemma same_totals_trans (d1 d2 d3 : decoder) :
  same_totals d1 d2 -> same_totals d2 d3 -> same_totals d1 d3.
Proof. unfold same_totals. intros (-> & -> & ->) (-> & -> & ->). now repeat split. Qed.

Lemma totals_fragment_id (tc : json) (cur c' : ToolCall) (d d' : decoder) :
  fragment_id tc (cur, d) = Ok (c', d') -> same_totals d d'.
Proof.
  unfold fragment_id. intros Hr. returns Hr; injection Hr as <- <-; now repeat split.
Qed.

Lemma totals_fragment_name (func : json) (cur c' : ToolCall) (d d' : decoder) :
  fragment_name func (cur, d) = Ok (c', d') -> same_totals d d'.
Proof.
  unfold fragment_name. intros Hr. returns Hr; injection Hr as <- <-; now repeat split.
Qed.

Lemma totals_fragment_arguments (func : json) (cur c' : ToolCall) (d d' : decoder) :
  fragment_arguments func (cur, d) = Ok (c', d') -> same_totals d d'.
Proof.
  unfold fragment_arguments. intros Hr.
  returns Hr; injection Hr as <- <-; now repeat split.
Qed.

Lemma totals_fragment (d : decoder) (tc : json) (d' : decoder) :
  fragment d tc = Ok d' -> same_totals d d'.
Proof.
  unfold fragment. intros Hr.
  destruct (py_get_default tc "index" (JNum 0)) as [ i | | ]; cbn [rbind] in Hr; try discriminate.
  destruct i as [ | | idx | | | ]; try discriminate.
  destruct (fragment_id tc _) as [ [c1 d1] | | ] eqn:H1; cbn [rbind] in Hr; try discriminate.
  destruct (py_get tc "function") as [ f | | ]; cbn [rbind] in Hr; try discriminate.
  destruct (fragment_name _ (c1, d1)) as [ [c2 d2] | | ] eqn:H2; cbn [rbind] in Hr; try discriminate.
  destruct (fragment_arguments _ (c2, d2)) as [ [c3 d3] | | ] eqn:H3; cbn [rbind] in Hr;
    try discriminate.
  injection Hr as <-.
  apply totals_fragment_id in H1. apply totals_fragment_name in H2.
  apply totals_fragment_arguments in H3.
  apply (same_totals_trans d d3); [ | now repeat split ].
  apply (same_totals_trans d d2); [ | exact H3 ].
  apply (same_totals_trans d d1); assumption.
Qed.

Lemma totals_fragments (items : list json) :
  forall d d', for_each fragment d items = Ok d' -> same_totals d d'.
Proof.
  induction items as [ | tc items IH ]; simpl; intros d d' Hr.
  - injection Hr as <-. apply same_totals_refl.
  - destruct (fragment d tc) as [ d1 | | ] eqn:H1; simpl in Hr; try discriminate.
    apply (same_totals_trans d d1); [ now apply totals_fragment in H1 | now apply IH ].
Qed.

Lemma concat_cons (p : string) (pieces : list string) :
  String.concat "" (p :: pieces) = p ++ String.concat "" pieces.
Proof. destruct pieces; simpl; [ now rewrite append_empty | reflexivity ]. Qed.

Lemma concat_app (l1 l2 : list string) :
  String.concat "" (l1 ++ l2) = String.concat "" l1 ++ String.concat "" l2.
Proof.
  induction l1 as [ | p l1 IH ]; [ reflexivity | ].
  change ((p :: l1) ++ l2)%list with (p :: (l1 ++ l2))%list.
  now rewrite !concat_cons, IH, append_assoc.
Qed.

Lemma last_cons {A} (x : A) (l : list A) (dflt : A) : last (x :: l) dflt = last l x.
Proof.
  revert x dflt. induction l as [ | y l IH ]; intros x dflt; [ reflexivity | ].
  change (last (x :: y :: l) dflt) with (last (y :: l) dflt). now rewrite !IH.
Qed.

Lemma last_app {A} (l1 l2 : list A) (dflt : A) :
  last (l1 ++ l2) dflt = last l2 (last l1 dflt).
Proof.
  revert dflt. induction l1 as [ | x l1 IH ]; intros dflt; [ reflexivity | ].
  change ((x :: l1) ++ l2)%list with (x :: (l1 ++ l2))%list.
  now rewrite !last_cons, IH.
Qed.

Lemma traverse_app {A B} (f : A -> result B) (l1 l2 : list A) (r1 r2 : list B) :
  traverse f l1 = Ok r1 -> traverse f l2 = Ok r2 -> traverse f (l1 ++ l2) = Ok (r1 ++ r2)%list.
Proof.
  revert r1. induction l1 as [ | x l1 IH ]; simpl; intros r1 H1 H2.
  - now injection H1 as <-.
  - destruct (f x) as [ y | | ]; simpl in H1 |- *; try discriminate.
    destruct (traverse f l1) as [ ys | | ]; simpl in H1; try discriminate.
    injection H1 as <-. now rewrite (IH ys eq_refl H2).
Qed.

Lemma usage_add_zero_r (u : TokenUsage) : Usage.add u zero_usage = u.
Proof. destruct u. unfold Usage.add. simpl. now rewrite !Z.add_0_r. Qed.

(** One choice: its text is appended, its finish reason kept when it has
    one, and the usage left. *)
Lemma choice_step_totals (d : decoder) (choice : json) (d' : decoder) :
  choice_step d choice = Ok d' ->
  exists r t,
    finish_reason_of choice = Ok r
    /\ delta_text choice = Ok t
    /\ d_content d' = d_content d ++ t
    /\ d_finish_reason d' = (if truthy r then r else d_finish_reason d)
    /\ d_usage d' = d_usage d.
Proof.
  unfold choice_step, finish_reason_of, delta_text. intros Hr.
  destruct (py_get choice "delta") as [ dl | | ]; cbn [rbind] in Hr |- *; try discriminate.
  destruct (choice_content _ d) as [ d1 | | ] eqn:H1; cbn [rbind] in Hr; try discriminate.
  destruct (choice_tool_calls _ d1) as [ d2 | | ] eqn:H2; cbn [rbind] in Hr; try discriminate.
  destruct (py_get choice "finish_reason") as [ fr | | ]; cbn [rbind] in Hr; try discriminate.
  assert (Hd2 : same_totals d1 d2).
  { unfold choice_tool_calls in H2.
    returns H2; try (injection H2 as <-; apply same_totals_refl).
    now apply totals_fragments in H2. }
  destruct Hd2 as (Hc2 & Hf2 & Hu2).
  assert (Hd1 : exists t,
             rbind (py_get (py_or dl (JObj [])) "content")
                   (fun delta_content =>
                      if truthy delta_content
                      then match delta_content with
                           | JStr s => Ok s
                           | _ => Raise TypeError
                           end
                      else Ok "") = Ok t
             /\ d_content d1 = d_content d ++ t
             /\ d_finish_reason d1 = d_finish_reason d
             /\ d_usage d1 = d_usage d).
  { unfold choice_content in H1.
    destruct (py_get (py_or dl (JObj [])) "content") as [ dc | | ]; cbn [rbind] in H1 |- *;
      try discriminate.
    destruct (truthy dc).
    - destruct dc; try discriminate. injection H1 as <-. eexists. split; [ reflexivity | ].
      now repeat split.
    - injection H1 as <-. exists "". rewrite append_empty. now repeat split. }
  destruct Hd1 as (t & Ht & Hc1 & Hf1 & Hu1).
  exists fr, t. split; [ reflexivity | ]. split; [ exact Ht | ].
  injection Hr as <-. unfold py_or.
  destruct (truthy fr); cbn [d_content d_finish_reason d_usage];
    repeat split; congruence.
Qed.

Lemma choices_totals (choices : list json) :
  forall d d',
    for_each choice_step d choices = Ok d' ->
    exists reasons texts,
      traverse finish_reason_of choices = Ok reasons
      /\ traverse delta_text choices = Ok texts
      /\ d_content d' = d_content d ++ String.concat "" texts
      /\ d_finish_reason d' = last (filter truthy reasons) (d_finish_reason d)
      /\ d_usage d' = d_usage d.
Proof.
  induction choices as [ | choice choices IH ]; simpl; intros d d' Hr.
  - injection Hr as <-. exists [], []. simpl. rewrite append_empty. now repeat split.
  - destruct (choice_step d choice) as [ d1 | | ] eqn:H1; simpl in Hr; try discriminate.
    destruct (choice_step_totals d choice d1 H1) as (r & t & Hfr & Ht & Hc1 & Hf1 & Hu1).
    destruct (IH d1 d' Hr) as (rs & ts & Hrs & Hts & Hc & Hf & Hu).
    exists (r :: rs), (t :: ts). rewrite Hfr, Ht, Hrs, Hts. cbn [rbind].
    split; [ reflexivity | ]. split; [ reflexivity | ].
    split; [ now rewrite Hc, Hc1, concat_cons, append_assoc | ].
    split; [ | congruence ].
    rewrite Hf, Hf1. cbn [filter]. destruct (truthy r); [ now rewrite last_cons | reflexivity ].
Qed.

(** One chunk: the usage it reports is added, and its choices are taken in
    order. *)
Lemma chunk_step_totals (d : decoder) (chunk : json) (d' : decoder) :
  chunk_step d chunk = Ok d' ->
  exists u choices reasons texts,
    reported_usage chunk = Ok u
    /\ choices_of chunk = Ok choices
    /\ traverse finish_reason_of choices = Ok reasons
    /\ traverse delta_text choices = Ok texts
    /\ d_content d' = d_content d ++ String.concat "" texts
    /\ d_finish_reason d' = last (filter truthy reasons) (d_finish_reason d)
    /\ d_usage d' = Usage.add (d_usage d) u.
Proof.
  unfold chunk_step, reported_usage, choices_of. intros Hr.
  destruct (py_get chunk "usage") as [ cu | | ]; cbn [rbind] in Hr |- *; try discriminate.
  destruct (chunk_usage_step cu d) as [ d1 | | ] eqn:H1; cbn [rbind] in Hr; try discriminate.
  assert (Hu : exists u,
             match cu with
             | JObj _ => usage_of_dict cu
             | _ => Ok zero_usage
             end = Ok u
             /\ d_content d1 = d_content d
             /\ d_finish_reason d1 = d_finish_reason d
             /\ d_usage d1 = Usage.add (d_usage d) u).
  { unfold chunk_usage_step in H1.
    destruct cu; try (injection H1 as <-; exists zero_usage; rewrite usage_add_zero_r;
                      now repeat split).
    destruct (usage_of_dict _) as [ u | | ]; cbn [rbind] in H1; try discriminate.
    injection H1 as <-. exists u. now repeat split. }
  destruct Hu as (u & Hcu & Hc1 & Hf1 & Hu1).
  destruct (py_get chunk "choices") as [ ch | | ]; cbn [rbind] in Hr |- *; try discriminate.
  destruct (iter_for_get (py_or ch (JArr []))) as [ items | | ]; cbn [rbind] in Hr;
    try discriminate.
  destruct (choices_totals items d1 d' Hr) as (rs & ts & Hrs & Hts & Hc & Hf & Hu').
  exists u, items, rs, ts. repeat split; try assumption; congruence.
Qed.

(** The loop over the lines: the text is that of the deltas of all choices
    joined in order, the finish reason is the last non-empty one among them,
    and the usage is the sum of the usages the chunks report. *)
Lemma read_lines_totals `{runtime} (resp : list string) :
  forall d d',
    read_lines d resp = Ok d' ->
    exists usages choices reasons texts,
      traverse reported_usage (chunks_of resp) = Ok usages
      /\ traverse choices_of (chunks_of resp) = Ok choices
      /\ traverse finish_reason_of (List.concat choices) = Ok reasons
      /\ traverse delta_text (List.concat choices) = Ok texts
      /\ d_content d' = d_content d ++ String.concat "" texts
      /\ d_finish_reason d' = last (filter truthy reasons) (d_finish_reason d)
      /\ d_usage d' = fold_left Usage.add usages (d_usage d).
Proof.
  assert (Hnil : forall d : decoder,
             exists (usages : list TokenUsage) (choices : list (list json))
                    (reasons : list json) (texts : list string),
               Ok [] = Ok usages /\ Ok [] = Ok choices
               /\ traverse finish_reason_of (List.concat choices) = Ok reasons
               /\ traverse delta_text (List.concat choices) = Ok texts
               /\ d_content d = d_content d ++ String.concat "" texts
               /\ d_finish_reason d = last (filter truthy reasons) (d_finish_reason d)
               /\ d_usage d = fold_left Usage.add usages (d_usage d)).
  { intros d. exists [], [], [], []. simpl. rewrite append_empty. now repeat split. }
  induction resp as [ | line rest IH ]; simpl; intros d d' Hr.
  - injection Hr as <-. apply Hnil.
  - destruct (read_line line) as [ | | chunk ].
    + injection Hr as <-. apply Hnil.
    + now apply IH.
    + destruct (chunk_step d chunk) as [ d1 | | ] eqn:H1; simpl in Hr; try discriminate.
      destruct (chunk_step_totals d chunk d1 H1)
        as (u & cs & rs1 & ts1 & Hu & Hcs & Hrs1 & Hts1 & Hc1 & Hf1 & Hu1).
      destruct (IH d1 d' Hr) as (us & css & rs & ts & Hus & Hcss & Hrs & Hts & Hc & Hf & Hu').
      exists (u :: us), (cs :: css), (rs1 ++ rs)%list, (ts1 ++ ts)%list.
      cbn [traverse]. rewrite Hu, Hcs, Hus, Hcss. cbn [rbind List.concat].
      split; [ reflexivity | ]. split; [ reflexivity | ].
      split; [ now apply traverse_app | ]. split; [ now apply traverse_app | ].
      split; [ now rewrite Hc, Hc1, concat_app, append_assoc | ].
      split; [ now rewrite Hf, Hf1, filter_app, last_app | ].
      cbn [fold_left]. now rewrite Hu', Hu1.
Qed.

(** C8: when the lines are used up the decoder holds slots with distinct
    indexes, has emitted no stop or complete event, and its text buffer is
    the text of the content deltas it emitted.  Finalization takes
    every slot once, in strictly ascending order of index; the call of a slot
    keeps its name and arguments and its id, or takes the id [call_] followed
    by the index when it has none, so that every final call has a non-empty
    id; the events end with one tool-call-stop per final call, in that order,
    and then the single complete event, which carries the accumulated text,
    the final calls, the finish reason and the usage of the decoder.  Of the
    chunks decoded, that text is the text of the deltas of all their choices
    joined in order, that finish reason is the last non-empty one among their
    choices, or the empty string when there is none, and that usage is the
    sum of the usages they report. *)
Theorem C8_finalization `{runtime} (resp : list string) (events : list ProviderEvent) :
  OpenAICompatibleProvider._parse_stream resp = Ok events ->
  exists d,
    read_lines init_decoder resp = Ok d
    /\ decoder_ok d
    /\ let slots := sorted_slots (d_slots d) in
       let calls := map finalize_call slots in
       Permutation slots (d_slots d)
       /\ StronglySorted Z.lt (map fst slots)
       /\ calls = map (fun kv => mkToolCall (final_id kv) (tc_name (snd kv))
                                            (tc_arguments (snd kv))) slots
       /\ Forall (fun tc => truthy (tc_id tc) = true) calls
       /\ events = (d_events d ++ map tool_use_stop calls
                      ++ [complete (mkProviderResponse
                                      (JObj [("content", JStr (d_content d))]) calls
                                      (JObj [("finish_reason", d_finish_reason d)])
                                      (d_usage d))])%list
       /\ exists usages choices reasons texts,
            traverse reported_usage (chunks_of resp) = Ok usages
            /\ traverse choices_of (chunks_of resp) = Ok choices
            /\ traverse finish_reason_of (List.concat choices) = Ok reasons
            /\ traverse delta_text (List.concat choices) = Ok texts
            /\ d_content d = String.concat "" texts
            /\ d_finish_reason d = last (filter truthy reasons) (JStr "")
            /\ d_usage d = fold_left Usage.add usages zero_usage.
Proof.
  unfold OpenAICompatibleProvider._parse_stream. intros Hp.
  destruct (read_lines init_decoder resp) as [ d | | ] eqn:Hd; simpl in Hp; try discriminate.
  injection Hp as <-. exists d.
  pose proof (ok_read_lines resp init_decoder d ok_init Hd) as Hok.
  split; [ reflexivity | ]. split; [ exact Hok | ]. cbn zeta.
  split; [ apply sorted_slots_perm | ].
  split; [ apply sorted_slots_ascending; apply Hok | ].
  split; [ | split; [ | split ] ].
  - apply map_ext. intros kv. now rewrite (proj1 (finalize_call_id kv)).
  - apply Forall_forall. intros tc Hin. apply in_map_iff in Hin.
    destruct Hin as (kv & <- & _). apply finalize_call_id.
  - reflexivity.
  - exact (read_lines_totals resp init_decoder d Hd).
Qed.

Lemma C8_witness :
  exists d,
    read_lines (H := reference_runtime) init_decoder reported_stream = Ok d
    /\ decoder_ok d
    /\ let slots := sorted_slots (d_slots d) in
       let calls := map finalize_call slots in
       Permutation slots (d_slots d)
       /\ StronglySorted Z.lt (map fst slots)
       /\ calls = map (fun kv => mkToolCall (final_id kv) (tc_name (snd kv))
                                            (tc_arguments (snd kv))) slots
       /\ Forall (fun tc => truthy (tc_id tc) = true) calls
       /\ [content_delta "Hi";
           tool_use_start (mkToolCall (JStr "") (JStr "cat") (JStr ""));
           tool_use_delta (mkToolCall (JStr "") (JStr "cat") (JStr "{}"));
           tool_use_start (mkToolCall (JStr "call_a") (JStr "") (JStr ""));
           tool_use_start (mkToolCall (JStr "call_a") (JStr "ls") (JStr ""));
           tool_use_delta (mkToolCall (JStr "call_a") (JStr "ls") (JStr "{}"));
           tool_use_stop (mkToolCall (JStr "call_a") (JStr "ls") (JStr "{}"));
           tool_use_stop (mkToolCall (JStr "call_1") (JStr "cat") (JStr "{}"));
           complete (mkProviderResponse
                       (JObj [("content", JStr "Hi")])
                       [mkToolCall (JStr "call_a") (JStr "ls") (JStr "{}");
                        mkToolCall (JStr "call_1") (JStr "cat") (JStr "{}")]
                       (JObj [("finish_reason", JStr "stop")]) (mkTokenUsage 5 3 8))]
          = (d_events d ++ map tool_use_stop calls
               ++ [complete (mkProviderResponse
                               (JObj [("content", JStr (d_content d))]) calls
                               (JObj [("finish_reason", d_finish_reason d)])
                               (d_usage d))])%list
       /\ exists usages choices reasons texts,
            traverse reported_usage (chunks_of (H := reference_runtime) reported_stream)
            = Ok usages
            /\ traverse choices_of (chunks_of (H := reference_runtime) reported_stream)
               = Ok choices
            /\ traverse finish_reason_of (List.concat choices) = Ok reasons
            /\ traverse delta_text (List.concat choices) = Ok texts
            /\ d_content d = String.concat "" texts
            /\ d_finish_reason d = last (filter truthy reasons) (JStr "")
            /\ d_usage d = fold_left Usage.add usages zero_usage.
Proof.
  apply (C8_finalization (H := reference_runtime) reported_stream).
  vm_compute. reflexivity.
Defined.

(** ** Streaming and unary responses *)

Lemma rbind_ok {A} (r : result A) : rbind r (fun a => Ok a) = r.
Proof. now destruct r. Qed.

Lemma for_each_app {A S} (body : S -> A -> result S) (l1 l2 : list A) :
  forall s, for_each body s (l1 ++ l2) = rbind (for_each body s l1) (fun s' => for_each body s' l2).
Proof.
  induction l1 as [ | x l1 IH ]; intros s; simpl; [ reflexivity | ].
  destruct (body s x); simpl; auto.
Qed.

Lemma read_lines_chunks `{runtime} (lines tail : list string) (chunks : list json) :
  Forall2 decodes_to lines chunks -> ends_stream tail ->
  forall d, read_lines d (lines ++ tail) = for_each chunk_step d chunks.
Proof.
  intros Hdec Htail. induction Hdec as [ | line chunk lines chunks Hl Hdec IH ]; intros d; simpl.
  - destruct tail as [ | l tail ]; simpl; [ reflexivity | ].
    simpl in Htail. now rewrite Htail.
  - unfold decodes_to in Hl. rewrite Hl.
    destruct (chunk_step d chunk); simpl; auto.
Qed.




Lemma int_or_0_num (n : Z) : int_or_0 (JNum n) = Ok n.
Proof.
  unfold int_or_0, py_or. simpl. destruct (n =? 0)%Z eqn:Hn; simpl; [ | reflexivity ].
  apply Z.eqb_eq in Hn. now subst.
Qed.

Lemma usage_of_dict_json (u : TokenUsage) : usage_of_dict (usage_json u) = Ok u.
Proof.
  unfold usage_of_dict, usage_json. simpl. rewrite !int_or_0_num. simpl. now destruct u.
Qed.

Lemma chunk_step_usage (d : decoder) (u : TokenUsage) :
  chunk_step d (usage_chunk u)
  = Ok (mkDecoder (d_events d) (d_content d) (d_finish_reason d) (Usage.add (d_usage d) u)
                  (d_slots d)).
Proof.
  unfold chunk_step, usage_chunk. simpl py_get. cbn [rbind]. unfold chunk_usage_step.
  rewrite usage_of_dict_json. reflexivity.
Qed.


(** *** The slots while the calls of a completion stream in *)













(** *** Folding the events *)



(** *** The unary response *)








(** ** The assistant message and its tool calls *)




(** X2: a message without tool calls (the key absent, or its value null
    or empty) gives the empty list; an entry of the list that has no id and
    no function gives a call with the empty id, the empty name and the
    arguments [{}]; an entry that is no dict, or a message that is no dict,
    raises [AttributeError]. *)
Theorem X2_parse_tool_calls_defaults :
  (forall kvs, truthy (get_or kvs "tool_calls" JNull) = false ->
               OpenAICompatibleProvider._parse_tool_calls (JObj kvs) = Ok [])
  /\ (forall acc ckvs,
         truthy (get_or ckvs "function" JNull) = false ->
         OpenAICompatibleProvider.parse_call acc (JObj ckvs)
         = Ok (acc ++ [mkToolCall (get_or ckvs "id" (JStr "")) (JStr "") (JStr "{}")])%list)
  /\ (forall acc ckvs fkvs,
         dict_get ckvs "function" = Some (JObj fkvs) -> fkvs <> [] ->
         OpenAICompatibleProvider.parse_call acc (JObj ckvs)
         = Ok (acc ++ [mkToolCall (get_or ckvs "id" (JStr "")) (get_or fkvs "name" (JStr ""))
                                  (get_or fkvs "arguments" (JStr "{}"))])%list)
  /\ (forall kvs entry rest,
         dict_get kvs "tool_calls" = Some (JArr (entry :: rest)) ->
         (forall ckvs, entry <> JObj ckvs) ->
         OpenAICompatibleProvider._parse_tool_calls (JObj kvs) = Raise AttributeError)
  /\ (forall m, (forall kvs, m <> JObj kvs) ->
                OpenAICompatibleProvider._parse_tool_calls m = Raise AttributeError).
Proof.
  unfold OpenAICompatibleProvider._parse_tool_calls, OpenAICompatibleProvider.parse_call,
    get_or, py_get, py_get_default, py_or.
  split; [ | split; [ | split; [ | split ]]].
  - intros kvs Hf. cbn [rbind]. destruct (dict_get kvs "tool_calls") as [ v | ]; rewrite ?Hf;
      reflexivity.
  - intros acc ckvs Hf. cbn [rbind].
    destruct (dict_get ckvs "function") as [ v | ]; rewrite ?Hf; reflexivity.
  - intros acc ckvs fkvs Hf Hne. cbn [rbind]. rewrite Hf.
    destruct fkvs as [ | kv fkvs ]; [ now elim Hne | reflexivity ].
  - intros kvs entry rest Hk He. cbn [rbind]. rewrite Hk. simpl.
    destruct entry; try reflexivity. now elim (He kvs0).
  - intros m Hm. destruct m; try reflexivity. now elim (Hm kvs).
Qed.

Lemma X2_witness :
  OpenAICompatibleProvider._parse_tool_calls (JObj [("content", JStr "hi"); ("tool_calls", JNull)])
  = Ok []
  /\ OpenAICompatibleProvider.parse_call [] (JObj [("type", JStr "function")])
     = Ok [mkToolCall (JStr "") (JStr "") (JStr "{}")]
  /\ OpenAICompatibleProvider._parse_tool_calls (JObj [("tool_calls", JArr [JStr "ls"])])
     = Raise AttributeError.
Proof.
  destruct X2_parse_tool_calls_defaults as (Hnone & Hdef & _ & Hbad & _).
  split; [ apply Hnone; reflexivity | ].
  split; [ apply (Hdef [] [("type", JStr "function")]); reflexivity | ].
  apply (Hbad [("tool_calls", JArr [JStr "ls"])] (JStr "ls") []).
  - reflexivity.
  - intros ckvs. discriminate.
Defined.

(** ** Replaying a captured event sequence *)

Lemma by_id_get_set_same (m : list (string * ToolCall)) (k : string) (tc : ToolCall) :
  by_id_get (by_id_set m k tc) k = Some tc.
Proof.
  induction m as [ | [k' old] m IH ]; simpl.
  - now rewrite String.eqb_refl.
  - destruct (String.eqb k' k) eqn:Hk; simpl; now rewrite Hk.
Qed.

Lemma by_id_get_set_other (m : list (string * ToolCall)) (k j : string) (tc : ToolCall) :
  k <> j -> by_id_get (by_id_set m k tc) j = by_id_get m j.
Proof.
  intros Hne. induction m as [ | [k' old] m IH ]; simpl.
  - apply String.eqb_neq in Hne. now rewrite Hne.
  - destruct (String.eqb k' k) eqn:Hk; simpl.
    + apply String.eqb_eq in Hk. subst k'.
      apply String.eqb_neq in Hne. now rewrite Hne.
    + now rewrite IH.
Qed.

Lemma by_id_set_keys (m : list (string * ToolCall)) (k j : string) (tc : ToolCall) :
  In j (map fst (by_id_set m k tc)) <-> j = k \/ In j (map fst m).
Proof.
  induction m as [ | [k' old] m IH ]; simpl.
  - intuition.
  - destruct (String.eqb k' k) eqn:Hk; simpl.
    + apply String.eqb_eq in Hk. subst k'. intuition.
    + rewrite IH. intuition.
Qed.

Lemma NoDup_by_id_set (m : list (string * ToolCall)) (k : string) (tc : ToolCall) :
  NoDup (map fst m) -> NoDup (map fst (by_id_set m k tc)).
Proof.
  induction m as [ | [k' old] m IH ]; simpl; intros Hn.
  - constructor; [ intros [] | constructor ].
  - destruct (String.eqb k' k) eqn:Hk; simpl; [ exact Hn | ].
    inversion Hn as [ | x l Hnin Hn' ]; subst. constructor; [ | now apply IH ].
    rewrite by_id_set_keys. intros [ -> | Hin ]; [ | contradiction ].
    now rewrite String.eqb_refl in Hk.
Qed.

Lemma by_id_get_in (m : list (string * ToolCall)) (k : string) (tc : ToolCall) :
  NoDup (map fst m) -> (In (k, tc) m <-> by_id_get m k = Some tc).
Proof.
  induction m as [ | [k' c] m IH ]; simpl; intros Hn.
  - split; [ intros [] | discriminate ].
  - inversion Hn as [ | x l Hnin Hn' ]; subst.
    destruct (String.eqb k' k) eqn:Hk.
    + apply String.eqb_eq in Hk. subst k'. split.
      * intros [ Heq | Hin ]; [ congruence | ].
        elim Hnin. apply in_map_iff. now exists (k, tc).
      * intros Heq. left. congruence.
    + apply String.eqb_neq in Hk. rewrite <- (IH Hn'). split.
      * intros [ Heq | Hin ]; [ congruence | exact Hin ].
      * intros Hin. now right.
Qed.

Lemma fold_tool_call_merged (st : folded) (ev : ProviderEvent) (tc : ToolCall) (s : string) :
  event_call ev = Some tc -> tc_id tc = JStr s -> folded_ok st ->
  exists st',
    fold_tool_call st tc = Ok st'
    /\ folded_ok st'
    /\ f_response st' = f_response st /\ f_content st' = f_content st
    /\ f_usage st' = f_usage st
    /\ forall k, k <> "" ->
                 by_id_get (f_by_id st') k = merge_event k (by_id_get (f_by_id st) k) ev.
Proof.
  intros Hev Hs (Hn & He & Hid). unfold fold_tool_call, merge_event. rewrite Hev, Hs.
  destruct s as [ | a s ].
  - exists st. simpl. repeat split; auto.
    intros k Hk. destruct k; [ now elim Hk | reflexivity ].
  - cbn [truthy String.eqb negb].
    eexists. split; [ reflexivity | ]. unfold folded_ok.
    cbn [f_by_id f_response f_content f_usage].
    assert (Hcur : tc_id (match by_id_get (f_by_id st) (String a s) with
                          | Some c => c
                          | None => mkToolCall (JStr (String a s)) (JStr "") (JStr "")
                          end) = JStr (String a s)).
    { destruct (by_id_get (f_by_id st) (String a s)) as [ c | ] eqn:Hc; [ | reflexivity ].
      now apply Hid. }
    split; [ | repeat split ].
    + split; [ now apply NoDup_by_id_set | split ].
      * rewrite by_id_get_set_other by discriminate. exact He.
      * intros k c. destruct (String.eqb (String a s) k) eqn:Hk.
        -- apply String.eqb_eq in Hk. subst k. rewrite by_id_get_set_same.
           intros Hc. injection Hc as <-.
           destruct (truthy (tc_name tc)), (truthy (tc_arguments tc)); exact Hcur.
        -- apply String.eqb_neq in Hk. rewrite by_id_get_set_other by exact Hk. apply Hid.
    + intros k Hk. unfold eq_str. destruct (String.eqb (String a s) k) eqn:Hak.
      * apply String.eqb_eq in Hak. subst k. rewrite by_id_get_set_same. reflexivity.
      * apply String.eqb_neq in Hak. now rewrite by_id_get_set_other.
Qed.

Lemma fold_events_merged (evs : list ProviderEvent) :
  Forall str_id_event evs ->
  forall st, folded_ok st ->
  exists st',
    for_each fold_event st evs = Ok st'
    /\ folded_ok st'
    /\ f_response st' = f_response st
    /\ f_content st' = f_content st ++ text_of_events evs
    /\ f_usage st' = f_usage st
    /\ forall k, k <> "" ->
                 by_id_get (f_by_id st') k
                 = fold_left (merge_event k) evs (by_id_get (f_by_id st) k).
Proof.
  induction 1 as [ | ev evs Hev Hevs IH ]; intros st Hst; simpl.
  - exists st. rewrite append_empty. repeat split; auto; apply Hst.
  - assert (Hstep : exists st1,
               fold_event st ev = Ok st1 /\ folded_ok st1
               /\ f_response st1 = f_response st
               /\ f_content st1 = f_content st ++ text_of_events [ev]
               /\ f_usage st1 = f_usage st
               /\ forall k, k <> "" ->
                            by_id_get (f_by_id st1) k
                            = merge_event k (by_id_get (f_by_id st) k) ev).
    { destruct ev as [ c | tc | tc | tc | r ]; simpl in Hev.
      - eexists. split; [ reflexivity | ]. simpl. rewrite append_empty. repeat split; apply Hst.
      - destruct Hev as (s & Hs).
        destruct (fold_tool_call_merged st (tool_use_start tc) tc s eq_refl Hs Hst)
          as (st1 & H1 & Hok & Hr & Hc & Hu & Hm).
        exists st1. simpl. rewrite append_empty.
        split; [ exact H1 | ]. split; [ exact Hok | ]. now repeat split.
      - destruct Hev as (s & Hs).
        destruct (fold_tool_call_merged st (tool_use_delta tc) tc s eq_refl Hs Hst)
          as (st1 & H1 & Hok & Hr & Hc & Hu & Hm).
        exists st1. simpl. rewrite append_empty.
        split; [ exact H1 | ]. split; [ exact Hok | ]. now repeat split.
      - destruct Hev as (s & Hs).
        destruct (fold_tool_call_merged st (tool_use_stop tc) tc s eq_refl Hs Hst)
          as (st1 & H1 & Hok & Hr & Hc & Hu & Hm).
        exists st1. simpl. rewrite append_empty.
        split; [ exact H1 | ]. split; [ exact Hok | ]. now repeat split.
      - contradiction. }
    destruct Hstep as (st1 & H1 & Hok1 & Hr1 & Hc1 & Hu1 & Hm1). rewrite H1. cbn [rbind].
    destruct (IH st1 Hok1) as (st' & H' & Hok' & Hr' & Hc' & Hu' & Hm').
    exists st'. split; [ exact H' | ]. split; [ exact Hok' | ].
    split; [ congruence | ]. split.
    + rewrite Hc', Hc1. rewrite append_assoc. f_equal.
      destruct ev; simpl; rewrite ?append_empty; reflexivity.
    + split; [ congruence | ]. intros k Hk. rewrite (Hm' k Hk), (Hm1 k Hk). reflexivity.
Qed.

(** X4: replaying a sequence without a complete event.  The content of
    the response is the text of the content deltas, joined in order; its
    usage is zero and its raw part the empty object; and its tool calls are
    keyed by id: no two of them have the same id, and a call is in the list
    exactly when it is what the events say of some non-empty id, the name
    and the arguments being those of the last events with that id that carry
    one. *)
Theorem X4_replay_without_complete (evs : list ProviderEvent) :
  Forall str_id_event evs ->
  exists calls,
    response_from_events evs
    = Ok (mkProviderResponse (JObj [("content", JStr (text_of_events evs))]) calls (JObj [])
                             zero_usage)
    /\ NoDup (map tc_id calls)
    /\ forall c, In c calls <-> exists k, k <> "" /\ merged k evs = Some c.
Proof.
  intros Hevs.
  assert (H0 : folded_ok (mkFolded None "" [] zero_usage)).
  { repeat split; simpl; [ constructor | discriminate ]. }
  destruct (fold_events_merged evs Hevs _ H0) as (st & Hst & (Hn & He & Hid) & Hr & Hc & Hu & Hm).
  simpl in Hr, Hc, Hu, Hm.
  exists (map snd (f_by_id st)). unfold response_from_events. rewrite Hst. cbn [rbind].
  rewrite Hr, Hc, Hu. split; [ reflexivity | ]. split.
  - assert (Hids : map tc_id (map snd (f_by_id st)) = map JStr (map fst (f_by_id st))).
    { rewrite !map_map. apply map_ext_in. intros [k c] Hin. simpl.
      apply Hid. now apply by_id_get_in. }
    rewrite Hids. clear Hids. induction Hn as [ | k ks Hnin Hn IH ]; simpl; constructor.
    + intros Hin. apply in_map_iff in Hin. destruct Hin as (k' & Hk' & Hin).
      injection Hk' as ->. contradiction.
    + exact IH.
  - intros c. split.
    + intros Hin. apply in_map_iff in Hin. destruct Hin as ([k c'] & Hc' & Hin).
      simpl in Hc'. subst c'. apply (by_id_get_in _ _ _ Hn) in Hin.
      exists k. assert (Hk : k <> "") by (intros ->; congruence).
      split; [ exact Hk | ]. unfold merged. rewrite <- (Hm k Hk). exact Hin.
    + intros (k & Hk & Hmk). unfold merged in Hmk. rewrite <- (Hm k Hk) in Hmk.
      apply (by_id_get_in _ _ _ Hn) in Hmk. apply in_map_iff. now exists (k, c).
Qed.

Lemma X4_witness :
  exists calls,
    response_from_events
      [content_delta "Hel"; tool_use_start (mkToolCall (JStr "c1") (JStr "ls") (JStr ""));
       content_delta "lo"; tool_use_delta (mkToolCall (JStr "c1") (JStr "") (JStr "{}"))]
    = Ok (mkProviderResponse (JObj [("content", JStr "Hello")]) calls (JObj []) zero_usage)
    /\ NoDup (map tc_id calls)
    /\ forall c, In c calls <->
                 exists k, k <> ""
                   /\ merged k [content_delta "Hel";
                                tool_use_start (mkToolCall (JStr "c1") (JStr "ls") (JStr ""));
                                content_delta "lo";
                                tool_use_delta (mkToolCall (JStr "c1") (JStr "") (JStr "{}"))]
                      = Some c.
Proof.
  apply (X4_replay_without_complete
           [content_delta "Hel"; tool_use_start (mkToolCall (JStr "c1") (JStr "ls") (JStr ""));
            content_delta "lo"; tool_use_delta (mkToolCall (JStr "c1") (JStr "") (JStr "{}"))]).
  repeat constructor; simpl; eauto.
Defined.

Lemma fold_events_foldable (evs : list ProviderEvent) :
  Forall foldable evs -> forall st, exists st', for_each fold_event st evs = Ok st'.
Proof.
  induction 1 as [ | ev evs Hev Hevs IH ]; intros st; simpl.
  - now exists st.
  - assert (Hstep : exists st1, fold_event st ev = Ok st1).
    { destruct ev as [ c | tc | tc | tc | r ]; simpl; eauto;
        unfold foldable in Hev; simpl in Hev; unfold fold_tool_call;
        (destruct (truthy (tc_id tc)); simpl; [ | eauto ]);
        destruct (Hev eq_refl) as (s & ->); eauto. }
    destruct Hstep as (st1 & ->). apply IH.
Qed.

(** X3: a complete event is authoritative wherever it stands: when the
    sequence holds complete events, the response of the last of them is
    returned as it is, whatever the other events say. *)
Theorem X3_complete_event_authoritative (before after : list ProviderEvent)
    (r : ProviderResponse) :
  Forall foldable before -> Forall foldable after ->
  Forall (fun ev => is_complete ev = false) after ->
  response_from_events (before ++ complete r :: after) = Ok r.
Proof.
  intros Hb Ha Hnc. unfold response_from_events. rewrite for_each_app.
  destruct (fold_events_foldable before Hb (mkFolded None "" [] zero_usage)) as (st1 & ->).
  cbn [rbind for_each fold_event].
  set (st2 := mkFolded (Some r) (f_content st1) (f_by_id st1) (usage r)).
  assert (Hkeep : forall st, exists st', for_each fold_event st after = Ok st'
                                         /\ f_response st' = f_response st).
  { clear st1 st2. induction after as [ | ev after IH ]; intros st; simpl.
    - now exists st.
    - inversion Ha as [ | x l Hev Ha' ]; subst. inversion Hnc as [ | x l Hc Hnc' ]; subst.
      assert (Hstep : exists st1, fold_event st ev = Ok st1 /\ f_response st1 = f_response st).
      { destruct ev as [ c | tc | tc | tc | r' ]; simpl; eauto; try discriminate;
          unfold foldable in Hev; simpl in Hev; unfold fold_tool_call;
          (destruct (truthy (tc_id tc)); simpl; [ | eauto ]);
          destruct (Hev eq_refl) as (s & ->); eauto. }
      destruct Hstep as (st1 & -> & Hr1). cbn [rbind].
      destruct (IH Ha' Hnc' st1) as (st' & H' & Hr'). exists st'. split; congruence. }
  destruct (Hkeep st2) as (st' & -> & Hr). cbn [rbind]. now rewrite Hr.
Qed.

Lemma X3_witness :
  response_from_events
    ([content_delta "draft"; complete (mkProviderResponse (JObj []) [] JNull zero_usage)]
       ++ complete (mkProviderResponse (JObj [("content", JStr "final")]) [] (JObj [])
                                       (mkTokenUsage 1 2 3))
       :: [content_delta "late"; tool_use_stop (mkToolCall (JStr "c9") (JStr "ls") (JStr "{}"))])
  = Ok (mkProviderResponse (JObj [("content", JStr "final")]) [] (JObj []) (mkTokenUsage 1 2 3)).
Proof.
  apply (X3_complete_event_authoritative
           [content_delta "draft"; complete (mkProviderResponse (JObj []) [] JNull zero_usage)]
           [content_delta "late"; tool_use_stop (mkToolCall (JStr "c9") (JStr "ls") (JStr "{}"))]).
  - repeat constructor.
  - repeat constructor; unfold foldable; simpl; eauto.
  - repeat constructor.
Defined.

(** ** Token usage of a unary result *)

Lemma int_or_0_countable (ukvs : list (string * json)) (k : string) :
  countable ukvs k -> rbind (py_get (JObj ukvs) k) int_or_0 = Ok (count_of ukvs k).
Proof.
  unfold countable, count_of, py_get, py_get_default. cbn [rbind].
  destruct (dict_get ukvs k) as [ [ | b | n | s | l | kvs ] | ]; try contradiction; intros _;
    try reflexivity.
  unfold int_or_0, py_or. simpl. destruct (n =? 0)%Z eqn:Hn; simpl; [ | reflexivity ].
  apply Z.eqb_eq in Hn. now subst.
Qed.

(** X5: a result that is no dict, or has no usage, or a usage that is no
    dict, has zero usage; in a usage dict a counter that is absent or null
    counts zero and an integer counts as itself; and the usage of a result
    that reports the three counters of a usage is that usage. *)
Theorem X5_usage_defaults :
  (forall result_, (forall kvs, result_ <> JObj kvs) -> extract_token_usage result_ = Ok zero_usage)
  /\ (forall kvs, (forall ukvs, dict_get kvs "usage" <> Some (JObj ukvs)) ->
                  extract_token_usage (JObj kvs) = Ok zero_usage)
  /\ (forall kvs ukvs,
         dict_get kvs "usage" = Some (JObj ukvs) ->
         countable ukvs "prompt_tokens" -> countable ukvs "completion_tokens" ->
         countable ukvs "total_tokens" ->
         extract_token_usage (JObj kvs)
         = Ok (mkTokenUsage (count_of ukvs "prompt_tokens") (count_of ukvs "completion_tokens")
                            (count_of ukvs "total_tokens")))
  /\ (forall kvs u, dict_get kvs "usage" = Some (usage_json u) ->
                    extract_token_usage (JObj kvs) = Ok u).
Proof.
  split; [ | split; [ | split ]].
  - intros r Hr. destruct r; try reflexivity. now elim (Hr kvs).
  - intros kvs Hu. unfold extract_token_usage.
    destruct (dict_get kvs "usage") as [ [ | b | n | s | l | ukvs ] | ]; try reflexivity.
    now elim (Hu ukvs).
  - intros kvs ukvs Hu Hp Hc Ht. unfold extract_token_usage. rewrite Hu.
    unfold usage_of_dict.
    pose proof (int_or_0_countable ukvs _ Hp) as Ep.
    pose proof (int_or_0_countable ukvs _ Hc) as Ec.
    pose proof (int_or_0_countable ukvs _ Ht) as Et.
    unfold py_get, py_get_default in *. cbn [rbind] in *.
    rewrite Ep. cbn [rbind]. rewrite Ec. cbn [rbind]. rewrite Et. reflexivity.
  - intros kvs u Hu. unfold extract_token_usage. rewrite Hu.
    change (match usage_json u with JObj _ => usage_of_dict (usage_json u) | _ => Ok zero_usage end)
      with (usage_of_dict (usage_json u)).
    apply usage_of_dict_json.
Qed.

Lemma X5_witness :
  extract_token_usage (JObj [("choices", JArr []); ("usage", JNull)]) = Ok zero_usage
  /\ extract_token_usage
       (JObj [("usage", JObj [("prompt_tokens", JNum 5); ("total_tokens", JNull)])])
     = Ok (mkTokenUsage 5 0 0).
Proof.
  destruct X5_usage_defaults as (_ & Hnone & Hcount & _).
  split.
  - apply Hnone. intros ukvs. discriminate.
  - apply (Hcount [("usage", JObj [("prompt_tokens", JNum 5); ("total_tokens", JNull)])]
             [("prompt_tokens", JNum 5); ("total_tokens", JNull)]); [ reflexivity | | | ];
      exact I.
Defined.

(** ** The tool schema and the tool names of the system prompt *)

Lemma tool_entry_object (kvs : list (string * json)) :
  tool_entry (JObj kvs)
  = Ok (JObj [("type", JStr "function");
              ("function",
               JObj [("name", get_or kvs "name" (JStr ""));
                     ("description", get_or kvs "description" (JStr ""));
                     ("parameters",
                      JObj [("type", JStr "object");
                            ("properties", py_or (get_or kvs "parameters" (JObj [])) (JObj []));
                            ("required", py_or (get_or kvs "required" (JArr [])) (JArr []))])])]).
Proof. reflexivity. Qed.

Lemma py_or_not_null (v d : json) : d <> JNull -> py_or v d <> JNull.
Proof.
  intros Hd. unfold py_or. destruct (truthy v) eqn:Hv; [ | exact Hd ].
  intros ->. discriminate.
Qed.

Lemma schema_of_objects (tools : list (list (string * json))) :
  forall acc,
  exists entries,
    for_each (fun schema tool => rbind (tool_entry tool) (fun e => Ok (schema ++ [e])%list))
             acc (map JObj tools)
    = Ok (acc ++ entries)%list
    /\ map schema_name entries = map (fun kvs => get_or kvs "name" (JStr "")) tools
    /\ Forall (fun e => py_item e "type" = Ok (JStr "function")
                        /\ exists p r,
                             schema_parameters e
                             = JObj [("type", JStr "object"); ("properties", p); ("required", r)]
                             /\ p <> JNull /\ r <> JNull) entries.
Proof.
  induction tools as [ | kvs tools IH ]; intros acc.
  - exists []. simpl. rewrite app_nil_r. repeat split. constructor.
  - cbn [map for_each]. rewrite tool_entry_object. cbn [rbind].
    destruct (IH (acc ++ [JObj [("type", JStr "function");
              ("function",
               JObj [("name", get_or kvs "name" (JStr ""));
                     ("description", get_or kvs "description" (JStr ""));
                     ("parameters",
                      JObj [("type", JStr "object");
                            ("properties", py_or (get_or kvs "parameters" (JObj [])) (JObj []));
                            ("required", py_or (get_or kvs "required" (JArr [])) (JArr []))])])]])%list)
      as (entries & He & Hn & Hf).
    eexists (_ :: entries). split; [ rewrite He, <- app_assoc; reflexivity | ].
    split; [ simpl; now rewrite Hn | ].
    constructor; [ | exact Hf ]. split; [ reflexivity | ].
    eexists _, _. split; [ reflexivity | ].
    split; apply py_or_not_null; discriminate.
Qed.

Lemma names_of_objects (tools : list (list (string * json))) :
  forall acc,
    for_each (fun acc tool =>
                rbind (py_get tool "name")
                      (fun c => if truthy c
                                then rbind (py_get_default tool "name" (JStr ""))
                                           (fun n => Ok (acc ++ [n])%list)
                                else Ok acc))
             acc (map JObj tools)
    = Ok (acc ++ filter truthy (map (fun kvs => get_or kvs "name" (JStr "")) tools))%list.
Proof.
  induction tools as [ | kvs tools IH ]; intros acc; simpl.
  - now rewrite app_nil_r.
  - destruct (dict_get kvs "name") as [ v | ] eqn:Hv.
    + assert (Hg : get_or kvs "name" (JStr "") = v) by (unfold get_or; now rewrite Hv).
      rewrite Hg. simpl. destruct (truthy v) eqn:Ht; simpl; rewrite IH; [ | reflexivity ].
      now rewrite <- app_assoc.
    + assert (Hg : get_or kvs "name" (JStr "") = JStr "") by (unfold get_or; now rewrite Hv).
      rewrite Hg. simpl. apply IH.
Qed.

(** X6: for a tool list whose descriptors are dicts, the schema has one
    entry per tool, in order, of type [function], named as the tool (the
    empty name when it has none), whose parameters are an object schema
    with properties and required fields that are never null; and the names
    listed in the system prompt are the names of the schema that are not
    empty, in the same order.  A tool list that is [None] raises
    [TypeError], and a descriptor that is no dict raises [AttributeError]. *)
Theorem X6_tool_schema (tools : list (list (string * json))) :
  (exists schema names,
      build_tool_schema (JArr (map JObj tools)) = Ok schema
      /\ tool_names_of (JArr (map JObj tools)) = Ok names
      /\ List.length schema = List.length tools
      /\ map schema_name schema = map (fun kvs => get_or kvs "name" (JStr "")) tools
      /\ Forall (fun e => py_item e "type" = Ok (JStr "function")
                          /\ exists p r,
                               schema_parameters e
                               = JObj [("type", JStr "object"); ("properties", p);
                                       ("required", r)]
                               /\ p <> JNull /\ r <> JNull) schema
      /\ names = filter truthy (map schema_name schema))
  /\ build_tool_schema JNull = Raise TypeError
  /\ (forall descriptor rest,
         (forall kvs, descriptor <> JObj kvs) ->
         build_tool_schema (JArr (map JObj tools ++ descriptor :: rest)) = Raise AttributeError).
Proof.
  destruct (schema_of_objects tools []) as (schema & Hs & Hn & Hf).
  split; [ | split; [ reflexivity | ]].
  - exists schema, (filter truthy (map (fun kvs => get_or kvs "name" (JStr "")) tools)).
    split; [ exact Hs | ].
    split; [ unfold tool_names_of; cbn [iter_for_get rbind]; apply names_of_objects | ].
    split; [ rewrite <- (length_map schema_name), Hn; apply length_map | ].
    split; [ exact Hn | ]. split; [ exact Hf | now rewrite Hn ].
  - intros descriptor rest Hd. unfold build_tool_schema. cbn [iter_for_get rbind].
    rewrite for_each_app, Hs. cbn [rbind for_each].
    destruct descriptor; try reflexivity. now elim (Hd kvs).
Qed.

Lemma X6_witness :
  build_tool_schema (JArr (map JObj [[("name", JStr "ls")]] ++ [JStr "cat"]))
  = Raise AttributeError.
Proof.
  apply (proj2 (proj2 (X6_tool_schema [[("name", JStr "ls")]]))).
  intros kvs. discriminate.
Defined.

(** ** The model catalogue and the provider *)

(** X8: an id of the catalogue resolves to its entry, whatever fallback
    model and provider name are given with it, and the provider of every
    entry is one [build_provider] knows: the provider built for the
    resolved entry exists and asks for the API model of the entry. *)
Theorem X8_catalogue_lookup (m : Model) (fallback_model provider_name : string) :
  In m SUPPORTED_MODELS ->
  resolve_model (model_id m) fallback_model provider_name = m
  /\ forall environ api_key_ base_url_,
     exists p,
       build_provider environ
         (provider (resolve_model (model_id m) fallback_model provider_name))
         api_key_ base_url_
         (api_model (resolve_model (model_id m) fallback_model provider_name))
       = Ok p
       /\ model p = api_model m /\ api_key p = api_key_.
Proof.
  intros Hin.
  assert (Hr : resolve_model (model_id m) fallback_model provider_name = m).
  { simpl in Hin. repeat (destruct Hin as [ <- | Hin ]; [ reflexivity | ]). contradiction. }
  split; [ exact Hr | ]. intros environ api_key_ base_url_. rewrite Hr.
  simpl in Hin.
  repeat (destruct Hin as [ <- | Hin ]; [ eexists; split; [ reflexivity | now split ] | ]).
  contradiction.
Qed.

Lemma X8_witness :
  resolve_model "groq.llama-3.3-70b" "gpt-4o" "openai"
  = mkModel "groq.llama-3.3-70b" "groq" "llama-3.3-70b-versatile" (59 # 100) (79 # 100)
            128000 false false.
Proof.
  apply (X8_catalogue_lookup
           (mkModel "groq.llama-3.3-70b" "groq" "llama-3.3-70b-versatile" (59 # 100) (79 # 100)
                    128000 false false) "gpt-4o" "openai").
  simpl. tauto.
Defined.

Lemma rstrip_slash_spec (s : string) :
  last_char (rstrip_slash s) <> Some "/"%char
  /\ exists j, s = rstrip_slash s ++ slashes j.
Proof.
  induction s as [ | c r (Hl & j & Hr) ]; simpl.
  - split; [ discriminate | now exists 0%nat ].
  - destruct (rstrip_slash r) as [ | a t ] eqn:Ht.
    + simpl in Hr. destruct (Ascii.eqb c "/") eqn:Hc.
      * apply Ascii.eqb_eq in Hc. subst c.
        split; [ discriminate | ]. exists (S j). simpl. now rewrite Hr.
      * apply Ascii.eqb_neq in Hc. split; [ simpl; congruence | ].
        exists j. simpl. now rewrite Hr.
    + split; [ exact Hl | ]. exists j. simpl. simpl in Hr. now rewrite <- Hr.
Qed.

(** X9: the provider that [build_provider] returns is built from the
    defaults of the provider named, the name being taken without
    surrounding blanks and in lower case; its base URL is the URL given (or,
    if none is given, the default one) without the slashes at its end, so it
    never ends in a slash; key and model are those given.  A name that is
    none of the six known raises [ValueError]. *)
Theorem X9_provider_base_url (environ : list (string * string))
    (provider_name api_key_ base_url_ model_ : string) :
  (forall p,
      build_provider environ provider_name api_key_ base_url_ model_ = Ok p ->
      exists s default_url headers j,
        str_strip provider_name = Ok s
        /\ In (lower s, (default_url, headers)) (PROVIDER_DEFAULTS environ)
        /\ extra_headers p = headers
        /\ (if String.eqb base_url_ "" then default_url else base_url_)
           = base_url p ++ slashes j
        /\ last_char (base_url p) <> Some "/"%char
        /\ api_key p = api_key_ /\ model p = model_)
  /\ (forall s,
        str_strip provider_name = Ok s ->
        ~ In (lower s) ["openai"; "openrouter"; "groq"; "deepseek"; "xai"; "local"] ->
        build_provider environ provider_name api_key_ base_url_ model_ = Raise ValueError).
Proof.
  unfold build_provider. split.
  - intros p Hb.
    destruct (str_strip provider_name) as [ s | e | ]; cbn [rbind] in Hb; try discriminate.
    destruct (find _ (PROVIDER_DEFAULTS environ)) as [ [name [default_url headers]] | ] eqn:Hf;
      try discriminate.
    injection Hb as <-. apply find_some in Hf. destruct Hf as [Hin Hname].
    simpl in Hname. apply String.eqb_eq in Hname. subst name.
    destruct (rstrip_slash_spec (if String.eqb base_url_ "" then default_url else base_url_))
      as (Hl & j & Hj).
    exists s, default_url, headers, j. simpl. now repeat split.
  - intros s Hs Hnin. rewrite Hs. cbn [rbind].
    destruct (find _ (PROVIDER_DEFAULTS environ)) as [ [name [default_url headers]] | ] eqn:Hf;
      [ | reflexivity ].
    apply find_some in Hf. destruct Hf as [Hin Hname].
    simpl in Hname. apply String.eqb_eq in Hname. subst name.
    elim Hnin. simpl in Hin |- *.
    repeat (destruct Hin as [ Hin | Hin ];
            [ injection Hin as <- _ _; tauto | ]).
    contradiction.
Qed.

Lemma X9_witness :
  (exists s default_url headers j,
      str_strip " OpenRouter " = Ok s
      /\ In (lower s, (default_url, headers)) (PROVIDER_DEFAULTS [])
      /\ extra_headers (mkProvider "key" "http://localhost:8080/v1" "m"
                                   [("HTTP-Referer", "opencode.ai"); ("X-Title", "OpenCode")])
         = headers
      /\ (if String.eqb "http://localhost:8080/v1//" "" then default_url
          else "http://localhost:8080/v1//")
         = base_url (mkProvider "key" "http://localhost:8080/v1" "m"
                                [("HTTP-Referer", "opencode.ai"); ("X-Title", "OpenCode")])
           ++ slashes j
      /\ last_char (base_url (mkProvider "key" "http://localhost:8080/v1" "m"
                                         [("HTTP-Referer", "opencode.ai");
                                          ("X-Title", "OpenCode")]))
         <> Some "/"%char
      /\ api_key (mkProvider "key" "http://localhost:8080/v1" "m"
                             [("HTTP-Referer", "opencode.ai"); ("X-Title", "OpenCode")]) = "key"
      /\ model (mkProvider "key" "http://localhost:8080/v1" "m"
                           [("HTTP-Referer", "opencode.ai"); ("X-Title", "OpenCode")]) = "m")
  /\ build_provider [] "anthropic" "key" "" "m" = Raise ValueError.
Proof.
  split.
  - apply (proj1 (X9_provider_base_url [] " OpenRouter " "key" "http://localhost:8080/v1//" "m")).
    reflexivity.
  - apply (proj2 (X9_provider_base_url [] "anthropic" "key" "" "m") "anthropic").
    + reflexivity.
    + simpl. intros H. repeat (destruct H as [ H | H ]; [ discriminate | ]). contradiction.
Defined.

(** X27: the headers sent for a provider that [build_provider] returned
    are the content type, the authorization with the key given, and after
    them the headers of the provider's defaults: no default header
    replaces the content type or the authorization. *)
Theorem X27_request_headers (environ : list (string * string))
    (provider_name api_key_ base_url_ model_ : string) (p : Provider) :
  build_provider environ provider_name api_key_ base_url_ model_ = Ok p ->
  request_headers p
  = ([("Content-Type", "application/json"); ("Authorization", ("Bearer " ++ api_key_)%string)]
       ++ extra_headers p)%list.
Proof.
  unfold build_provider. intros Hb.
  destruct (str_strip provider_name) as [ s | e | ]; cbn [rbind] in Hb; try discriminate.
  destruct (find _ (PROVIDER_DEFAULTS environ)) as [ [name [default_url headers]] | ] eqn:Hf;
    try discriminate.
  injection Hb as <-. apply find_some in Hf. destruct Hf as [Hin _].
  unfold request_headers. simpl in Hin |- *.
  repeat (destruct Hin as [ Hin | Hin ]; [ injection Hin as _ _ <-; reflexivity | ]).
  contradiction.
Qed.

Lemma X27_witness :
  request_headers (mkProvider "key" "https://openrouter.ai/api/v1" "m"
                              [("HTTP-Referer", "opencode.ai"); ("X-Title", "OpenCode")])
  = ([("Content-Type", "application/json"); ("Authorization", ("Bearer " ++ "key")%string)]
       ++ extra_headers (mkProvider "key" "https://openrouter.ai/api/v1" "m"
                                    [("HTTP-Referer", "opencode.ai"); ("X-Title", "OpenCode")]))%list.
Proof.
  apply (X27_request_headers [] "openrouter" "key" "" "m"). reflexivity.
Defined.

(** ** Replies of the tool server *)

(** The checks on a reply that is a dict carrying the id of the request. *)
Lemma check_reply_object `{runtime} (req_id line : string) (kvs : list (string * json)) :
  line <> "" -> json_loads line = Some (JObj kvs) -> dict_get kvs "id" = Some (JStr req_id) ->
  ToolServerClient.check_reply req_id line
  = if truthy (get_or kvs "error" JNull)
    then rbind (py_item (get_or kvs "error" JNull) "message") (fun m => Raise (RuntimeError m))
    else Ok (get_or kvs "result" JNull).
Proof.
  intros Hl Hj Hid. unfold ToolServerClient.check_reply.
  apply String.eqb_neq in Hl. rewrite Hl, Hj.
  unfold py_get, py_get_default, get_or. cbn [rbind]. rewrite Hid.
  unfold eq_str. rewrite String.eqb_refl. cbn [negb].
  destruct (dict_get kvs "error") as [ err | ] eqn:Herr; [ | reflexivity ].
  destruct (truthy err); [ | reflexivity ].
  unfold py_item at 1. rewrite Herr. reflexivity.
Qed.

Lemma request_reply `{runtime} (E : env) (method : string) (params : json) (w : world) :
  fst (ToolServerClient.request E method params w)
  = ToolServerClient.check_reply (str_int (next_id w)) (proc_stdout E (proc_reads w)).
Proof. now rewrite request_world. Qed.

Lemma tool_attempt_reply `{runtime} (E : env) (name args_obj : json) (w : world) :
  fst (tool_attempt E name args_obj w)
  = rbind (ToolServerClient.check_reply (str_int (next_id w)) (proc_stdout E (proc_reads w)))
          (fun result_ => py_get_default result_ "content" (JStr "")).
Proof.
  unfold tool_attempt, ToolServerClient.call_tool, bind. rewrite request_world.
  now destruct (ToolServerClient.check_reply _ _).
Qed.

(** X18: a reply that carries the id of the request and an error object
    with a message makes [request] raise a [RuntimeError] whose argument is
    that message.  Raised by the [list_tools] request that opens
    [run_agent], it ends the run; raised while a tool call is dispatched, it
    is caught and becomes the content of the tool-role message of the
    call. *)
Theorem X18_remote_error `{runtime} (E : env) (w : world) (kvs ekvs : list (string * json))
    (m : json) :
  proc_stdout E (proc_reads w) <> "" ->
  json_loads (proc_stdout E (proc_reads w)) = Some (JObj kvs) ->
  dict_get kvs "id" = Some (JStr (str_int (next_id w))) ->
  dict_get kvs "error" = Some (JObj ekvs) ->
  dict_get ekvs "message" = Some m ->
  (forall method params,
      fst (ToolServerClient.request E method params w) = Raise (RuntimeError m))
  /\ (forall environ prompt api_key_ base_url_ model_ provider_name stream_enabled max_steps,
        fst (run_agent E environ prompt api_key_ base_url_ model_ provider_name stream_enabled
                       max_steps w)
        = Raise (RuntimeError m))
  /\ (forall messages call,
        fst (dispatch E messages call w)
        = Ok (messages ++ [tool_message call (JStr ("tool call failed: " ++ py_str m))])%list).
Proof.
  intros Hl Hj Hid Herr Hm.
  assert (Hr : ToolServerClient.check_reply (str_int (next_id w)) (proc_stdout E (proc_reads w))
               = Raise (RuntimeError m)).
  { rewrite (check_reply_object _ _ kvs Hl Hj Hid). unfold get_or. rewrite Herr.
    destruct ekvs as [ | kv ekvs ]; [ discriminate | ].
    cbn [truthy]. unfold py_item. rewrite Hm. reflexivity. }
  split; [ | split ].
  - intros method params. now rewrite request_reply.
  - intros. unfold run_agent, bind, ToolServerClient.list_tools.
    pose proof (request_reply E "list_tools" JNull w) as Hq. rewrite Hr in Hq.
    destruct (ToolServerClient.request E "list_tools" JNull w) as [r w1].
    simpl in Hq. now subst r.
  - intros messages call.
    destruct (dispatch_appends E messages call w) as (c & Hd & _ & Hfail).
    rewrite Hd. simpl. rewrite (Hfail (RuntimeError m)); [ reflexivity | ].
    rewrite tool_attempt_reply, Hr. reflexivity.
Qed.

(** X19: a dispatch writes one request to the tool server, a [call_tool]
    with the next id, the name of the call and, as input, the object its
    arguments decode to (the empty object when they are malformed), and it
    reads one reply line.  When the reply carries the id, no error, and a
    dict as result, the tool-role message has the content of the result, or
    the empty text when the result has none. *)
Theorem X19_dispatch_round_trip `{runtime} (E : env) (messages : list json) (call : ToolCall)
    (w : world) :
  let w' := snd (dispatch E messages call w) in
  proc_stdin w'
  = (proc_stdin w ++ [call_request (str_int (next_id w)) call
                        (normalize_arguments (tc_arguments call))])%list
  /\ (exists kvs, normalize_arguments (tc_arguments call) = JObj kvs)
  /\ next_id w' = next_id w + 1
  /\ proc_reads w' = S (proc_reads w)
  /\ http_attempts w' = http_attempts w
  /\ (forall kvs rkvs,
        proc_stdout E (proc_reads w) <> "" ->
        json_loads (proc_stdout E (proc_reads w)) = Some (JObj kvs) ->
        dict_get kvs "id" = Some (JStr (str_int (next_id w))) ->
        truthy (get_or kvs "error" JNull) = false ->
        dict_get kvs "result" = Some (JObj rkvs) ->
        fst (dispatch E messages call w)
        = Ok (messages ++ [tool_message call (get_or rkvs "content" (JStr ""))])%list).
Proof.
  intros w'. subst w'.
  destruct (dispatch_appends E messages call w) as (c & Hd & Hok & _).
  rewrite Hd. unfold ToolServerClient.call_tool. rewrite request_world. simpl.
  split; [ reflexivity | ]. split; [ apply normalize_arguments_is_object | ].
  repeat split.
  intros kvs rkvs Hl Hj Hid Herr Hres.
  rewrite (Hok (get_or rkvs "content" (JStr ""))); [ reflexivity | ].
  rewrite tool_attempt_reply, (check_reply_object _ _ kvs Hl Hj Hid), Herr.
  unfold get_or. rewrite Hres. reflexivity.
Qed.

Lemma X18_witness :
  fst (run_agent (H := reference_runtime) refusing_env [] "hi" "key" "" "gpt-4o-mini" "openai"
                 false 8 init_world)
  = Raise (RuntimeError (JStr "no such tool"))
  /\ fst (dispatch (H := reference_runtime) refusing_env []
                   (mkToolCall (JStr "c1") (JStr "rm") (JStr "{}")) init_world)
     = Ok [tool_message (mkToolCall (JStr "c1") (JStr "rm") (JStr "{}"))
                        (JStr "tool call failed: no such tool")].
Proof.
  destruct (X18_remote_error (H := reference_runtime) refusing_env init_world
              [("id", JStr "1"); ("error", JObj [("message", JStr "no such tool")])]
              [("message", JStr "no such tool")] (JStr "no such tool"))
    as (_ & Hrun & Hdisp); try (vm_compute; reflexivity).
  - vm_compute. discriminate.
  - split; [ apply Hrun | apply (Hdisp [] (mkToolCall (JStr "c1") (JStr "rm") (JStr "{}"))) ].
Defined.

Lemma X19_witness :
  fst (dispatch (H := reference_runtime) looping_env []
                (mkToolCall (JStr "c1") (JStr "ls") (JStr "not json"))
                (snd (ToolServerClient.list_tools (H := reference_runtime) looping_env
                        init_world)))
  = Ok [tool_message (mkToolCall (JStr "c1") (JStr "ls") (JStr "not json")) (JStr "a.go")].
Proof.
  destruct (X19_dispatch_round_trip (H := reference_runtime) looping_env []
              (mkToolCall (JStr "c1") (JStr "ls") (JStr "not json"))
              (snd (ToolServerClient.list_tools (H := reference_runtime) looping_env
                      init_world)))
    as (_ & _ & _ & _ & _ & Hok).
  apply (Hok [("id", JStr "2"); ("result", JObj [("content", JStr "a.go")])]
             [("content", JStr "a.go")]); try (vm_compute; reflexivity).
  vm_compute. discriminate.
Defined.

(** ** Errors while a run is set up *)

Lemma run_agent_setup `{runtime} (E : env) (environ : list (string * string))
    (prompt api_key_ base_url_ model_ provider_name : string) (stream_enabled : bool)
    (max_steps : Z) (w : world) (tools : json) :
  fst (ToolServerClient.list_tools E w) = Ok tools ->
  forall e,
    rbind (build_tool_schema tools)
          (fun _ => rbind (str_strip (environ_get environ "LLM_MODEL_ID" ""))
             (fun llm_model_id =>
                let model_info := resolve_model llm_model_id model_ provider_name in
                rbind (build_provider environ (provider model_info) api_key_ base_url_
                                      (api_model model_info))
                      (fun _ => Ok tt)))
    = Raise e ->
    run_agent E environ prompt api_key_ base_url_ model_ provider_name stream_enabled max_steps w
    = (Raise e, snd (ToolServerClient.list_tools E w)).
Proof.
  intros Ht e He. unfold run_agent. unfold bind at 1.
  destruct (ToolServerClient.list_tools E w) as [r w1]. simpl in Ht. subst r. simpl.
  unfold bind, lift.
  destruct (build_tool_schema tools) as [ schema | e' | ]; cbn [rbind] in He;
    [ | congruence | discriminate ].
  destruct (str_strip (environ_get environ "LLM_MODEL_ID" "")) as [ id | e' | ];
    cbn [rbind] in He; [ | congruence | discriminate ].
  cbv zeta in He.
  destruct (build_provider environ _ api_key_ base_url_ _) as [ p | e' | ];
    cbn [rbind] in He; [ discriminate | congruence | discriminate ].
Qed.

Lemma list_tools_world `{runtime} (E : env) (w : world) :
  http_attempts (snd (ToolServerClient.list_tools E w)) = http_attempts w
  /\ outputs (snd (ToolServerClient.list_tools E w)) = outputs w
  /\ proc_reads (snd (ToolServerClient.list_tools E w)) = S (proc_reads w).
Proof. unfold ToolServerClient.list_tools. rewrite request_world. now simpl. Qed.

(** X7: when the reply to [list_tools] carries the id and neither an
    error nor a result, [list_tools] returns [None] and the run ends there,
    by the [TypeError] of iterating over it, before any request is sent to
    the provider and with nothing printed. *)
Theorem X7_tools_reply_without_result `{runtime} (E : env) (w : world)
    (kvs : list (string * json)) (environ : list (string * string))
    (prompt api_key_ base_url_ model_ provider_name : string) (stream_enabled : bool)
    (max_steps : Z) :
  proc_stdout E (proc_reads w) <> "" ->
  json_loads (proc_stdout E (proc_reads w)) = Some (JObj kvs) ->
  dict_get kvs "id" = Some (JStr (str_int (next_id w))) ->
  truthy (get_or kvs "error" JNull) = false ->
  get_or kvs "result" JNull = JNull ->
  let r := run_agent E environ prompt api_key_ base_url_ model_ provider_name stream_enabled
                     max_steps w in
  fst (ToolServerClient.list_tools E w) = Ok JNull
  /\ fst r = Raise TypeError
  /\ http_attempts (snd r) = http_attempts w
  /\ outputs (snd r) = outputs w.
Proof.
  intros Hl Hj Hid Herr Hres r.
  assert (Ht : fst (ToolServerClient.list_tools E w) = Ok JNull).
  { unfold ToolServerClient.list_tools.
    now rewrite request_reply, (check_reply_object _ _ kvs Hl Hj Hid), Herr, Hres. }
  subst r.
  rewrite (run_agent_setup E environ prompt api_key_ base_url_ model_ provider_name
             stream_enabled max_steps w JNull Ht TypeError eq_refl).
  destruct (list_tools_world E w) as (Ha & Ho & _). now repeat split.
Qed.

Lemma X7_witness :
  fst (run_agent (H := reference_runtime) silent_env [] "hi" "key" "" "gpt-4o-mini" "openai"
                 false 8 init_world)
  = Raise TypeError.
Proof.
  refine (proj1 (proj2 (X7_tools_reply_without_result (H := reference_runtime) silent_env
                          init_world [("id", JStr "1")] [] "hi" "key" "" "gpt-4o-mini" "openai"
                          false 8 _ _ _ _ _))); try (vm_compute; reflexivity).
  vm_compute. discriminate.
Defined.

Lemma resolve_model_unknown (id fallback_model provider_name : string) :
  (forall m, In m SUPPORTED_MODELS -> model_id m <> id) ->
  provider (resolve_model id fallback_model provider_name)
  = if String.eqb provider_name "" then "openai" else provider_name.
Proof.
  intros Hid. unfold resolve_model.
  destruct (String.eqb id ""); [ reflexivity | ].
  destruct (find _ SUPPORTED_MODELS) as [ m | ] eqn:Hf; [ | reflexivity ].
  apply find_some in Hf. destruct Hf as [Hin Heq]. apply String.eqb_eq in Heq.
  now elim (Hid m Hin).
Qed.

(** X10: when the model id of the environment is not in the catalogue and
    the provider name given is none of the six known, the run ends by the
    [ValueError] of [build_provider], after the [list_tools] round trip and
    before any request is sent to the provider, with nothing printed. *)
Theorem X10_unsupported_provider_ends_run `{runtime} (E : env) (w : world)
    (environ : list (string * string))
    (prompt api_key_ base_url_ model_ provider_name : string) (stream_enabled : bool)
    (max_steps : Z) (tools : json) (schema : list json) (id s : string) :
  fst (ToolServerClient.list_tools E w) = Ok tools ->
  build_tool_schema tools = Ok schema ->
  str_strip (environ_get environ "LLM_MODEL_ID" "") = Ok id ->
  (forall m, In m SUPPORTED_MODELS -> model_id m <> id) ->
  provider_name <> "" ->
  str_strip provider_name = Ok s ->
  ~ In (lower s) ["openai"; "openrouter"; "groq"; "deepseek"; "xai"; "local"] ->
  let r := run_agent E environ prompt api_key_ base_url_ model_ provider_name stream_enabled
                     max_steps w in
  fst r = Raise ValueError
  /\ http_attempts (snd r) = http_attempts w
  /\ proc_reads (snd r) = S (proc_reads w)
  /\ outputs (snd r) = outputs w.
Proof.
  intros Ht Hs Hid Hnone Hne Hstrip Hnin r. subst r.
  rewrite (run_agent_setup E environ prompt api_key_ base_url_ model_ provider_name
             stream_enabled max_steps w tools Ht ValueError).
  - destruct (list_tools_world E w) as (Ha & Ho & Hr). now repeat split.
  - rewrite Hs, Hid. cbn [rbind]. cbv zeta.
    rewrite (resolve_model_unknown id model_ provider_name Hnone).
    apply String.eqb_neq in Hne. rewrite Hne.
    unfold build_provider. rewrite Hstrip. cbn [rbind].
    destruct (find _ (PROVIDER_DEFAULTS environ)) as [ [name [default_url headers]] | ] eqn:Hf;
      [ | reflexivity ].
    apply find_some in Hf. destruct Hf as [Hin Hname].
    simpl in Hname. apply String.eqb_eq in Hname. subst name.
    elim Hnin. simpl in Hin |- *.
    repeat (destruct Hin as [ Hin | Hin ]; [ injection Hin as <- _ _; tauto | ]).
    contradiction.
Qed.

Lemma X10_witness :
  fst (run_agent (H := reference_runtime) looping_env [] "hi" "key" "" "claude" "Anthropic"
                 false 8 init_world)
  = Raise ValueError.
Proof.
  refine (proj1 (X10_unsupported_provider_ends_run (H := reference_runtime) looping_env
                   init_world [] "hi" "key" "" "claude" "Anthropic" false 8
                   (JArr []) [] "" "Anthropic" _ _ _ _ _ _ _)); try (vm_compute; reflexivity).
  - intros m Hin. simpl in Hin.
    repeat (destruct Hin as [ <- | Hin ]; [ discriminate | ]). contradiction.
  - discriminate.
  - simpl. intros Hin. repeat (destruct Hin as [ Hin | Hin ]; [ discriminate | ]). contradiction.
Defined.

(** ** More on the retry loop *)

Section RetryMore.
Context `{runtime} (E : env) {A : Type} (payload : list (string * json))
        (on_ok : list string -> result A).

Import OpenAICompatibleProvider.

Lemma int_of_digits_nonneg (s : string) : forall acc, 0 <= acc -> 0 <= int_of_digits acc s.
Proof.
  induction s as [ | c r IH ]; intros acc Hacc; cbn [int_of_digits]; [ exact Hacc | ].
  apply IH. pose proof (Nat2Z.is_nonneg (nat_of_ascii c - 48)). lia.
Qed.

(** X16: a 429 or 500 before the eighth attempt whose Retry-After header
    is a non-empty run of ASCII digits, no longer than [int_digits_limit],
    for a delay below [sleep_limit_ms], makes the loop sleep that many
    seconds, not less than zero, without drawing a random number, and go on
    with the next attempt.  For a run of digits that is longer, or that
    stands for a longer delay, what [int] and [time.sleep] do depends on the
    interpreter and the platform ([time.sleep] raises from about 9.2e9
    seconds on): the outcome is [Unmodelled], and no sleep and no further
    attempt are recorded.  Any other
    ASCII value of the header (empty, a date, a negative or fractional
    number) is ignored: the loop sleeps the backoff with its jitter, as
    without a header, and goes on. *)
Theorem X16_retry_after_header (fuel : nat) (a : Z) (w : world) (code : Z) (ra body : string) :
  server E (http_attempts w) = HttpFail code (Some ra) body ->
  retryable_status code = true ->
  a + 1 < 8 ->
  has_non_ascii ra = false ->
  (ra <> "" -> all_digits ra = true ->
   0 <= int_of_digits 0 ra * 1000
   /\ ((String.length ra <= int_digits_limit)%nat ->
       int_of_digits 0 ra * 1000 < sleep_limit_ms ->
       retry_loop E payload on_ok (S fuel) a w
       = retry_loop E payload on_ok fuel (a + 1)
           (mkWorld (next_id w) (proc_reads w) (proc_stdin w) (S (http_attempts w))
                    (rand_draws w) (sleeps w ++ [int_of_digits 0 ra * 1000])
                    (llm_inputs w ++ [JObj payload]) (outputs w)))
   /\ ((int_digits_limit < String.length ra)%nat
       \/ sleep_limit_ms <= int_of_digits 0 ra * 1000 ->
       retry_loop E payload on_ok (S fuel) a w = (Unmodelled, after_attempt payload w)))
  /\ (ra = "" \/ all_digits ra = false ->
      (0 <= rand E (rand_draws w))%Q -> (rand E (rand_draws w) <= 1 # 5)%Q ->
      retry_loop E payload on_ok (S fuel) a w
      = retry_loop E payload on_ok fuel (a + 1) (after_failures E payload a 1 w)).
Proof.
  intros Hs Hc Ha Hascii.
  assert (Hge : (a + 1 >=? 8) = false) by (rewrite Z.geb_leb; apply Z.leb_gt; lia).
  assert (Hstep : retry_loop E payload on_ok (S fuel) a w
                  = bind (on_http_error E (a + 1) (HTTPError code (Some ra) body) code (Some ra))
                         (fun _ => retry_loop E payload on_ok fuel (a + 1))
                         (after_attempt payload w)).
  { cbn [retry_loop]. unfold bind at 1, urlopen, lift. now rewrite Hs. }
  split.
  - intros Hne Hd.
    pose proof (int_of_digits_nonneg ra 0 ltac:(lia)) as Hnn.
    apply String.eqb_neq in Hne.
    split; [ lia | split ].
    + intros Hlen Hlim. rewrite Hstep. unfold on_http_error.
      rewrite Hc, Hge, Hne, Hascii, Hd. cbn [negb].
      apply Nat.ltb_ge in Hlen. rewrite Hlen.
      unfold bind. rewrite sleep_ms_ok by lia. reflexivity.
    + intros Hover. rewrite Hstep. unfold on_http_error.
      rewrite Hc, Hge, Hne, Hascii, Hd. cbn [negb].
      destruct (int_digits_limit <? String.length ra)%nat eqn:Hlen; [ reflexivity | ].
      apply Nat.ltb_ge in Hlen. destruct Hover as [ Hlong | Hlim ]; [ lia | ].
      unfold bind, sleep_ms.
      assert (H0 : (int_of_digits 0 ra * 1000 <? 0)%Z = false) by (apply Z.ltb_ge; lia).
      assert (H1 : (int_of_digits 0 ra * 1000 <? sleep_limit_ms)%Z = false)
        by (apply Z.ltb_ge; lia).
      now rewrite H0, H1.
  - intros Hor H0 H1. rewrite Hstep. unfold on_http_error.
    rewrite Hc, Hge. cbn [negb].
    assert (Hback : bind (backoff_sleep E (a + 1))
                         (fun _ => retry_loop E payload on_ok fuel (a + 1))
                         (after_attempt payload w)
                    = retry_loop E payload on_ok fuel (a + 1)
                        (after_failures E payload a 1 w)).
    { unfold bind. rewrite backoff_sleep_ok by (simpl; auto).
      f_equal. unfold after_failures, after_attempt. simpl. f_equal; lia. }
    destruct (String.eqb ra "") eqn:Hra; [ exact Hback | ].
    rewrite Hascii. destruct Hor as [ -> | Hd ]; [ discriminate | ]. rewrite Hd.
    exact Hback.
Qed.

(** A result of the loop is a result of the [with] block. *)
Lemma retry_loop_ok (fuel : nat) :
  forall (a : Z) (w w' : world) (v : A),
    retry_loop E payload on_ok fuel a w = (Ok v, w') -> exists body, on_ok body = Ok v.
Proof.
  induction fuel as [ | fuel IH ]; intros a w w' v Hr.
  - discriminate.
  - assert (Hnext : forall (c : M unit) (w1 : world),
               bind c (fun _ => retry_loop E payload on_ok fuel (a + 1)) w1 = (Ok v, w') ->
               exists body, on_ok body = Ok v).
    { intros c w1. unfold bind. destruct (c w1) as [ [ u | e | ] w2 ]; try discriminate.
      apply IH. }
    cbn [retry_loop] in Hr. unfold bind at 1, urlopen, lift in Hr.
    destruct (server E (http_attempts w)) as [ body | code ra body | ].
    + destruct (on_ok body) as [ x | e | ] eqn:Hok.
      * injection Hr as <- _. now exists body.
      * destruct e; try discriminate; eapply Hnext; exact Hr.
      * discriminate.
    + eapply Hnext; exact Hr.
    + eapply Hnext; exact Hr.
Qed.

End RetryMore.

Lemma X16_witness :
  OpenAICompatibleProvider.retry_loop retry_after_env []
    (OpenAICompatibleProvider.read_json (H := reference_runtime)) 8 0 init_world
  = OpenAICompatibleProvider.retry_loop retry_after_env []
      (OpenAICompatibleProvider.read_json (H := reference_runtime)) 7 (0 + 1)
      (mkWorld 1 0 [] 1 0 ([] ++ [int_of_digits 0 "3" * 1000]) ([] ++ [JObj []]) []).
Proof.
  refine (proj1 (proj2 (proj1 (X16_retry_after_header retry_after_env []
                                 (OpenAICompatibleProvider.read_json (H := reference_runtime))
                                 7 0 init_world 429 "3" "" eq_refl eq_refl ltac:(lia) eq_refl)
                          _ eq_refl)) _ _).
  - discriminate.
  - unfold int_digits_limit. simpl. lia.
  - reflexivity.
Defined.

Section Accounting.
Context `{runtime} (E : env) {A : Type} (payload : list (string * json))
        (on_ok : list string -> result A).
Hypothesis on_ok_local : forall body e, on_ok body = Raise e -> local_error e.

Import OpenAICompatibleProvider.




End Accounting.

Lemma snd_bind_lift {A B} (c : M A) (f : A -> result B) (w : world) :
  snd (bind c (fun x => lift (f x)) w) = snd (c w).
Proof. unfold bind, lift. now destruct (c w) as [ [ a | e | ] w1 ]. Qed.


(** ** More on the conversation loop *)

Lemma response_from_last_complete (evs : list ProviderEvent) (r response : ProviderResponse) :
  response_from_events (evs ++ [complete r]) = Ok response -> response = r.
Proof.
  unfold response_from_events. rewrite for_each_app.
  destruct (for_each fold_event _ evs) as [ st | e | ]; simpl; try discriminate.
  intros Hr. now injection Hr as <-.
Qed.

Lemma parse_result_message `{runtime} (result_ : json) (response : ProviderResponse) :
  OpenAICompatibleProvider.parse_result result_ = Ok response ->
  exists kvs, message response = JObj kvs.
Proof.
  unfold OpenAICompatibleProvider.parse_result. intros Hr.
  destruct (py_item result_ "choices") as [ choices | | ]; cbn [rbind] in Hr; try discriminate.
  destruct (py_item0 choices) as [ choice | | ]; cbn [rbind] in Hr; try discriminate.
  destruct (py_item choice "message") as [ m | | ]; cbn [rbind] in Hr; try discriminate.
  destruct (OpenAICompatibleProvider._parse_tool_calls m) as [ calls | | ] eqn:Hc;
    cbn [rbind] in Hr; try discriminate.
  destruct (extract_token_usage result_) as [ u | | ]; cbn [rbind] in Hr; try discriminate.
  injection Hr as <-. simpl.
  destruct m; try discriminate. eauto.
Qed.

(** The message of a response the provider call returns is a dict. *)
Lemma provider_call_message `{runtime} (E : env) (p : Provider) (stream_enabled : bool)
    (messages tool_schema : list json) (w w1 : world) (response : ProviderResponse) :
  provider_call E p stream_enabled messages tool_schema w = (Ok response, w1) ->
  exists kvs, message response = JObj kvs.
Proof.
  unfold provider_call. destruct stream_enabled.
  - unfold OpenAICompatibleProvider.stream, bind, lift.
    destruct (OpenAICompatibleProvider.retry_loop E _ _ 8 0 w) as [ [ events | e | ] w2 ] eqn:Hl;
      try discriminate.
    intros Hr. injection Hr as Hr _.
    destruct (retry_loop_ok E _ _ 8 0 w w2 events Hl) as (body & Hb).
    unfold OpenAICompatibleProvider._parse_stream in Hb.
    destruct (read_lines init_decoder body) as [ d | | ]; simpl in Hb; try discriminate.
    injection Hb as <-. unfold finalize in Hr. rewrite app_assoc in Hr.
    apply response_from_last_complete in Hr. subst response. simpl. eauto.
  - unfold OpenAICompatibleProvider.request, bind, lift.
    destruct (OpenAICompatibleProvider._request E p _ w) as [ [ result_ | e | ] w2 ];
      try discriminate.
    intros Hr. injection Hr as Hr _. eapply parse_result_message. exact Hr.
Qed.

Lemma build_assistant_message_dict (kvs : list (string * json)) (calls : list ToolCall) :
  exists rest, build_assistant_message (JObj kvs) calls
               = Ok (JObj (("role", JStr "assistant") :: rest)).
Proof.
  unfold build_assistant_message, py_get, py_get_default. cbn [rbind].
  destruct (match dict_get kvs "content" with Some x => x | None => JNull end), calls;
    simpl; eauto.
Qed.

Section LoopMore.
Context `{runtime} (E : env) (p : Provider) (stream_enabled : bool) (tool_schema : list json).

(** A pass whose provider call fails. *)
Lemma agent_loop_aborted (steps : nat) (messages : list json) (total : TokenUsage)
    (w w1 : world) (e : exn) :
  provider_call E p stream_enabled messages tool_schema w = (Raise e, w1) ->
  agent_loop E p stream_enabled tool_schema (S steps) messages total w
  = (Ok (mkRun Aborted messages total),
     mkWorld (next_id w1) (proc_reads w1) (proc_stdin w1) (http_attempts w1) (rand_draws w1)
             (sleeps w1) (llm_inputs w1) (outputs w1 ++ [StderrLLMFailed e])).
Proof. intros Hcall. cbn [agent_loop]. now rewrite Hcall. Qed.

Lemma agent_loop_unmodelled (steps : nat) (messages : list json) (total : TokenUsage)
    (w w1 : world) :
  provider_call E p stream_enabled messages tool_schema w = (Unmodelled, w1) ->
  agent_loop E p stream_enabled tool_schema (S steps) messages total w = (Unmodelled, w1).
Proof. intros Hcall. cbn [agent_loop]. now rewrite Hcall. Qed.

(** The three ways a pass goes on after the provider has answered. *)
Lemma agent_loop_cases (steps : nat) (messages : list json) (total : TokenUsage)
    (w : world) :
  (exists e w1,
      provider_call E p stream_enabled messages tool_schema w = (Raise e, w1)
      /\ agent_loop E p stream_enabled tool_schema (S steps) messages total w
         = (Ok (mkRun Aborted messages total),
            mkWorld (next_id w1) (proc_reads w1) (proc_stdin w1) (http_attempts w1)
                    (rand_draws w1) (sleeps w1) (llm_inputs w1)
                    (outputs w1 ++ [StderrLLMFailed e])))
  \/ (exists w1,
        provider_call E p stream_enabled messages tool_schema w = (Unmodelled, w1)
        /\ agent_loop E p stream_enabled tool_schema (S steps) messages total w
           = (Unmodelled, w1))
  \/ (exists response w1 am,
        provider_call E p stream_enabled messages tool_schema w = (Ok response, w1)
        /\ build_assistant_message (message response) (tool_calls response) = Ok am
        /\ has_role "tool" am = false /\ has_role "assistant" am = true
        /\ ((tool_calls response = []
             /\ exists content w',
                  py_get (message response) "content" = Ok content
                  /\ agent_loop E p stream_enabled tool_schema (S steps) messages total w
                     = (Ok (mkRun Success (messages ++ [am])
                                  (Usage.add total (usage response))), w')
                  /\ outputs w' = (outputs w1 ++ answer_output content
                                     ++ usage_report (Usage.add total (usage response)))%list
                  /\ http_attempts w' = http_attempts w1 /\ proc_reads w' = proc_reads w1)
            \/ (tool_calls response <> []
                /\ exists contents w2,
                     List.length contents = List.length (tool_calls response)
                     /\ agent_loop E p stream_enabled tool_schema (S steps) messages total w
                        = agent_loop E p stream_enabled tool_schema steps
                            (messages ++ am :: map (fun cc => tool_message (fst cc) (snd cc))
                                                   (combine (tool_calls response) contents))
                            (Usage.add total (usage response)) w2
                     /\ proc_reads w2 = (proc_reads w1 + List.length (tool_calls response))%nat
                     /\ http_attempts w2 = http_attempts w1
                     /\ outputs w2 = outputs w1))).
Proof.
  destruct (provider_call E p stream_enabled messages tool_schema w)
    as [ [ response | e | ] w1 ] eqn:Hcall.
  - right. right.
    destruct (provider_call_message E p stream_enabled messages tool_schema w w1 response Hcall)
      as (kvs & Hm).
    destruct (build_assistant_message_dict kvs (tool_calls response)) as (rest & Ham).
    rewrite <- Hm in Ham.
    exists response, w1, (JObj (("role", JStr "assistant") :: rest)).
    split; [ reflexivity | ]. split; [ exact Ham | ].
    split; [ reflexivity | ]. split; [ reflexivity | ].
    destruct (tool_calls response) as [ | c cs ] eqn:Hcalls.
    + left. split; [ reflexivity | ]. rewrite <- Hcalls in Ham.
      apply (agent_loop_success E p stream_enabled tool_schema steps messages total w w1
               response _ Hcall Hcalls Ham).
    + right. split; [ discriminate | ]. rewrite <- Hcalls in *.
      apply (agent_loop_tools E p stream_enabled tool_schema steps messages total w w1
               response _ Hcall); [ | exact Ham ].
      rewrite Hcalls. discriminate.
  - left. exists e, w1. split; [ reflexivity | ]. now apply agent_loop_aborted.
  - right. left. exists w1. split; [ reflexivity | ]. now apply agent_loop_unmodelled.
Qed.

End LoopMore.



Lemma filter_tool_messages (calls : list ToolCall) :
  forall contents,
    List.length contents = List.length calls ->
    filter (has_role "tool")
           (map (fun cc => tool_message (fst cc) (snd cc)) (combine calls contents))
    = map (fun cc => tool_message (fst cc) (snd cc)) (combine calls contents)
    /\ List.length (combine calls contents) = List.length calls.
Proof.
  induction calls as [ | c calls IH ]; intros [ | x contents ] Hlen; simpl in *;
    try discriminate; [ now split | ].
  destruct (IH contents ltac:(lia)) as (Hf & Hl). rewrite Hf, Hl. now split.
Qed.

Lemma agent_loop_history `{runtime} (E : env) (p : Provider) (stream_enabled : bool)
    (tool_schema : list json) (steps : nat) :
  forall (messages : list json) (total : TokenUsage) (w w' : world) (r : run),
    agent_loop E p stream_enabled tool_schema steps messages total w = (Ok r, w') ->
    exists suffix,
      run_messages r = (messages ++ suffix)%list
      /\ Forall (fun m => has_role "assistant" m = true \/ has_role "tool" m = true) suffix
      /\ proc_reads w' = (proc_reads w + List.length (filter (has_role "tool") suffix))%nat.
Proof.
  induction steps as [ | steps IH ]; intros messages total w w' r Hr.
  - destruct (agent_loop_exhausted E p stream_enabled tool_schema messages total w)
      as (w0 & Hl & _ & _ & Hreads).
    rewrite Hl in Hr. injection Hr as <- <-. exists []. simpl.
    rewrite app_nil_r. repeat split; [ constructor | lia ].
  - assert (Hframe : forall w1 x,
               provider_call E p stream_enabled messages tool_schema w = (x, w1) ->
               proc_reads w1 = proc_reads w).
    { intros w1 x Hcall.
      pose proof (provider_call_frame E p stream_enabled tool_schema messages w) as Hf.
      rewrite Hcall in Hf. now destruct Hf as (_ & _ & Hreads & _). }
    destruct (agent_loop_cases E p stream_enabled tool_schema steps messages total w)
      as [ (e1 & w1 & Hcall & Hl)
         | [ (w1 & _ & Hl) | (response & w1 & am & Hcall & _ & Hnt & Has & Hc) ]].
    + rewrite Hl in Hr. injection Hr as <- <-. exists []. simpl.
      rewrite app_nil_r, (Hframe _ _ Hcall). repeat split; [ constructor | lia ].
    + rewrite Hl in Hr. discriminate.
    + destruct Hc as [ (_ & c & w2 & _ & Hl & _ & _ & Hreads)
                     | (_ & cs & w2 & Hlen & Hl & Hreads & _) ].
      * rewrite Hl in Hr. injection Hr as <- <-. exists [am]. simpl. rewrite Hnt. simpl.
        rewrite Hreads, (Hframe _ _ Hcall).
        repeat split; [ constructor; [ now left | constructor ] | lia ].
      * rewrite Hl in Hr. destruct (IH _ _ _ _ _ Hr) as (suffix & Hm & Hroles & Hcount).
        destruct (filter_tool_messages (tool_calls response) cs Hlen) as (Hf & Hlc).
        exists (am :: map (fun cc => tool_message (fst cc) (snd cc))
                         (combine (tool_calls response) cs) ++ suffix)%list.
        split; [ rewrite Hm, <- app_assoc; reflexivity | ]. split.
        -- constructor; [ now left | ]. apply Forall_app. split; [ | exact Hroles ].
           apply Forall_forall. intros m Hin. apply in_map_iff in Hin.
           destruct Hin as (cc & <- & _). now right.
        -- simpl. rewrite Hnt, filter_app, Hf, length_app, length_map, Hlc.
           rewrite Hcount, Hreads, (Hframe _ _ Hcall). lia.
Qed.

(** X11: the history only grows: the history a run of the loop returns
    is the history it started from followed by messages of role [assistant]
    and [tool] only, and it has one message of role [tool] more for every
    reply line read from the tool server during the run. *)
Theorem X11_history_grows `{runtime} (E : env) (p : Provider) (stream_enabled : bool)
    (tool_schema : list json) (steps : nat) (messages : list json) (total : TokenUsage)
    (w w' : world) (r : run) :
  agent_loop E p stream_enabled tool_schema steps messages total w = (Ok r, w') ->
  exists suffix,
    run_messages r = (messages ++ suffix)%list
    /\ Forall (fun m => has_role "assistant" m = true \/ has_role "tool" m = true) suffix
    /\ proc_reads w' = (proc_reads w + List.length (filter (has_role "tool") suffix))%nat.
Proof. apply agent_loop_history. Qed.

Lemma X11_witness :
  exists suffix,
    match fst (agent_loop (H := reference_runtime) closing_env demo_provider false [] 8 []
                          zero_usage
                          (snd (ToolServerClient.list_tools (H := reference_runtime) closing_env
                                  init_world))) with
    | Ok r => run_messages r
    | _ => []
    end = ([] ++ suffix)%list
    /\ Forall (fun m => has_role "assistant" m = true \/ has_role "tool" m = true) suffix
    /\ proc_reads (snd (agent_loop (H := reference_runtime) closing_env demo_provider false []
                                   8 [] zero_usage
                                   (snd (ToolServerClient.list_tools (H := reference_runtime)
                                           closing_env init_world))))
       = (proc_reads (snd (ToolServerClient.list_tools (H := reference_runtime) closing_env
                             init_world))
          + List.length (filter (has_role "tool") suffix))%nat.
Proof.
  destruct (agent_loop (H := reference_runtime) closing_env demo_provider false [] 8 []
                       zero_usage
                       (snd (ToolServerClient.list_tools (H := reference_runtime) closing_env
                               init_world))) as [ [ r | e | ] w' ] eqn:Hrun;
    try (vm_compute in Hrun; discriminate).
  apply (X11_history_grows (H := reference_runtime) closing_env demo_provider false [] 8 []
           zero_usage _ w' r Hrun).
Defined.

(** X13: a run of the loop with [steps] passes makes at most eight
    attempts per pass, whatever its outcome; in particular a budget of zero
    or less ends [run_agent] without any request to the provider, and what
    it returns then is the outcome BudgetExceeded with zero usage and the
    history of exactly two messages: the system message, whose prompt lists
    the names of the tools the server announced, and the user message, which
    holds the prompt. *)
Theorem X13_attempts_bounded `{runtime} (E : env) (p : Provider) (stream_enabled : bool)
    (tool_schema : list json) :
  (forall steps messages total w,
      (http_attempts (snd (agent_loop E p stream_enabled tool_schema steps messages total w))
       <= http_attempts w + 8 * steps)%nat)
  /\ (forall environ prompt api_key_ base_url_ model_ provider_name max_steps w,
        (http_attempts (snd (run_agent E environ prompt api_key_ base_url_ model_ provider_name
                                       stream_enabled max_steps w))
         <= http_attempts w + 8 * Z.to_nat max_steps)%nat)
  /\ (forall environ prompt api_key_ base_url_ model_ provider_name max_steps w,
        max_steps <= 0 ->
        http_attempts (snd (run_agent E environ prompt api_key_ base_url_ model_ provider_name
                                      stream_enabled max_steps w)) = http_attempts w
        /\ forall r, fst (run_agent E environ prompt api_key_ base_url_ model_ provider_name
                                    stream_enabled max_steps w) = Ok r ->
                     run_exit r = BudgetExceeded
                     /\ run_usage r = zero_usage
                     /\ exists tools names text,
                          fst (ToolServerClient.list_tools E w) = Ok tools
                          /\ tool_names_of tools = Ok names
                          /\ join_names names = Ok text
                          /\ run_messages r
                             = [JObj [("role", JStr "system");
                                      ("content", JStr (system_prompt_of text))];
                                JObj [("role", JStr "user"); ("content", JStr prompt)]]).
Proof.
  assert (Hloop : forall p0 schema steps messages total w,
             (http_attempts (snd (agent_loop E p0 stream_enabled schema steps messages total w))
              <= http_attempts w + 8 * steps)%nat).
  { intros p0 schema. induction steps as [ | steps IH ]; intros messages total w.
    - destruct (agent_loop_exhausted E p0 stream_enabled schema messages total w)
        as (w' & -> & _ & Ha & _). simpl. lia.
    - pose proof (provider_call_frame E p0 stream_enabled schema messages w) as Hf.
      destruct (agent_loop_cases E p0 stream_enabled schema steps messages total w)
        as [ (e1 & w1 & Hcall & Hl)
           | [ (w1 & Hcall & Hl) | (response & w1 & am & Hcall & _ & _ & _ & Hc) ]];
        rewrite Hcall in Hf; destruct Hf as (Ha & _); cbn [snd] in Ha.
      + rewrite Hl. simpl. lia.
      + rewrite Hl. simpl. lia.
      + destruct Hc as [ (_ & c & w' & _ & Hl & _ & Ha' & _)
                       | (_ & cs & w2 & _ & Hl & _ & Ha2 & _) ]; rewrite Hl.
        * simpl. lia.
        * specialize (IH (messages ++ am :: map (fun cc => tool_message (fst cc) (snd cc))
                                                 (combine (tool_calls response) cs))%list
                         (Usage.add total (usage response)) w2). lia. }
  assert (Hrun : forall environ prompt api_key_ base_url_ model_ provider_name max_steps w,
             (http_attempts (snd (run_agent E environ prompt api_key_ base_url_ model_
                                            provider_name stream_enabled max_steps w))
              <= http_attempts w + 8 * Z.to_nat max_steps)%nat).
  { intros. unfold run_agent. unfold bind at 1.
    destruct (list_tools_world E w) as (Ha & _).
    destruct (ToolServerClient.list_tools E w) as [ [ tools | e1 | ] w1 ]; simpl in Ha |- *;
      try lia.
    unfold bind, lift.
    destruct (build_tool_schema tools) as [ schema | | ]; simpl; try lia.
    destruct (str_strip _) as [ id | | ]; simpl; try lia.
    destruct (build_provider environ _ api_key_ base_url_ _) as [ p0 | | ]; simpl; try lia.
    destruct (tool_names_of tools) as [ names | | ]; simpl; try lia.
    destruct (join_names names) as [ text | | ]; simpl; try lia.
    rewrite <- Ha. apply Hloop. }
  split; [ apply Hloop | ]. split; [ apply Hrun | ].
  intros environ prompt api_key_ base_url_ model_ provider_name max_steps w Hmax. split.
  - specialize (Hrun environ prompt api_key_ base_url_ model_ provider_name max_steps w).
    replace (Z.to_nat max_steps) with 0%nat in Hrun by lia.
    assert (Hge : (http_attempts w
                   <= http_attempts (snd (run_agent E environ prompt api_key_ base_url_ model_
                                                    provider_name stream_enabled max_steps w)))%nat);
      [ | lia ].
    unfold run_agent. unfold bind at 1.
    destruct (list_tools_world E w) as (Ha & _).
    destruct (ToolServerClient.list_tools E w) as [ [ tools | e1 | ] w1 ]; simpl in Ha |- *;
      try lia.
    unfold bind, lift.
    destruct (build_tool_schema tools) as [ schema | | ]; simpl; try lia.
    destruct (str_strip _) as [ id | | ]; simpl; try lia.
    destruct (build_provider environ _ api_key_ base_url_ _) as [ p0 | | ]; simpl; try lia.
    destruct (tool_names_of tools) as [ names | | ]; simpl; try lia.
    destruct (join_names names) as [ text | | ]; simpl; try lia.
    replace (Z.to_nat max_steps) with 0%nat by lia.
    match goal with
    | |- context [ agent_loop E ?p0 _ ?sc 0 ?ms ?tot ?w0 ] =>
        destruct (agent_loop_exhausted E p0 stream_enabled sc ms tot w0) as (w' & -> & _ & Hx & _)
    end.
    simpl. lia.
  - intros r. unfold run_agent. unfold bind at 1.
    destruct (ToolServerClient.list_tools E w) as [ [ tools | e1 | ] w1 ]; try discriminate.
    unfold bind, lift.
    destruct (build_tool_schema tools) as [ schema | | ]; try discriminate.
    destruct (str_strip _) as [ id | | ]; try discriminate.
    destruct (build_provider environ _ api_key_ base_url_ _) as [ p0 | | ]; try discriminate.
    destruct (tool_names_of tools) as [ names | | ] eqn:Hnames; try discriminate.
    destruct (join_names names) as [ text | | ] eqn:Htext; try discriminate.
    replace (Z.to_nat max_steps) with 0%nat by lia.
    match goal with
    | |- context [ agent_loop E ?p0 _ ?sc 0 ?ms ?tot ?w0 ] =>
        destruct (agent_loop_exhausted E p0 stream_enabled sc ms tot w0) as (w' & -> & _)
    end.
    simpl. intros Hr. injection Hr as <-.
    split; [ reflexivity | ]. split; [ reflexivity | ].
    exists tools, names, text. cbn [run_messages]. now repeat split.
Qed.

Lemma X13_witness :
  http_attempts (snd (run_agent (H := reference_runtime) looping_env [] "hi" "key" ""
                                "gpt-4o-mini" "openai" false (-1) init_world))
  = http_attempts init_world
  /\ forall r, fst (run_agent (H := reference_runtime) looping_env [] "hi" "key" ""
                              "gpt-4o-mini" "openai" false (-1) init_world) = Ok r ->
               run_exit r = BudgetExceeded
               /\ run_usage r = zero_usage
               /\ exists tools names text,
                    fst (ToolServerClient.list_tools (H := reference_runtime) looping_env
                           init_world) = Ok tools
                    /\ tool_names_of tools = Ok names
                    /\ join_names names = Ok text
                    /\ run_messages r
                       = [JObj [("role", JStr "system");
                                ("content", JStr (system_prompt_of text))];
                          JObj [("role", JStr "user"); ("content", JStr "hi")]].
Proof.
  apply (proj2 (proj2 (X13_attempts_bounded (H := reference_runtime) looping_env demo_provider
                         false []))
           [] "hi" "key" "" "gpt-4o-mini" "openai" (-1) init_world).
  lia.
Defined.

Lemma provider_call_fatal `{runtime} (E : env) (p : Provider) (stream_enabled : bool)
    (messages tool_schema : list json) (w : world) (code : Z) (ra : option string)
    (body : string) :
  server E (http_attempts w) = HttpFail code ra body ->
  retryable_status code = false ->
  provider_call E p stream_enabled messages tool_schema w
  = (Raise (HTTPError code ra body),
     after_attempt (if stream_enabled
                    then OpenAICompatibleProvider._build_stream_payload p messages tool_schema
                    else OpenAICompatibleProvider._build_payload p messages tool_schema) w).
Proof.
  intros Hs Hc. unfold provider_call. destruct stream_enabled.
  - unfold OpenAICompatibleProvider.stream, bind.
    now rewrite (retry_step_fatal E _ OpenAICompatibleProvider._parse_stream 7 0 w code ra body
                   Hs Hc).
  - unfold OpenAICompatibleProvider.request, OpenAICompatibleProvider._request,
      OpenAICompatibleProvider._request_with_retries, bind.
    now rewrite (retry_step_fatal E _ OpenAICompatibleProvider.read_json 7 0 w code ra body
                   Hs Hc).
Qed.

(** X14: an error of the provider call ends the run in Aborted, with exit
    code 1: the history and the usage are those before the call, the error
    is reported on stderr, and no tool call is dispatched.  A status other
    than 429 and 500 does so after one attempt and without a sleep. *)
Theorem X14_provider_failure_aborts `{runtime} (E : env) (p : Provider) (stream_enabled : bool)
    (tool_schema : list json) (steps : nat) (messages : list json) (total : TokenUsage)
    (w : world) :
  (forall e w1,
      provider_call E p stream_enabled messages tool_schema w = (Raise e, w1) ->
      exists w',
        agent_loop E p stream_enabled tool_schema (S steps) messages total w
        = (Ok (mkRun Aborted messages total), w')
        /\ outputs w' = (outputs w ++ [StderrLLMFailed e])%list
        /\ proc_reads w' = proc_reads w /\ proc_stdin w' = proc_stdin w
        /\ http_attempts w' = http_attempts w1)
  /\ (forall code ra body,
        server E (http_attempts w) = HttpFail code ra body ->
        retryable_status code = false ->
        exists w',
          agent_loop E p stream_enabled tool_schema (S steps) messages total w
          = (Ok (mkRun Aborted messages total), w')
          /\ outputs w' = (outputs w ++ [StderrLLMFailed (HTTPError code ra body)])%list
          /\ http_attempts w' = S (http_attempts w)
          /\ sleeps w' = sleeps w
          /\ proc_reads w' = proc_reads w)
  /\ exit_code Aborted = 1
  /\ exit_code Aborted <> exit_code Success.
Proof.
  split; [ | split; [ | split; [ reflexivity | discriminate ]]].
  - intros e w1 Hcall.
    pose proof (provider_call_frame E p stream_enabled tool_schema messages w) as Hf.
    rewrite Hcall in Hf. destruct Hf as (_ & _ & Hr & Hi & Ho & _). simpl in Hr, Hi, Ho.
    eexists. split;
      [ apply (agent_loop_aborted E p stream_enabled tool_schema steps messages total w w1 e
                 Hcall) | ].
    simpl. rewrite Ho. now repeat split.
  - intros code ra body Hs Hc.
    eexists. split.
    + apply (agent_loop_aborted E p stream_enabled tool_schema steps messages total w _ _
               (provider_call_fatal E p stream_enabled messages tool_schema w code ra body
                  Hs Hc)).
    + simpl. now repeat split.
Qed.

Lemma X14_witness :
  exists w',
    agent_loop (H := reference_runtime) unauthorized_env demo_provider true [] 8 [] zero_usage
               init_world
    = (Ok (mkRun Aborted [] zero_usage), w')
    /\ outputs w' = (outputs init_world ++ [StderrLLMFailed (HTTPError 401 None "bad key")])%list
    /\ http_attempts w' = S (http_attempts init_world)
    /\ sleeps w' = sleeps init_world
    /\ proc_reads w' = proc_reads init_world.
Proof.
  apply (proj1 (proj2 (X14_provider_failure_aborts (H := reference_runtime) unauthorized_env
                         demo_provider true [] 7 [] zero_usage init_world))
           401 None "bad key"); reflexivity.
Defined.

(** X15: in the unary path a body that is not what is expected is not
    retried: when the server answers the first attempt, the call ends after
    that one attempt, and it raises [ValueError] for a body that is no JSON,
    [TypeError] for one that is no dict, [KeyError] for one without
    [choices], [IndexError] for an empty list of choices, and [KeyError] for
    a first choice without [message]. *)
Theorem X15_unary_body_errors `{runtime} (E : env) (p : Provider) (messages tools : list json)
    (w : world) (body : list string) :
  server E (http_attempts w) = HttpOk body ->
  let r := provider_call E p false messages tools w in
  snd r = after_attempt (OpenAICompatibleProvider._build_payload p messages tools) w
  /\ (json_loads (String.concat "" body) = None -> fst r = Raise ValueError)
  /\ (forall v, json_loads (String.concat "" body) = Some v -> (forall kvs, v <> JObj kvs) ->
                fst r = Raise TypeError)
  /\ (forall kvs, json_loads (String.concat "" body) = Some (JObj kvs) ->
                  dict_get kvs "choices" = None -> fst r = Raise KeyError)
  /\ (forall kvs, json_loads (String.concat "" body) = Some (JObj kvs) ->
                  dict_get kvs "choices" = Some (JArr []) -> fst r = Raise IndexError)
  /\ (forall kvs ckvs rest,
        json_loads (String.concat "" body) = Some (JObj kvs) ->
        dict_get kvs "choices" = Some (JArr (JObj ckvs :: rest)) ->
        dict_get ckvs "message" = None -> fst r = Raise KeyError).
Proof.
  intros Hs r. subst r. split.
  - unfold provider_call, OpenAICompatibleProvider.request. rewrite snd_bind_lift.
    unfold OpenAICompatibleProvider._request, OpenAICompatibleProvider._request_with_retries.
    now rewrite (retry_step_ok E _ OpenAICompatibleProvider.read_json
                   (fun b e => local_read_json b e) 7 0 w body Hs).
  - rewrite (proj1 (provider_call_answered E p messages tools w body Hs)).
    unfold unary_path, OpenAICompatibleProvider.read_json,
      OpenAICompatibleProvider.parse_result.
    split; [ intros ->; reflexivity | ].
    split; [ intros v -> Hv; cbn [rbind]; destruct v; try reflexivity; now elim (Hv kvs) | ].
    split; [ intros kvs -> Hc; cbn [rbind py_item]; now rewrite Hc | ].
    split; [ intros kvs -> Hc; cbn [rbind py_item]; now rewrite Hc | ].
    intros kvs ckvs rest -> Hc Hm. cbn [rbind py_item]. rewrite Hc. cbn [rbind py_item0 py_item].
    now rewrite Hm.
Qed.

Lemma X15_witness :
  snd (provider_call (H := reference_runtime) retry_after_env demo_provider false [] []
         (mkWorld 1 0 [] 1 0 [] [] []))
  = after_attempt (OpenAICompatibleProvider._build_payload demo_provider [] [])
                  (mkWorld 1 0 [] 1 0 [] [] [])
  /\ fst (provider_call (H := reference_runtime) retry_after_env demo_provider false [] []
            (mkWorld 1 0 [] 1 0 [] [] []))
     = Raise KeyError.
Proof.
  destruct (X15_unary_body_errors (H := reference_runtime) retry_after_env demo_provider [] []
              (mkWorld 1 0 [] 1 0 [] [] []) ["{}"] eq_refl) as (Hw & _ & _ & Hk & _).
  split; [ exact Hw | ]. apply (Hk []); reflexivity.
Defined.

(** ** The tool channel over a whole run *)

Lemma in_step_same (w w' : world) :
  next_id w' = next_id w -> proc_reads w' = proc_reads w -> proc_stdin w' = proc_stdin w ->
  channel_in_step w -> channel_in_step w'.
Proof. unfold channel_in_step. intros -> -> ->. auto. Qed.

Lemma keeps_request `{runtime} (E : env) (method : string) (params : json) :
  keeps_in_step (ToolServerClient.request E method params).
Proof.
  intros w (Hr & Hn & Hk). rewrite request_world. unfold channel_in_step. simpl.
  rewrite length_app. simpl. split; [ lia | ]. split; [ lia | ].
  intros k Hlt. destruct (Nat.eq_dec k (List.length (proc_stdin w))) as [ -> | Hne ].
  - rewrite nth_middle. rewrite Hn. eauto.
  - rewrite app_nth1 by lia. apply Hk. lia.
Qed.

Lemma keeps_lift {A} (r : result A) : keeps_in_step (lift r).
Proof. intros w Hw. exact Hw. Qed.

Lemma keeps_bind {A B} (c : M A) (k : A -> M B) :
  keeps_in_step c -> (forall a, keeps_in_step (k a)) -> keeps_in_step (bind c k).
Proof.
  intros Hc Hk w Hw. unfold bind. specialize (Hc w Hw).
  destruct (c w) as [ [ a | e | ] w1 ]; simpl in Hc; [ now apply Hk | exact Hc | exact Hc ].
Qed.

Lemma keeps_print `{runtime} (o : output) : keeps_in_step (print o).
Proof. intros w Hw. exact Hw. Qed.

Lemma keeps_report_usage `{runtime} (u : TokenUsage) : keeps_in_step (report_usage u).
Proof. unfold report_usage. destruct (total_tokens u >? 0)%Z; intros w Hw; exact Hw. Qed.

Lemma keeps_provider_call `{runtime} (E : env) (p : Provider) (stream_enabled : bool)
    (messages tool_schema : list json) :
  keeps_in_step (provider_call E p stream_enabled messages tool_schema).
Proof.
  intros w Hw.
  destruct (provider_call_frame E p stream_enabled tool_schema messages w)
    as (_ & Hn & Hr & Hi & _).
  now apply (in_step_same w).
Qed.

Lemma keeps_dispatch_all `{runtime} (E : env) (calls : list ToolCall) :
  forall messages, keeps_in_step (dispatch_all E messages calls).
Proof.
  induction calls as [ | call calls IH ]; intros messages; simpl.
  - intros w Hw. exact Hw.
  - apply keeps_bind; [ | intros m; apply IH ].
    intros w Hw. destruct (dispatch_appends E messages call w) as (c & -> & _).
    cbn [snd]. unfold ToolServerClient.call_tool. now apply keeps_request.
Qed.

Lemma keeps_agent_loop `{runtime} (E : env) (p : Provider) (stream_enabled : bool)
    (tool_schema : list json) (steps : nat) :
  forall messages total, keeps_in_step (agent_loop E p stream_enabled tool_schema steps messages total).
Proof.
  induction steps as [ | steps IH ]; intros messages total.
  - cbn [agent_loop]. apply keeps_bind; [ apply keeps_print | intros _ ].
    apply keeps_bind; [ apply keeps_report_usage | intros _ w Hw; exact Hw ].
  - intros w Hw. cbn [agent_loop].
    pose proof (keeps_provider_call E p stream_enabled messages tool_schema w Hw) as H1.
    destruct (provider_call E p stream_enabled messages tool_schema w)
      as [ [ response | e | ] w1 ]; simpl in H1; [ | exact H1 | exact H1 ].
    revert w1 H1.
    change (keeps_in_step
              (bind (lift (build_assistant_message (message response) (tool_calls response)))
                    (fun am =>
                       match tool_calls response with
                       | [] => finish response (messages ++ [am])
                                      (Usage.add total (usage response))
                       | _ :: _ =>
                           bind (dispatch_all E (messages ++ [am]) (tool_calls response))
                                (fun messages' =>
                                   agent_loop E p stream_enabled tool_schema steps messages'
                                              (Usage.add total (usage response)))
                       end))).
    apply keeps_bind; [ apply keeps_lift | intros am ].
    destruct (tool_calls response) as [ | c cs ].
    + unfold finish. apply keeps_bind; [ apply keeps_lift | intros content ].
      apply keeps_bind;
        [ destruct (truthy _); [ apply keeps_print | intros w0 Hw0; exact Hw0 ] | intros _ ].
      apply keeps_bind; [ apply keeps_report_usage | intros _ w0 Hw0; exact Hw0 ].
    + apply keeps_bind; [ apply keeps_dispatch_all | intros m; apply IH ].
Qed.

(** X20: the tool channel stays in step over a whole run, whatever the
    tool server and the provider answer and however the run ends: starting
    from a channel in step (as the initial one is), [run_agent] leaves as
    many reply lines read as requests written, and the [k]-th request it
    wrote carries the id [k], counted from one. *)
Theorem X20_channel_in_step `{runtime} (E : env) (environ : list (string * string))
    (prompt api_key_ base_url_ model_ provider_name : string) (stream_enabled : bool)
    (max_steps : Z) :
  channel_in_step init_world
  /\ forall w,
       channel_in_step w ->
       channel_in_step (snd (run_agent E environ prompt api_key_ base_url_ model_ provider_name
                                       stream_enabled max_steps w)).
Proof.
  split.
  - unfold channel_in_step. simpl. repeat split. intros k Hk. lia.
  - change (keeps_in_step (run_agent E environ prompt api_key_ base_url_ model_ provider_name
                                     stream_enabled max_steps)).
    unfold run_agent.
    apply keeps_bind; [ apply keeps_request | intros tools ].
    apply keeps_bind; [ apply keeps_lift | intros schema ].
    apply keeps_bind; [ apply keeps_lift | intros id ].
    apply keeps_bind; [ apply keeps_lift | intros p ].
    apply keeps_bind; [ apply keeps_lift | intros names ].
    apply keeps_bind; [ apply keeps_lift | intros text ].
    apply keeps_agent_loop.
Qed.

Lemma X20_witness :
  channel_in_step (snd (run_agent (H := reference_runtime) looping_env [] "hi" "key" ""
                                  "gpt-4o-mini" "openai" false 3 init_world)).
Proof.
  apply (proj2 (X20_channel_in_step (H := reference_runtime) looping_env [] "hi" "key" ""
                  "gpt-4o-mini" "openai" false 3) init_world).
  unfold channel_in_step. simpl. repeat split. intros k Hk. lia.
Defined.

(** X26: the history a run returns starts with the system message, which
    lists the names of the tools the server announced, and the user message,
    which holds the prompt as given; the messages after them have the roles
    [assistant] and [tool]; and the run has read one reply line for
    [list_tools] and one for every message of role [tool]. *)
Theorem X26_run_history `{runtime} (E : env) (environ : list (string * string))
    (prompt api_key_ base_url_ model_ provider_name : string) (stream_enabled : bool)
    (max_steps : Z) (w w' : world) (r : run) :
  run_agent E environ prompt api_key_ base_url_ model_ provider_name stream_enabled max_steps w
  = (Ok r, w') ->
  exists tools names text suffix,
    fst (ToolServerClient.list_tools E w) = Ok tools
    /\ tool_names_of tools = Ok names
    /\ join_names names = Ok text
    /\ run_messages r
       = ([JObj [("role", JStr "system"); ("content", JStr (system_prompt_of text))];
           JObj [("role", JStr "user"); ("content", JStr prompt)]] ++ suffix)%list
    /\ Forall (fun m => has_role "assistant" m = true \/ has_role "tool" m = true) suffix
    /\ proc_reads w'
       = (S (proc_reads w) + List.length (filter (has_role "tool") suffix))%nat.
Proof.
  unfold run_agent. unfold bind at 1.
  destruct (list_tools_world E w) as (_ & _ & Hreads).
  destruct (ToolServerClient.list_tools E w) as [ [ tools | e1 | ] w1 ]; try discriminate.
  simpl in Hreads. unfold bind, lift.
  destruct (build_tool_schema tools) as [ schema | | ]; try discriminate.
  destruct (str_strip _) as [ id | | ]; try discriminate.
  destruct (build_provider environ _ api_key_ base_url_ _) as [ p0 | | ]; try discriminate.
  destruct (tool_names_of tools) as [ names | | ] eqn:Hnames; try discriminate.
  destruct (join_names names) as [ text | | ] eqn:Htext; try discriminate.
  intros Hrun. apply agent_loop_history in Hrun.
  destruct Hrun as (suffix & Hm & Hroles & Hcount).
  exists tools, names, text, suffix. rewrite <- Hreads.
  split; [ reflexivity | ]. split; [ exact Hnames | ]. split; [ exact Htext | ].
  split; [ exact Hm | ]. split; [ exact Hroles | exact Hcount ].
Qed.

Lemma X26_witness :
  exists tools names text suffix,
    fst (ToolServerClient.list_tools (H := reference_runtime) looping_env init_world) = Ok tools
    /\ tool_names_of tools = Ok names
    /\ join_names names = Ok text
    /\ match fst (run_agent (H := reference_runtime) looping_env [] "hi" "key" "" "gpt-4o-mini"
                            "openai" false 2 init_world) with
       | Ok r => run_messages r
       | _ => []
       end
       = ([JObj [("role", JStr "system"); ("content", JStr (system_prompt_of text))];
           JObj [("role", JStr "user"); ("content", JStr "hi")]] ++ suffix)%list
    /\ Forall (fun m => has_role "assistant" m = true \/ has_role "tool" m = true) suffix
    /\ proc_reads (snd (run_agent (H := reference_runtime) looping_env [] "hi" "key" ""
                                  "gpt-4o-mini" "openai" false 2 init_world))
       = (S (proc_reads init_world) + List.length (filter (has_role "tool") suffix))%nat.
Proof.
  destruct (run_agent (H := reference_runtime) looping_env [] "hi" "key" "" "gpt-4o-mini"
                      "openai" false 2 init_world) as [ [ r | e | ] w' ] eqn:Hrun;
    try (vm_compute in Hrun; discriminate).
  apply (X26_run_history (H := reference_runtime) looping_env [] "hi" "key" "" "gpt-4o-mini"
           "openai" false 2 init_world w' r Hrun).
Defined.

(** ** More on the lines of an event stream *)

Lemma read_lines_stop `{runtime} (line : string) (pre post : list string) :
  read_line line = Stop ->
  forall d, read_lines d (pre ++ line :: post) = read_lines d pre.
Proof.
  intros Hstop. induction pre as [ | l pre IH ]; intros d; simpl.
  - now rewrite Hstop.
  - destruct (read_line l); auto.
    destruct (chunk_step d chunk); simpl; auto.
Qed.

(** X21: the data line [[DONE]] ends decoding: whatever follows it in the
    body is not read, and the result of decoding, and the response of the
    streaming path, are those of the lines before it. *)
Theorem X21_done_ends_stream `{runtime} (pre post : list string) (line : string) :
  String.prefix "data:" (strip line) = true ->
  strip (drop 5 (strip line)) = "[DONE]" ->
  read_line line = Stop
  /\ OpenAICompatibleProvider._parse_stream (pre ++ line :: post)
     = OpenAICompatibleProvider._parse_stream pre
  /\ stream_path (pre ++ line :: post) = stream_path pre.
Proof.
  intros Hp Hd.
  assert (Hstop : read_line line = Stop).
  { unfold read_line.
    assert (Hs : strip line <> "") by (eapply prefix_nonempty; [ | exact Hp ]; discriminate).
    assert (Hl : line <> "") by (intros ->; now apply Hs).
    apply String.eqb_neq in Hs, Hl. rewrite Hl, Hs, Hp, Hd. reflexivity. }
  assert (Heq : OpenAICompatibleProvider._parse_stream (pre ++ line :: post)
                = OpenAICompatibleProvider._parse_stream pre).
  { unfold OpenAICompatibleProvider._parse_stream.
    now rewrite (read_lines_stop line pre post Hstop). }
  split; [ exact Hstop | ]. split; [ exact Heq | unfold stream_path; now rewrite Heq ].
Qed.

Lemma X21_witness :
  OpenAICompatibleProvider._parse_stream (H := reference_runtime)
    ([data_line (text_chunk "Hello")] ++ done_line :: [data_line (text_chunk " world")])
  = OpenAICompatibleProvider._parse_stream (H := reference_runtime)
      [data_line (text_chunk "Hello")].
Proof.
  apply (X21_done_ends_stream (H := reference_runtime) [data_line (text_chunk "Hello")]
           [data_line (text_chunk " world")] done_line); vm_compute; reflexivity.
Defined.

(** X22: a line that, without the blanks around it, does not start with
    [data:] (an empty line, a comment, an [event:] line) is skipped: the
    result of decoding, and the response of the streaming path, are those
    of the body without the line. *)
Theorem X22_other_lines_skipped `{runtime} (pre post : list string) (line : string) :
  line <> "" ->
  String.prefix "data:" (strip line) = false ->
  read_line line = Skip
  /\ OpenAICompatibleProvider._parse_stream (pre ++ line :: post)
     = OpenAICompatibleProvider._parse_stream (pre ++ post)
  /\ stream_path (pre ++ line :: post) = stream_path (pre ++ post).
Proof.
  intros Hl Hp.
  assert (Hskip : read_line line = Skip).
  { unfold read_line. apply String.eqb_neq in Hl. rewrite Hl, Hp.
    now destruct (String.eqb (strip line) ""). }
  assert (Heq : OpenAICompatibleProvider._parse_stream (pre ++ line :: post)
                = OpenAICompatibleProvider._parse_stream (pre ++ post)).
  { unfold OpenAICompatibleProvider._parse_stream.
    now rewrite (read_lines_skip line pre post Hskip). }
  split; [ exact Hskip | ]. split; [ exact Heq | unfold stream_path; now rewrite Heq ].
Qed.

Lemma X22_witness :
  OpenAICompatibleProvider._parse_stream (H := reference_runtime)
    ([data_line (text_chunk "Hello")] ++ newline :: [data_line (text_chunk " world"); done_line])
  = OpenAICompatibleProvider._parse_stream (H := reference_runtime)
      ([data_line (text_chunk "Hello")] ++ [data_line (text_chunk " world"); done_line]).
Proof.
  apply (X22_other_lines_skipped (H := reference_runtime) [data_line (text_chunk "Hello")]
           [data_line (text_chunk " world"); done_line] newline).
  - discriminate.
  - vm_compute. reflexivity.
Defined.

Lemma usage_chunks_step (us : list TokenUsage) :
  forall d,
    for_each chunk_step d (map usage_chunk us)
    = Ok (mkDecoder (d_events d) (d_content d) (d_finish_reason d)
                    (fold_left Usage.add us (d_usage d)) (d_slots d)).
Proof.
  induction us as [ | u us IH ]; intros d; simpl map; cbn [for_each fold_left].
  - now destruct d.
  - rewrite chunk_step_usage. cbn [rbind]. now rewrite IH.
Qed.

(** X23: the usage reports of a stream add up: after chunks that each
    report a usage, the decoder has its events, text and slots unchanged
    and its usage increased by the sum of the reports; a stream of such
    chunks alone gives a response with the empty text, no tool call and that
    sum as usage. *)
Theorem X23_stream_usage_sums `{runtime} (lines tail : list string) (us : list TokenUsage) :
  Forall2 decodes_to lines (map usage_chunk us) ->
  ends_stream tail ->
  (forall d,
      read_lines d (lines ++ tail)
      = Ok (mkDecoder (d_events d) (d_content d) (d_finish_reason d)
                      (fold_left Usage.add us (d_usage d)) (d_slots d)))
  /\ stream_path (lines ++ tail)
     = Ok (mkProviderResponse (JObj [("content", JStr "")]) []
                              (JObj [("finish_reason", JStr "")])
                              (fold_left Usage.add us zero_usage)).
Proof.
  intros Hdec Htail.
  assert (Hread : forall d,
             read_lines d (lines ++ tail)
             = Ok (mkDecoder (d_events d) (d_content d) (d_finish_reason d)
                             (fold_left Usage.add us (d_usage d)) (d_slots d))).
  { intros d. rewrite (read_lines_chunks lines tail _ Hdec Htail). apply usage_chunks_step. }
  split; [ exact Hread | ].
  unfold stream_path, OpenAICompatibleProvider._parse_stream. rewrite Hread. reflexivity.
Qed.

Lemma X23_witness :
  stream_path (H := reference_runtime)
    (map data_line [usage_chunk (mkTokenUsage 5 0 5); usage_chunk (mkTokenUsage 0 3 3)]
       ++ [done_line])
  = Ok (mkProviderResponse (JObj [("content", JStr "")]) []
                           (JObj [("finish_reason", JStr "")])
                           (fold_left Usage.add [mkTokenUsage 5 0 5; mkTokenUsage 0 3 3]
                                      zero_usage)).
Proof.
  apply (proj2 (X23_stream_usage_sums (H := reference_runtime)
                  (map data_line [usage_chunk (mkTokenUsage 5 0 5);
                                  usage_chunk (mkTokenUsage 0 3 3)])
                  [done_line] [mkTokenUsage 5 0 5; mkTokenUsage 0 3 3]
                  ltac:(repeat constructor; vm_compute; reflexivity)
                  ltac:(vm_compute; reflexivity))).
Defined.

(** X28: a data line whose payload is valid JSON but no dict (a number, a
    string, a list, [null]) is not skipped: when the lines before it are
    decoded chunks that the decoder accepts, decoding raises
    [AttributeError], whatever follows the line; and so does the provider
    call of the streaming path when the server answers the first attempt
    with such a body. *)
Theorem X28_non_object_chunk_raises `{runtime} (pre post : list string) (chunks : list json)
    (line : string) (chunk : json) (d : decoder) :
  Forall2 decodes_to pre chunks ->
  for_each chunk_step init_decoder chunks = Ok d ->
  decodes_to line chunk ->
  (forall kvs, chunk <> JObj kvs) ->
  OpenAICompatibleProvider._parse_stream (pre ++ line :: post) = Raise AttributeError
  /\ stream_path (pre ++ line :: post) = Raise AttributeError
  /\ forall E p messages tools w,
       server E (http_attempts w) = HttpOk (pre ++ line :: post) ->
       fst (provider_call E p true messages tools w) = Raise AttributeError.
Proof.
  intros Hpre.
  assert (Hread : forall d0, read_lines d0 (pre ++ line :: post)
                             = rbind (for_each chunk_step d0 chunks)
                                     (fun d1 => read_lines d1 (line :: post))).
  { induction Hpre as [ | l c pre chunks Hl Hpre IH ]; intros d0; [ reflexivity | ].
    cbn [app read_lines for_each]. unfold decodes_to in Hl. rewrite Hl.
    destruct (chunk_step d0 c); cbn [rbind]; auto. }
  intros Hd Hline Hchunk.
  assert (Hp : OpenAICompatibleProvider._parse_stream (pre ++ line :: post)
               = Raise AttributeError).
  { unfold OpenAICompatibleProvider._parse_stream. rewrite Hread, Hd. cbn [rbind read_lines].
    unfold decodes_to in Hline. rewrite Hline.
    destruct chunk; try reflexivity. now elim (Hchunk kvs). }
  split; [ exact Hp | ].
  assert (Hs : stream_path (pre ++ line :: post) = Raise AttributeError)
    by (unfold stream_path; now rewrite Hp).
  split; [ exact Hs | ].
  intros E p messages tools w Hserver. rewrite <- Hs.
  apply (provider_call_answered E p messages tools w _ Hserver).
Qed.

Lemma X28_witness :
  OpenAICompatibleProvider._parse_stream (H := reference_runtime)
    ([data_line (text_chunk "Hello")] ++ data_line (JNum 5) :: [done_line])
  = Raise AttributeError.
Proof.
  refine (proj1 (X28_non_object_chunk_raises (H := reference_runtime)
                   [data_line (text_chunk "Hello")] [done_line] [text_chunk "Hello"]
                   (data_line (JNum 5)) (JNum 5)
                   (mkDecoder [content_delta "Hello"] "Hello" (JStr "") zero_usage [])
                   _ _ _ _)).
  - repeat constructor.
  - vm_compute. reflexivity.
  - vm_compute. reflexivity.
  - intros kvs. discriminate.
Defined.

(** ** The environment file *)

Lemma environ_has_app (e1 e2 : list (string * string)) (k : string) :
  environ_has (e1 ++ e2) k = (environ_has e1 k || environ_has e2 k)%bool.
Proof. unfold environ_has. apply existsb_app. Qed.

Lemma environ_get_app (e1 e2 : list (string * string)) (k d : string) :
  environ_has e1 k = true -> environ_get (e1 ++ e2) k d = environ_get e1 k d.
Proof.
  unfold environ_has, environ_get. induction e1 as [ | kv e1 IH ]; simpl; [ discriminate | ].
  destruct (String.eqb (fst kv) k); simpl; auto.
Qed.

(** A line leaves the environment as it is or adds one variable to it. *)
Lemma load_env_line_grows (environ environ' : list (string * string)) (line : string) :
  load_env_line environ line = Ok environ' ->
  environ' = environ
  \/ exists key value,
       environ' = (environ ++ [(key, value)])%list
       /\ key <> "" /\ environ_has environ key = false.
Proof.
  unfold load_env_line. intros Hl.
  destruct (str_strip line) as [ raw | | ]; cbn [rbind] in Hl; try discriminate.
  destruct (String.eqb raw "" || String.prefix "#" raw)%bool;
    [ injection Hl as <-; now left | ].
  destruct (if String.prefix "export " raw then str_strip (drop 7 raw) else Ok raw)
    as [ raw' | | ]; cbn [rbind] in Hl; try discriminate.
  destruct (split_eq raw') as [ [key value] | ]; [ | injection Hl as <-; now left ].
  destruct (str_strip key) as [ key' | | ]; cbn [rbind] in Hl; try discriminate.
  destruct (str_strip value) as [ value' | | ]; cbn [rbind] in Hl; try discriminate.
  destruct (String.eqb key' "") eqn:Hk; simpl in Hl; [ injection Hl as <-; now left | ].
  destruct (environ_has environ key') eqn:Hh; [ injection Hl as <-; now left | ].
  destruct (has_nul key' || has_nul (unquote value'))%bool; [ discriminate | ].
  injection Hl as <-. right. exists key', (unquote value').
  apply String.eqb_neq in Hk. now repeat split.
Qed.

(** A line changes nothing in an environment that has the variables of the
    environment the line leaves. *)
Lemma load_env_line_covered (environ environ' big : list (string * string)) (line : string) :
  load_env_line environ line = Ok environ' ->
  (forall k, environ_has environ' k = true -> environ_has big k = true) ->
  load_env_line big line = Ok big.
Proof.
  unfold load_env_line. intros Hl Hbig.
  destruct (str_strip line) as [ raw | | ]; cbn [rbind] in Hl |- *; try discriminate.
  destruct (String.eqb raw "" || String.prefix "#" raw)%bool; [ reflexivity | ].
  destruct (if String.prefix "export " raw then str_strip (drop 7 raw) else Ok raw)
    as [ raw' | | ]; cbn [rbind] in Hl |- *; try discriminate.
  destruct (split_eq raw') as [ [key value] | ]; [ | reflexivity ].
  destruct (str_strip key) as [ key' | | ]; cbn [rbind] in Hl |- *; try discriminate.
  destruct (str_strip value) as [ value' | | ]; cbn [rbind] in Hl |- *; try discriminate.
  destruct (String.eqb key' "") eqn:Hk; simpl in Hl |- *; [ reflexivity | ].
  destruct (environ_has environ key') eqn:Hh.
  - injection Hl as <-. now rewrite (Hbig key' Hh).
  - destruct (has_nul key' || has_nul (unquote value'))%bool; [ discriminate | ].
    injection Hl as <-. rewrite (Hbig key'); [ reflexivity | ].
    rewrite environ_has_app. simpl. rewrite String.eqb_refl. apply orb_true_r.
Qed.

Lemma load_env_lines_grow (lines : list string) :
  forall environ environ',
    for_each load_env_line environ lines = Ok environ' ->
    exists added,
      environ' = (environ ++ added)%list
      /\ NoDup (map fst added)
      /\ Forall (fun kv => fst kv <> "" /\ environ_has environ (fst kv) = false) added.
Proof.
  induction lines as [ | line lines IH ]; intros environ environ' Hl; simpl in Hl.
  - injection Hl as <-. exists []. rewrite app_nil_r. repeat constructor.
  - destruct (load_env_line environ line) as [ env1 | | ] eqn:H1; cbn [rbind] in Hl;
      try discriminate.
    destruct (IH env1 environ' Hl) as (added & -> & Hn & Hf).
    destruct (load_env_line_grows environ env1 line H1)
      as [ -> | (key & value & -> & Hk & Hh) ].
    + now exists added.
    + exists ((key, value) :: added). rewrite <- app_assoc. split; [ reflexivity | ].
      assert (Hadded : Forall (fun kv => fst kv <> key
                                         /\ fst kv <> ""
                                         /\ environ_has environ (fst kv) = false) added).
      { eapply Forall_impl; [ | exact Hf ]. intros [k v] (Hne & Hnot). simpl in *.
        rewrite environ_has_app in Hnot. apply orb_false_iff in Hnot.
        destruct Hnot as (Hnot & Hkey). simpl in Hkey. rewrite orb_false_r in Hkey.
        apply String.eqb_neq in Hkey. repeat split; auto. }
      split.
      * simpl. constructor; [ | exact Hn ].
        intros Hin. apply in_map_iff in Hin. destruct Hin as (kv & Hkv & Hin).
        rewrite Forall_forall in Hadded. now destruct (Hadded kv Hin) as (Hne & _).
      * constructor; [ now split | ].
        eapply Forall_impl; [ | exact Hadded ]. intros kv (_ & Hne & Hnot). now split.
Qed.

(** X24: loading the environment file only adds variables: the
    environment after it is the one before it followed by variables whose
    names are not empty, differ from one another and were not set before;
    so a variable that was set keeps its value, whatever the file says.  A
    file that is missing or unreadable, or holds only blank lines and
    comments, changes nothing. *)
Theorem X24_env_file_only_adds (file : option (list string))
    (environ environ' : list (string * string)) :
  load_env_file file environ = Ok environ' ->
  (exists added,
      environ' = (environ ++ added)%list
      /\ NoDup (map fst added)
      /\ Forall (fun kv => fst kv <> "" /\ environ_has environ (fst kv) = false) added)
  /\ (forall k d, environ_has environ k = true -> environ_get environ' k d = environ_get environ k d)
  /\ (file = None -> environ' = environ)
  /\ (forall lines,
        file = Some lines ->
        Forall (fun line => exists raw, str_strip line = Ok raw
                                        /\ (raw = "" \/ String.prefix "#" raw = true)) lines ->
        environ' = environ).
Proof.
  intros Hl.
  assert (Hadd : exists added,
             environ' = (environ ++ added)%list
             /\ NoDup (map fst added)
             /\ Forall (fun kv => fst kv <> "" /\ environ_has environ (fst kv) = false) added).
  { destruct file as [ lines | ]; simpl in Hl.
    - now apply (load_env_lines_grow lines).
    - injection Hl as <-. exists []. rewrite app_nil_r. repeat constructor. }
  split; [ exact Hadd | ]. split; [ | split ].
  - intros k d Hk. destruct Hadd as (added & -> & _). now apply environ_get_app.
  - intros ->. simpl in Hl. now injection Hl as <-.
  - intros lines -> Hlines. simpl in Hl. clear Hadd. revert Hl.
    induction Hlines as [ | line lines (raw & Hraw & Hc) Hlines IH ]; simpl; intros Hl.
    + now injection Hl as <-.
    + assert (H1 : load_env_line environ line = Ok environ).
      { unfold load_env_line. rewrite Hraw. cbn [rbind].
        destruct Hc as [ -> | -> ]; [ reflexivity | now rewrite orb_true_r ]. }
      rewrite H1 in Hl. now apply IH.
Qed.

Lemma X24_witness :
  (exists added,
      [("HOME", "/root"); ("OPENAI_API_KEY", "from-file")]
      = ([("HOME", "/root")] ++ added)%list
      /\ NoDup (map fst added)
      /\ Forall (fun kv => fst kv <> "" /\ environ_has [("HOME", "/root")] (fst kv) = false)
                added)
  /\ (forall k d, environ_has [("HOME", "/root")] k = true ->
                  environ_get [("HOME", "/root"); ("OPENAI_API_KEY", "from-file")] k d
                  = environ_get [("HOME", "/root")] k d).
Proof.
  destruct (X24_env_file_only_adds
              (Some ["# keys"; "HOME=/tmp"; "export OPENAI_API_KEY = 'from-file' ";
                     "OPENAI_API_KEY=later"])
              [("HOME", "/root")] [("HOME", "/root"); ("OPENAI_API_KEY", "from-file")]
              ltac:(vm_compute; reflexivity)) as (Hadd & Hkeep & _).
  split; [ exact Hadd | exact Hkeep ].
Defined.

(** X25: loading the same file again changes nothing: every variable the
    file could set is set after the first load. *)
Theorem X25_env_file_idempotent (file : option (list string))
    (environ environ' : list (string * string)) :
  load_env_file file environ = Ok environ' ->
  load_env_file file environ' = Ok environ'.
Proof.
  destruct file as [ lines | ]; simpl; [ | reflexivity ].
  assert (Hgen : forall env0 env1 big,
             for_each load_env_line env0 lines = Ok env1 ->
             (forall k, environ_has env1 k = true -> environ_has big k = true) ->
             for_each load_env_line big lines = Ok big).
  { induction lines as [ | line lines IH ]; intros env0 env1 big Hl Hbig; simpl in Hl |- *.
    - reflexivity.
    - destruct (load_env_line env0 line) as [ env2 | | ] eqn:H1; cbn [rbind] in Hl;
        try discriminate.
      destruct (load_env_lines_grow lines env2 env1 Hl) as (added & -> & _).
      rewrite (load_env_line_covered env0 env2 big line H1).
      + cbn [rbind]. eapply IH; [ exact Hl | exact Hbig ].
      + intros k Hk. apply Hbig. rewrite environ_has_app, Hk. reflexivity. }
  intros Hl. eapply Hgen; [ exact Hl | auto ].
Qed.

Lemma X25_witness :
  load_env_file (Some ["HOME=/tmp"; "A=1"; "B=' x '"; "A=2"])
                [("HOME", "/root"); ("A", "1"); ("B", " x ")]
  = Ok [("HOME", "/root"); ("A", "1"); ("B", " x ")].
Proof.
  apply (X25_env_file_idempotent (Some ["HOME=/tmp"; "A=1"; "B=' x '"; "A=2"])
           [("HOME", "/root")]).
  vm_compute. reflexivity.
Defined.
